(** * mlol_client: the page parsers and the workflow orchestrator

    A shallow embedding of [mlol_client/mlol_client.py] and the properties
    of its parsers and of its download, search and reservation workflows.

    Layout:
    - Python strings as lists of code points, with the [str] methods the
      client calls;
    - the BeautifulSoup tree and the lookups the client performs on it;
    - exceptions, the log and the HTTP session as a state-and-error monad;
    - the client's methods, in the order of the source file;
    - the properties. *)

From Stdlib Require Import List NArith ZArith Bool String Ascii Lia Permutation.
From Stdlib Require DecimalString.
Import ListNotations.

Set Implicit Arguments.
Local Open Scope N_scope.

(** ** Python strings *)

(** A [str] is a sequence of Unicode code points. *)
Definition codepoint := N.
Definition pystr := list codepoint.

(** A literal of the source file (all of them are ASCII). *)
Definition py (s : string) : pystr := map N_of_ascii (list_ascii_of_string s).

(** What [str.isspace], [str.lower], [int] and the regular expression class
    [\d] do outside ASCII is decided by the Unicode character database of the
    interpreter.  The client never looks at it directly, so it is an
    interface here; inside ASCII everything is defined below. *)
Class UnicodeData := {
  (** [uni_isspace c]: [c >= 128] is white space. *)
  uni_isspace : codepoint -> bool;
  (** [uni_lower before c after]: lower-casing of [c >= 128]; the text
      before it (nearest character first) and after it are given because the
      mapping of a final sigma depends on them. *)
  uni_lower : pystr -> codepoint -> pystr -> pystr;
  (** [uni_upper c]: upper-casing of [c >= 128]. *)
  uni_upper : codepoint -> pystr;
  (** [uni_decimal c]: the value of [c >= 128] when it is a decimal digit. *)
  uni_decimal : codepoint -> option N
}.

(** The database restricted to ASCII: used to run the model on pages that
    hold ASCII text only. *)
Definition ascii_only : UnicodeData :=
  {| uni_isspace := fun _ => false;
     uni_lower := fun _ c _ => [c];
     uni_upper := fun c => [c];
     uni_decimal := fun _ => None |}.

Module PyStr.
Section WithUnicode.
Context {U : UnicodeData}.

Fixpoint eqb (a b : pystr) : bool :=
  match a, b with
  | [], [] => true
  | x :: a', y :: b' => (x =? y) && eqb a' b'
  | _, _ => false
  end.

(** [s.startswith(pre)] *)
Fixpoint startswith (s pre : pystr) : bool :=
  match pre, s with
  | [], _ => true
  | p :: pre', c :: s' => (p =? c) && startswith s' pre'
  | _ :: _, [] => false
  end.

(** [pat in s] *)
Fixpoint contains (pat s : pystr) : bool :=
  startswith s pat ||
  match s with
  | [] => false
  | _ :: s' => contains pat s'
  end.

(** tab, line feed, vertical tab, form feed, carriage return, the four
    separators 28..31 and the space. *)
Definition isspace (c : codepoint) : bool :=
  if c <? 128
  then ((9 <=? c) && (c <=? 13)) || ((28 <=? c) && (c <=? 32))
  else uni_isspace c.

Fixpoint dropwhile (f : codepoint -> bool) (s : pystr) : pystr :=
  match s with
  | [] => []
  | c :: s' => if f c then dropwhile f s' else s
  end.

(** [s.lstrip()], [s.rstrip()], [s.strip()] *)
Definition lstrip (s : pystr) : pystr := dropwhile isspace s.
Definition rstrip (s : pystr) : pystr := rev (dropwhile isspace (rev s)).
Definition strip (s : pystr) : pystr := rstrip (lstrip s).

(** [s.lstrip(chars)], [s.rstrip(chars)] *)
Definition lstrip_chars (chars s : pystr) : pystr :=
  dropwhile (fun c => existsb (N.eqb c) chars) s.
Definition rstrip_chars (chars s : pystr) : pystr :=
  rev (dropwhile (fun c => existsb (N.eqb c) chars) (rev s)).

Definition lower_ascii (c : codepoint) : codepoint :=
  if (65 <=? c) && (c <=? 90) then c + 32 else c.

Fixpoint lower_from (before s : pystr) : pystr :=
  match s with
  | [] => []
  | c :: s' =>
      (if c <? 128 then [lower_ascii c] else uni_lower before c s')
        ++ lower_from (c :: before) s'
  end.

(** [s.lower()] *)
Definition lower (s : pystr) : pystr := lower_from [] s.

Definition upper_ascii (c : codepoint) : codepoint :=
  if (97 <=? c) && (c <=? 122) then c - 32 else c.

(** [s.upper()] *)
Definition upper (s : pystr) : pystr :=
  flat_map (fun c => if c <? 128 then [upper_ascii c] else uni_upper c) s.

Fixpoint split_ws_from (cur : pystr) (s : pystr) : list pystr :=
  match s with
  | [] => match cur with [] => [] | _ => [rev cur] end
  | c :: s' =>
      if isspace c
      then match cur with
           | [] => split_ws_from [] s'
           | _ => rev cur :: split_ws_from [] s'
           end
      else split_ws_from (c :: cur) s'
  end.

(** [s.split()]: the maximal runs of characters that are not white space. *)
Definition split_ws (s : pystr) : list pystr := split_ws_from [] s.

Fixpoint split_from (sep : codepoint) (cur : pystr) (s : pystr) : list pystr :=
  match s with
  | [] => [rev cur]
  | c :: s' =>
      if c =? sep
      then rev cur :: split_from sep [] s'
      else split_from sep (c :: cur) s'
  end.

(** [s.split(sep)] for a separator of one character. *)
Definition split (sep : codepoint) (s : pystr) : list pystr :=
  split_from sep [] s.

(** The value of a decimal digit. *)
Definition decimal (c : codepoint) : option N :=
  if c <? 128
  then if (48 <=? c) && (c <=? 57) then Some (c - 48) else None
  else uni_decimal c.

Definition isdecimal (c : codepoint) : bool :=
  match decimal c with Some _ => true | None => false end.

(** The digits of an integer literal: groups of digits separated by single
    underscores; [after_digit] says that the previous character was a
    digit. *)
Fixpoint int_digits (acc : Z) (after_digit : bool) (s : pystr) : option Z :=
  match s with
  | [] => if after_digit then Some acc else None
  | c :: s' =>
      match decimal c with
      | Some d => int_digits (10 * acc + Z.of_N d)%Z true s'
      | None =>
          if (c =? 95) && after_digit
          then int_digits acc false s'
          else None
      end
  end.

(** [int(s)]: [None] is the [ValueError]. *)
Definition int (s : pystr) : option Z :=
  match strip s with
  | 43 :: r => int_digits 0%Z false r
  | 45 :: r => option_map Z.opp (int_digits 0%Z false r)
  | r => int_digits 0%Z false r
  end.

(** [str(n)] for a natural number. *)
Definition of_nat (n : nat) : pystr :=
  py (DecimalString.NilZero.string_of_uint (Nat.to_uint n)).

(** [\d+$] anchored at the start of [s]: the longest run of digits, not
    empty, followed by the end of the text or by a last line feed. *)
Fixpoint digits_to_end (s : pystr) : option pystr :=
  match s with
  | [] => None
  | c :: s' =>
      if isdecimal c
      then match s' with
           | [] => Some [c]
           | [10] => Some [c]
           | _ => option_map (cons c) (digits_to_end s')
           end
      else None
  end.

Fixpoint search_digits_after (rkey before s : pystr) : option pystr :=
  let here := if startswith before rkey then digits_to_end s else None in
  match here with
  | Some m => Some m
  | None =>
      match s with
      | [] => None
      | c :: s' => search_digits_after rkey (c :: before) s'
      end
  end.

(** [re.search(r"(?<=KEY)\d+$", s)]: the leftmost position preceded by
    [key] from which digits run to the end; the result is [.group()],
    [None] is no match. *)
Definition re_search_digits_after (key s : pystr) : option pystr :=
  search_digits_after (rev key) [] s.

Definition first_prefix (pats : list pystr) (s : pystr) : option pystr :=
  List.find (startswith s) pats.

(** Deleting, from left to right, every occurrence of one of [pats] (the
    first of them that fits, at each position); [skip] counts the characters
    of the current occurrence still to delete. *)
Fixpoint remove_from (pats : list pystr) (skip : nat) (s : pystr) : pystr :=
  match s with
  | [] => []
  | c :: s' =>
      match skip with
      | S k => remove_from pats k s'
      | O =>
          match first_prefix pats s with
          | Some (_ :: p) => remove_from pats (List.length p) s'
          | _ => c :: remove_from pats 0 s'
          end
      end
  end.

(** [re.sub(r"https?(://)", empty, s)]: the scheme is deleted. *)
Definition re_sub_scheme (s : pystr) : pystr :=
  remove_from [py "https://"; py "http://"] 0 s.

(** [s.replace(old, empty)] for a non-empty [old]. *)
Definition remove_all (old s : pystr) : pystr := remove_from [old] 0 s.

End WithUnicode.
End PyStr.

Notation "a +s b" := (@app codepoint a b) (at level 60, right associativity).

(** ** The BeautifulSoup tree *)

Module Bs4.

(** A page is a tree of tags and strings; the root is the [BeautifulSoup]
    object itself, a tag named [[document]] without attributes. *)
#[warning="-register-all"] Inductive node :=
| Tag (name : pystr) (attrs : list (pystr * pystr)) (contents : list node)
| NavigableString (s : pystr).

(** What the client holds is a reference into the tree, from which
    [.parent] can be followed: the tree and the position in it. *)
Record element := Element { soup : node; path : list nat }.

Definition BeautifulSoup_root (page : node) : element :=
  {| soup := page; path := [] |}.

Definition contents_of (n : node) : list node :=
  match n with
  | Tag _ _ cs => cs
  | NavigableString _ => []
  end.

Fixpoint node_at (n : node) (p : list nat) : option node :=
  match p with
  | [] => Some n
  | i :: p' =>
      match nth_error (contents_of n) i with
      | Some c => node_at c p'
      | None => None
      end
  end.

Definition look (e : element) : option node := node_at (soup e) (path e).

(** Every node below [n], in document order, with its position relative
    to [n]. *)
Fixpoint descendants (n : node) : list (list nat * node) :=
  match n with
  | NavigableString _ => []
  | Tag _ _ cs =>
      (fix below (i : nat) (l : list node) : list (list nat * node) :=
         match l with
         | [] => []
         | c :: l' =>
             (([i], c) :: map (fun q => (i :: fst q, snd q)) (descendants c))
               ++ below (S i) l'
         end) 0%nat cs
  end.

Definition is_tag (n : node) : bool :=
  match n with Tag _ _ _ => true | NavigableString _ => false end.

(** The tags below [e], in document order. *)
Definition descendant_tags (e : element) : list element :=
  match look e with
  | Some n =>
      map (fun q => {| soup := soup e; path := path e ++ fst q |})
          (filter (fun q => is_tag (snd q)) (descendants n))
  | None => []
  end.

(** [e.contents], what iterating over a tag yields. *)
Definition contents (e : element) : list element :=
  match look e with
  | Some n =>
      map (fun i => {| soup := soup e; path := path e ++ [i] |})
          (seq 0 (List.length (contents_of n)))
  | None => []
  end.

(** [e.parent]: [None] for the [BeautifulSoup] object. *)
Definition parent (e : element) : option element :=
  match path e with
  | [] => None
  | _ => Some {| soup := soup e; path := removelast (path e) |}
  end.

Definition name_is (nm : pystr) (e : element) : bool :=
  match look e with
  | Some (Tag n _ _) => PyStr.eqb n nm
  | _ => false
  end.

Fixpoint assoc (k : pystr) (l : list (pystr * pystr)) : option pystr :=
  match l with
  | [] => None
  | (k', v) :: l' => if PyStr.eqb k' k then Some v else assoc k l'
  end.

(** [e.attrs.get(k)]; the client indexes with [e.attrs[k]], whose
    [KeyError] is [None] here. *)
Definition attr (k : pystr) (e : element) : option pystr :=
  match look e with
  | Some (Tag _ a _) => assoc k a
  | _ => None
  end.

(** [n.text]: all the strings below [n], concatenated. *)
Fixpoint get_text (n : node) : pystr :=
  match n with
  | NavigableString s => s
  | Tag _ _ cs =>
      (fix all (l : list node) : pystr :=
         match l with
         | [] => []
         | c :: l' => get_text c ++ all l'
         end) cs
  end.

Definition text (e : element) : pystr :=
  match look e with
  | Some n => get_text n
  | None => []
  end.

(** [n.string] ([string_of] on an element): the string of a tag whose only child is a string, or
    whose only child is a tag that has a [.string]; otherwise [None]. *)
Fixpoint get_string (n : node) : option pystr :=
  match n with
  | NavigableString s => Some s
  | Tag _ _ [c] => get_string c
  | Tag _ _ _ => None
  end.

Definition string_of (e : element) : option pystr :=
  match look e with
  | Some n => get_string n
  | None => None
  end.

Definition attr_is (k v : pystr) (e : element) : bool :=
  match attr k e with
  | Some v' => PyStr.eqb v' v
  | None => false
  end.

(** [e.find(name)] *)
Definition find (nm : pystr) (e : element) : option element :=
  List.find (name_is nm) (descendant_tags e).

(** [e.find(name, attrs={k: v})] *)
Definition find_attr (nm k v : pystr) (e : element) : option element :=
  List.find (fun x => name_is nm x && attr_is k v x) (descendant_tags e).

(** [e.find_all(attrs={k: v})] *)
Definition find_all_attr (k v : pystr) (e : element) : list element :=
  filter (attr_is k v) (descendant_tags e).

(** [e.find_all(name)] *)
Definition find_all (nm : pystr) (e : element) : list element :=
  filter (name_is nm) (descendant_tags e).

(** [e.find(name, text=re.compile(word))]: the first tag of that name
    whose [.string] the pattern is found in; [word] has no special
    character, so the search is a substring test. *)
Definition find_text (nm word : pystr) (e : element) : option element :=
  List.find
    (fun x => name_is nm x &&
              match string_of x with
              | Some s => PyStr.contains word s
              | None => false
              end)
    (descendant_tags e).

(** [e.find(name, attrs={k: re.compile(word)})], [word] again without
    special characters. *)
Definition find_attr_search (nm k word : pystr) (e : element) : option element :=
  List.find
    (fun x => name_is nm x &&
              match attr k x with
              | Some v => PyStr.contains word v
              | None => false
              end)
    (descendant_tags e).

Section Select.
Context {U : UnicodeData}.

(** The selectors of the client: compound selectors of a tag name, an
    identifier and classes, joined by the child combinator [>]. *)
Record compound := Compound {
  sel_tag : option pystr;
  sel_id : option pystr;
  sel_classes : list pystr
}.

(** The classes of a tag: its [class] attribute split at white space. *)
Definition classes (e : element) : list pystr :=
  match attr (py "class") e with
  | Some v => PyStr.split_ws v
  | None => []
  end.

Definition matches_compound (c : compound) (e : element) : bool :=
  match look e with
  | Some (Tag _ _ _) =>
      match sel_tag c with
      | Some nm => name_is nm e
      | None => true
      end
      && match sel_id c with
         | Some i => attr_is (py "id") i e
         | None => true
         end
      && forallb (fun cl => existsb (PyStr.eqb cl) (classes e)) (sel_classes c)
  | _ => false
  end.

(** [rsel] is the selector from its subject outwards. *)
Fixpoint matches_chain (rsel : list compound) (e : element) : bool :=
  match rsel with
  | [] => true
  | c :: outer =>
      matches_compound c e &&
      match outer with
      | [] => true
      | _ => match parent e with
             | Some p => matches_chain outer {| soup := soup e; path := path p |}
             | None => false
             end
      end
  end.

(** [e.select(sel)] and [e.select_one(sel)]; [sel] is written as in the
    source, outermost compound first. *)
Definition select (sel : list compound) (e : element) : list element :=
  filter (matches_chain (rev sel)) (descendant_tags e).

Definition select_one (sel : list compound) (e : element) : option element :=
  hd_error (select sel e).

Definition by_class (c : string) : compound :=
  {| sel_tag := None; sel_id := None; sel_classes := [py c] |}.
Definition by_classes (cs : list string) : compound :=
  {| sel_tag := None; sel_id := None; sel_classes := map py cs |}.
Definition by_id (i : string) : compound :=
  {| sel_tag := None; sel_id := Some (py i); sel_classes := [] |}.
Definition by_tag (t : string) : compound :=
  {| sel_tag := Some (py t); sel_id := None; sel_classes := [] |}.
Definition by_tag_class (t c : string) : compound :=
  {| sel_tag := Some (py t); sel_id := None; sel_classes := [py c] |}.
End Select.

End Bs4.

(** ** Exceptions, the log and the HTTP session *)

(** The exceptions that can leave the client's code.  [AuthenticationError]
    is the one its documentation names; no statement of the source file
    raises it. *)
Inductive exn :=
| TypeError
| ValueError
| AttributeError
| KeyError
| IndexError
| StopIteration
| UnboundLocalError
| HTTPError (status_code : N)
| RequestException
| AuthenticationError.

Inductive result (A : Type) :=
| Ok (a : A)
| Raise (e : exn).
Arguments Ok {A} a.
Arguments Raise {A} e.

(** [x if x is not None else raise e] *)
Definition or_raise {A} (e : exn) (o : option A) : result A :=
  match o with
  | Some a => Ok a
  | None => Raise e
  end.

Definition rbind {A B} (r : result A) (k : A -> result B) : result B :=
  match r with
  | Ok a => k a
  | Raise e => Raise e
  end.

Inductive level := DEBUG | INFO | WARNING | ERROR.
Definition log_record := (level * pystr)%type.

Definition dict := list (pystr * pystr).

(** [d[k] = v]: a key that is there keeps its place. *)
Fixpoint dict_set (k v : pystr) (d : dict) : dict :=
  match d with
  | [] => [(k, v)]
  | (k', v') :: d' =>
      if PyStr.eqb k' k then (k', v) :: d' else (k', v') :: dict_set k v d'
  end.

(** [{**a, **b}]: the keys of [a] in their order, with the values of [b]
    where it has the key, then the new keys of [b]. *)
Definition dict_merge (a b : dict) : dict :=
  fold_left (fun d kv => dict_set (fst kv) (snd kv) d) b a.

(** The arguments of [session.request]. *)
Record request := Request {
  method : pystr;
  url : pystr;
  params : dict;
  data : dict;
  headers : option dict;
  allow_redirects : bool
}.

Module Requests.
Record Response := {
  status_code : N;
  url : pystr;
  headers : dict;
  text : pystr;
  content : list N
}.
End Requests.
Definition Response := Requests.Response.

(** The portal and the HTTP stack below the session (connection, retries,
    redirects, the cookie jar that responses update) and the HTML parser.
    A request is sent from a base address with a cookie jar; it changes the
    portal and the jar and gives a response or a transport fault. *)
Class Environment := {
  portal : Type;
  send : portal -> dict -> pystr -> request -> portal * dict * result Response;
  (** [BeautifulSoup(text, "html.parser")] *)
  BeautifulSoup : pystr -> Bs4.node;
  (** whether a [NavigableString] of the installed bs4 has the attribute
      [text] (it has from 4.10 on) *)
  navigable_string_has_text : bool;
  (** the headers a fresh [requests] session starts with *)
  requests_default_headers : dict
}.

Section Client.
Context {U : UnicodeData} {E : Environment}.

(** What a call can change: the log, the requests issued so far (oldest
    first), the session's cookie jar and the portal. *)
Record world := World {
  log : list log_record;
  sent : list request;
  cookies : dict;
  server : portal
}.

Definition M (A : Type) : Type := world -> result A * world.

Definition ret {A} (a : A) : M A := fun w => (Ok a, w).
Definition raise {A} (e : exn) : M A := fun w => (Raise e, w).
Definition bind {A B} (m : M A) (k : A -> M B) : M B :=
  fun w =>
    match m w with
    | (Ok a, w') => k a w'
    | (Raise e, w') => (Raise e, w')
    end.
Definition lift {A} (r : result A) : M A := fun w => (r, w).

(** [try: body  except: handler] *)
Definition try_except {A} (body : M A) (handler : exn -> M A) : M A :=
  fun w =>
    match body w with
    | (Ok a, w') => (Ok a, w')
    | (Raise e, w') => handler e w'
    end.

Definition logging (l : level) (msg : pystr) : M unit :=
  fun w => (Ok tt, {| log := log w ++ [(l, msg)]; sent := sent w;
                      cookies := cookies w; server := server w |}).

End Client.

Declare Scope py_scope.
Delimit Scope py_scope with py_scope.
Notation "x <- m ;; k" := (bind m (fun x => k))
  (at level 100, m at next level, right associativity) : py_scope.
Notation "m ;;; k" := (bind m (fun _ => k))
  (at level 100, right associativity) : py_scope.
Notation "x <~ r ;; k" := (rbind r (fun x => k))
  (at level 100, r at next level, right associativity) : py_scope.

(** ** The client *)

Local Open Scope py_scope.

Definition DEFAULT_USER_AGENT : pystr :=
  py "Mozilla/5.0 (Windows NT 10.0; Win64; x64) AppleWebKit/537.36 (KHTML, like Gecko) Chrome/87.0.4280.67 Safari/537.36".

Definition DEFAULT_HEADERS : dict :=
  [ (py "User-Agent", DEFAULT_USER_AGENT);
    (py "Upgrade-Insecure-Requests", py "1");
    (py "Accept", py "text/html,application/xhtml+xml,application/xml;q=0.9,image/avif,image/webp,image/apng,*/*;q=0.8,application/signed-exchange;v=b3;q=0.9");
    (py "Sec-Fetch-Site", py "same-origin");
    (py "Sec-Fetch-Mode", py "navigate");
    (py "Sec-Fetch-User", py "?1");
    (py "Sec-Fetch-Dest", py "document") ].

Module ENDPOINTS.
Definition search := py "/media/ricerca.aspx".
Definition login := py "/user/logform.aspx".
Definition resources := py "/user/risorse.aspx".
Definition get_book := py "/media/scheda.aspx".
Definition redownload := py "/help/dlrepeat.aspx".
Definition download := py "/media/downloadebadok.aspx".
Definition pre_reserve := py "/media/prenota.aspx".
Definition reserve := py "/media/prenota2.aspx".
End ENDPOINTS.

Record MLOLBook := {
  id : pystr;
  title : pystr;
  authors : option (list pystr);
  status : option pystr;
  publisher : option pystr;
  ISBNs : option (list pystr);
  language : option pystr;
  description : option pystr;
  year : option Z;
  formats : option (list pystr);
  drm : option bool
}.

(** The dictionary [book_data] of the detail parser.  A field is [None]
    while its key is absent; [bd_status] is [Some None] when the key is there
    with the value [None]. *)
Record book_data := {
  bd_title : option pystr;
  bd_authors : option (list pystr);
  bd_publisher : option pystr;
  bd_ISBNs : option (list pystr);
  bd_status : option (option pystr);
  bd_description : option pystr;
  bd_language : option pystr;
  bd_year : option Z;
  bd_drm : option bool;
  bd_formats : option (list pystr)
}.

Definition empty_book_data : book_data :=
  {| bd_title := None; bd_authors := None; bd_publisher := None;
     bd_ISBNs := None; bd_status := None; bd_description := None;
     bd_language := None; bd_year := None; bd_drm := None;
     bd_formats := None |}.

(** The object [self]: the session's base address and headers.  The cookie
    jar of the session is in the [world]. *)
Record MLOLClient := {
  base_url : pystr;
  session_headers : dict
}.

Definition max_threads : nat := 5.

(** [str(x)] for a value that may be [None]. *)
Definition str_of_option (o : option pystr) : pystr :=
  match o with
  | Some s => s
  | None => py "None"
  end.

(** The part of RoboBrowser that the login uses: a browser with a session
    of its own, the forms of the page it has open, and the submission of a
    form.  A form is its action, its method and its named controls with
    their values. *)
Module RoboBrowser.
Record Form := {
  action : option pystr;
  method : pystr;
  fields : dict
}.

Record browser := {
  session_cookies : dict;
  url : pystr;
  parsed : Bs4.element
}.
End RoboBrowser.

Section Methods.
Context {U : UnicodeData} {E : Environment}.
Import Bs4.

(** [self.session.request(...)]: the request goes out from the base
    address with the session's jar; the response hook installed by
    [__init__] then raises for a 4xx or 5xx status. *)
Definition session_request (self : MLOLClient) (req : request) : M Response :=
  fun w =>
    let '(srv, jar, r) := send (server w) (cookies w) (base_url self) req in
    let w' := {| log := log w; sent := sent w ++ [req];
                 cookies := jar; server := srv |} in
    match r with
    | Ok resp =>
        if (400 <=? Requests.status_code resp) && (Requests.status_code resp <? 600)
        then (Raise (HTTPError (Requests.status_code resp)), w')
        else (Ok resp, w')
    | Raise e => (Raise e, w')
    end.

Definition GET (u : pystr) (ps : dict) : request :=
  {| method := py "GET"; url := u; params := ps; data := [];
     headers := None; allow_redirects := true |}.

(** *** [_parse_search_page] *)

(** The first [try] block of the loop: title and ID of one result item. *)
Definition item_title_id (book : element) : result (pystr * pystr) :=
  h4 <~ or_raise AttributeError (find (py "h4") book) ;;
  title <~ or_raise KeyError (attr (py "title") h4) ;;
  a <~ or_raise AttributeError (find (py "a") book) ;;
  url <~ or_raise KeyError (attr (py "href") a) ;;
  id <~ or_raise AttributeError (PyStr.re_search_digits_after (py "id=") url) ;;
  Ok (title, id).

(** A local variable is [None] until it is assigned. *)
Definition local (A : Type) := option A.

(** The second [try] block: it assigns [authors], or leaves it as it was
    when the first paragraph of the page is not the author's. *)
Definition item_authors (page book : element) (authors : local (option pystr))
  : result (local (option pystr)) :=
  match select [by_tag "p"; by_tag_class "a" "authorref"] book with
  | author_el :: _ =>
      s <~ or_raise AttributeError (string_of author_el) ;;
      Ok (Some (Some (PyStr.strip s)))
  | [] =>
      author_el <~ or_raise AttributeError (find (py "p") page) ;;
      itemprop <~ or_raise KeyError (attr (py "itemprop") author_el) ;;
      if PyStr.eqb itemprop (py "author")
      then s <~ or_raise AttributeError (string_of author_el) ;;
           Ok (Some (Some (PyStr.strip s)))
      else Ok authors
  end.

(** [[a.strip() for a in authors.split(";")] if authors else None] *)
Definition split_authors (authors : option pystr) : option (list pystr) :=
  match authors with
  | Some ((_ :: _) as s) => Some (map PyStr.strip (PyStr.split 59 s))
  | _ => None
  end.

Definition listing_book (id title : pystr) (authors : option (list pystr)) : MLOLBook :=
  {| id := id; title := title; authors := authors; status := None;
     publisher := None; ISBNs := None; language := None; description := None;
     year := None; formats := None; drm := None |}.

Definition skip_message (i : nat) : pystr :=
  py "Could not parse ID or title. Skipping book #" +s PyStr.of_nat (i + 1) +s py "...".

(** The loop over [enumerate(page.select(".result-item"))], from item [i]
    on; [authors] is the local variable, which keeps its value from one
    item to the next, and [books] the list built so far. *)
Fixpoint parse_result_items (page : element) (i : nat) (items : list element)
    (authors : local (option pystr)) (books : list MLOLBook) : M (list MLOLBook) :=
  match items with
  | [] => ret books
  | book :: rest =>
      match item_title_id book with
      | Raise _ =>
          logging ERROR (skip_message i) ;;;
          parse_result_items page (S i) rest authors books
      | Ok (title, id) =>
          let authors :=
            match item_authors page book authors with
            | Ok a => a
            | Raise _ => Some None
            end in
          match authors with
          | None => raise UnboundLocalError
          | Some a =>
              parse_result_items page (S i) rest authors
                (books ++ [listing_book id title (split_authors a)])
          end
      end
  end.

Definition _parse_search_page (page : element) : M (list MLOLBook) :=
  parse_result_items page 0 (select [by_class "result-item"] page) None [].

(** *** [_parse_book_status] *)

Definition _parse_book_status (status : pystr) : option pystr :=
  let status := PyStr.lower (PyStr.strip status) in
  if PyStr.contains (py "scarica") status then Some (py "available")
  else if PyStr.contains (py "ripeti") status then Some (py "owned")
  else if PyStr.contains (py "prenotato") status then Some (py "reserved")
  else if PyStr.contains (py "occupato") status then Some (py "taken")
  else if PyStr.contains (py "non disponibile") status then Some (py "unavailable")
  else None.

(** *** [_parse_book_page] *)

Definition set_title (v : pystr) (d : book_data) : book_data :=
  {| bd_title := Some v; bd_authors := bd_authors d; bd_publisher := bd_publisher d;
     bd_ISBNs := bd_ISBNs d; bd_status := bd_status d;
     bd_description := bd_description d; bd_language := bd_language d;
     bd_year := bd_year d; bd_drm := bd_drm d; bd_formats := bd_formats d |}.
Definition set_authors (v : list pystr) (d : book_data) : book_data :=
  {| bd_title := bd_title d; bd_authors := Some v; bd_publisher := bd_publisher d;
     bd_ISBNs := bd_ISBNs d; bd_status := bd_status d;
     bd_description := bd_description d; bd_language := bd_language d;
     bd_year := bd_year d; bd_drm := bd_drm d; bd_formats := bd_formats d |}.
Definition set_publisher (v : pystr) (d : book_data) : book_data :=
  {| bd_title := bd_title d; bd_authors := bd_authors d; bd_publisher := Some v;
     bd_ISBNs := bd_ISBNs d; bd_status := bd_status d;
     bd_description := bd_description d; bd_language := bd_language d;
     bd_year := bd_year d; bd_drm := bd_drm d; bd_formats := bd_formats d |}.
Definition set_ISBNs (v : list pystr) (d : book_data) : book_data :=
  {| bd_title := bd_title d; bd_authors := bd_authors d; bd_publisher := bd_publisher d;
     bd_ISBNs := Some v; bd_status := bd_status d;
     bd_description := bd_description d; bd_language := bd_language d;
     bd_year := bd_year d; bd_drm := bd_drm d; bd_formats := bd_formats d |}.
Definition set_status (v : option pystr) (d : book_data) : book_data :=
  {| bd_title := bd_title d; bd_authors := bd_authors d; bd_publisher := bd_publisher d;
     bd_ISBNs := bd_ISBNs d; bd_status := Some v;
     bd_description := bd_description d; bd_language := bd_language d;
     bd_year := bd_year d; bd_drm := bd_drm d; bd_formats := bd_formats d |}.
Definition set_description (v : pystr) (d : book_data) : book_data :=
  {| bd_title := bd_title d; bd_authors := bd_authors d; bd_publisher := bd_publisher d;
     bd_ISBNs := bd_ISBNs d; bd_status := bd_status d;
     bd_description := Some v; bd_language := bd_language d;
     bd_year := bd_year d; bd_drm := bd_drm d; bd_formats := bd_formats d |}.
Definition set_language (v : pystr) (d : book_data) : book_data :=
  {| bd_title := bd_title d; bd_authors := bd_authors d; bd_publisher := bd_publisher d;
     bd_ISBNs := bd_ISBNs d; bd_status := bd_status d;
     bd_description := bd_description d; bd_language := Some v;
     bd_year := bd_year d; bd_drm := bd_drm d; bd_formats := bd_formats d |}.
Definition set_year (v : Z) (d : book_data) : book_data :=
  {| bd_title := bd_title d; bd_authors := bd_authors d; bd_publisher := bd_publisher d;
     bd_ISBNs := bd_ISBNs d; bd_status := bd_status d;
     bd_description := bd_description d; bd_language := bd_language d;
     bd_year := Some v; bd_drm := bd_drm d; bd_formats := bd_formats d |}.
Definition set_drm (v : bool) (d : book_data) : book_data :=
  {| bd_title := bd_title d; bd_authors := bd_authors d; bd_publisher := bd_publisher d;
     bd_ISBNs := bd_ISBNs d; bd_status := bd_status d;
     bd_description := bd_description d; bd_language := bd_language d;
     bd_year := bd_year d; bd_drm := Some v; bd_formats := bd_formats d |}.
Definition set_formats (v : list pystr) (d : book_data) : book_data :=
  {| bd_title := bd_title d; bd_authors := bd_authors d; bd_publisher := bd_publisher d;
     bd_ISBNs := bd_ISBNs d; bd_status := bd_status d;
     bd_description := bd_description d; bd_language := bd_language d;
     bd_year := bd_year d; bd_drm := bd_drm d; bd_formats := Some v |}.

(** [if x := lookup: book_data[key] = f(x)] *)
Definition if_found {A} (o : option A) (f : A -> book_data -> book_data)
    (d : book_data) : book_data :=
  match o with
  | Some x => f x d
  | None => d
  end.

(** [hasattr(x, "text")] for a child of a tag. *)
Definition has_text (x : element) : bool :=
  match look x with
  | Some (Tag _ _ _) => true
  | Some (NavigableString _) => navigable_string_has_text
  | None => false
  end.

(** The truth value of a child: a tag is always true, a string when it is
    not empty. *)
Definition truthy (x : element) : bool :=
  match look x with
  | Some (Tag _ _ _) => true
  | Some (NavigableString s) => negb (PyStr.eqb s [])
  | None => false
  end.

(** [next(filter(lambda x: hasattr(x, "text"), page.find("div", ...)))]:
    [filter] cannot iterate over [None], [next] stops on an empty
    iterator. *)
Definition description_element (page : element) : result element :=
  match find_attr (py "div") (py "itemprop") (py "description") page with
  | None => Raise TypeError
  | Some div => or_raise StopIteration (List.find has_text (contents div))
  end.

(** The lookup of the combined format string inside the last [try]. *)
Definition formats_str (page : element) : result pystr :=
  b <~ or_raise AttributeError (find_text (py "b") (py "FORMATO") page) ;;
  p <~ or_raise AttributeError (parent b) ;;
  pp <~ or_raise AttributeError (parent p) ;;
  span <~ or_raise AttributeError (find (py "span") pp) ;;
  Ok (PyStr.strip (text span)).

(** The two assignments that parse the combined string, in the order of the
    source: [drm] first, then [formats], whose [split()[0]] raises
    [IndexError] when there is no token. *)
Definition parse_drm (formats_str : pystr) : bool :=
  PyStr.contains (py "drm") (PyStr.lower formats_str).

Definition parse_formats (formats_str : pystr) : result (list pystr) :=
  tok <~ or_raise IndexError (hd_error (PyStr.split_ws formats_str)) ;;
  Ok (map (fun f => PyStr.lower (PyStr.strip f)) (PyStr.split 47 tok)).

(** The body of the last [try]: the book data it leaves, and whether it
    completed. *)
Definition formats_block (page : element) (d : book_data) : result unit * book_data :=
  match formats_str page with
  | Raise e => (Raise e, d)
  | Ok fs =>
      let d := set_drm (parse_drm fs) d in
      match parse_formats fs with
      | Raise e => (Raise e, d)
      | Ok l => (Ok tt, set_formats l d)
      end
  end.

Definition _parse_book_page (page : element) : M book_data :=
  let d := empty_book_data in
  let d := if_found (select_one [by_class "book-title"] page)
             (fun title => set_title (PyStr.strip (text title))) d in
  let d := if_found (select_one [by_class "authors_title"] page)
             (fun authors =>
                set_authors (map PyStr.strip (PyStr.split 59 (PyStr.strip (text authors))))) d in
  let d := if_found (select_one [by_class "publisher_title"; by_tag "span"; by_tag "a"] page)
             (fun publisher => set_publisher (PyStr.strip (text publisher))) d in
  let d := match find_all_attr (py "itemprop") (py "isbn") page with
           | [] => d
           | ISBNs => set_ISBNs (map (fun i => PyStr.strip (text i)) ISBNs) d
           end in
  let d := if_found (select_one [by_class "panel-mlol"] page)
             (fun status_element =>
                set_status (_parse_book_status (PyStr.strip (text status_element)))) d in
  description <- lift (description_element page) ;;
  let d := if truthy description
           then set_description (PyStr.strip (text description)) d
           else d in
  let d := if_found (find_attr (py "span") (py "itemprop") (py "inLanguage") page)
             (fun language => set_language (PyStr.strip (text language))) d in
  d <- match find_attr (py "span") (py "itemprop") (py "datePublished") page with
       | Some year =>
           y <- lift (or_raise ValueError (PyStr.int (PyStr.strip (text year)))) ;;
           ret (set_year y d)
       | None => ret d
       end ;;
  match formats_block page d with
  | (Ok _, d) => ret d
  | (Raise _, d) =>
      logging WARNING
        (py "Failed to parse formats for book " +s str_of_option (bd_title d)) ;;;
      ret d
  end.

(** *** [get_book_by_id] *)

Definition get_book_by_id (self : MLOLClient) (book_id : pystr) : M (option MLOLBook) :=
  logging DEBUG (py "Fetching book " +s book_id) ;;;
  response <- session_request self (GET ENDPOINTS.get_book [(py "id", book_id)]) ;;
  if PyStr.contains (py "alert.aspx") (Requests.url response)
  then logging WARNING
         (py "Failed to fetch book " +s book_id +s
          py ". Might not be available to your library.") ;;;
       ret None
  else
    let soup := BeautifulSoup_root (BeautifulSoup (Requests.text response)) in
    book_data <- _parse_book_page soup ;;
    match bd_title book_data with
    | None =>
        logging WARNING
          (py "Failed to get book title for id " +s book_id +s py ", skipping...") ;;;
        ret None
    | Some title =>
        ret (Some {| id := book_id;
                     title := title;
                     authors := bd_authors book_data;
                     publisher := bd_publisher book_data;
                     ISBNs := bd_ISBNs book_data;
                     status := match bd_status book_data with
                               | Some st => st
                               | None => None
                               end;
                     language := bd_language book_data;
                     description := bd_description book_data;
                     year := bd_year book_data;
                     formats := bd_formats book_data;
                     drm := bd_drm book_data |})
    end.

Definition get_book (self : MLOLClient) (book : MLOLBook) : M (option MLOLBook) :=
  get_book_by_id self (id book).

(** *** [_redownload_owned_book] *)

(** The [try] block that finds the loan of the book in the page of the
    user's resources.  The pattern [f"({book_id})"] is a search for the
    text of [book_id], which is made of digits. *)
Definition find_loan_id (soup : element) (book_id : pystr) : result pystr :=
  a <~ or_raise AttributeError (find_attr_search (py "a") (py "href") book_id soup) ;;
  p <~ or_raise AttributeError (parent a) ;;
  loan_entry <~ or_raise AttributeError (parent p) ;;
  button <~ or_raise IndexError
    (hd_error (select [by_classes ["download_button"%string; "bottom-buffer-10"%string]; by_tag "a"]
                 loan_entry)) ;;
  href <~ or_raise KeyError (attr (py "href") button) ;;
  or_raise AttributeError
    (PyStr.re_search_digits_after (py "idp=") (PyStr.lstrip_chars (py "..") href)).

Definition host_of (self : MLOLClient) : pystr :=
  PyStr.remove_all (py "https://") (base_url self).

Definition redownload_request (self : MLOLClient) (loan_id : pystr) : request :=
  {| method := py "GET";
     url := ENDPOINTS.redownload;
     headers := Some (dict_merge (session_headers self)
                  [ (py "Host", host_of self);
                    (py "Referer", base_url self +s py "/help/helpdeskdl.aspx?idp=" +s loan_id) ]);
     params := [(py "idp", loan_id)];
     data := [];
     allow_redirects := false |}.

Definition _redownload_owned_book (self : MLOLClient) (book_id : pystr) : M Response :=
  response <- session_request self (GET ENDPOINTS.resources []) ;;
  let soup := BeautifulSoup_root (BeautifulSoup (Requests.text response)) in
  loan_id <- try_except (lift (find_loan_id soup book_id))
               (fun e =>
                  logging ERROR
                    (py "Failed to find owned book " +s book_id +s py " in your profile") ;;;
                  raise e) ;;
  session_request self (redownload_request self loan_id).

(** *** [download_book_by_id] *)

(** [self.session.cookies.get(".ASPXAUTH")] as a truth value: the cookie is
    there and not empty. *)
Definition authenticated (w : world) : bool :=
  match Bs4.assoc (py ".ASPXAUTH") (cookies w) with
  | Some (_ :: _) => true
  | _ => false
  end.

Definition is_authenticated : M bool := fun w => (Ok (authenticated w), w).

Definition download_request (self : MLOLClient) (book_id : pystr) : request :=
  {| method := py "GET";
     url := ENDPOINTS.download;
     headers := Some (dict_merge (session_headers self)
                  [ (py "Host", host_of self);
                    (py "Referer", base_url self +s py "/media/downloadebad2.aspx?unid="
                                   +s book_id +s py "&form=epub") ]);
     params := [(py "unid", book_id); (py "form", py "epub")];
     data := [];
     allow_redirects := false |}.

(** [response.headers[k]]: the names of headers compare without case. *)
Fixpoint header (k : pystr) (h : dict) : option pystr :=
  match h with
  | [] => None
  | (k', v) :: h' =>
      if PyStr.eqb (PyStr.lower k') (PyStr.lower k) then Some v else header k h'
  end.

Definition status_is (st : string) (o : option pystr) : bool :=
  match o with
  | Some s => PyStr.eqb s (py st)
  | None => false
  end.

(** The end of [download_book_by_id], from the test of the status code on:
    one redirect is followed, then the body is examined. *)
Definition finish_download (self : MLOLClient) (book_id : pystr)
    (response : Response) : M (option (list N)) :=
  response <-
    (if Requests.status_code response =? 302
     then location <- lift (or_raise KeyError
                              (header (py "Location") (Requests.headers response))) ;;
          session_request self
            {| method := py "GET"; url := location; params := []; data := [];
               headers := Some (dict_merge (session_headers self)
                                  [(py "Sec-Fetch-Site", py "cross-site")]);
               allow_redirects := true |}
     else ret response) ;;
  if PyStr.startswith (Requests.text response) (py "<fulfillmentToken")
  then logging INFO (py "Book " +s book_id +s py " downloaded") ;;;
       ret (Some (Requests.content response))
  else logging ERROR (py "Failed to download book " +s book_id) ;;;
       logging DEBUG (Requests.text response) ;;;
       ret None.

Definition download_book_by_id (self : MLOLClient) (book_id : pystr)
  : M (option (list N)) :=
  auth <- is_authenticated ;;
  if negb auth
  then logging ERROR
         (py "You need to be authenticated to MLOL in order to download books.") ;;;
       ret None
  else
    book <- get_book_by_id self book_id ;;
    book_status <- lift (or_raise AttributeError (option_map status book)) ;;
    if status_is "owned" book_status
    then logging INFO (py "You already own this book. Redownloading...") ;;;
         response <- _redownload_owned_book self book_id ;;
         finish_download self book_id response
    else if negb (status_is "available" book_status)
    then logging ERROR
           (py "Book is not available for download. Status: "
            +s str_of_option book_status) ;;;
         ret None
    else response <- session_request self (download_request self book_id) ;;
         finish_download self book_id response.


(** *** The worker pool of a deep search *)

(** [ThreadPoolExecutor(max_workers=n)] refuses a pool without workers. *)
Definition ThreadPoolExecutor (max_workers : nat) : result nat :=
  match max_workers with
  | O => Raise ValueError
  | S _ => Ok max_workers
  end.

Section ExecutorMap.
Variables A B : Type.
Variable fn : A -> M B.

(** The futures of [executor.map], one per task in the order of dispatch:
    [None] while the task has not run. *)
Definition futures := list (option (result B)).

Fixpoint set_future (i : nat) (r : result B) (fs : futures) : futures :=
  match fs, i with
  | [], _ => []
  | _ :: fs', O => Some r :: fs'
  | f :: fs', S i' => f :: set_future i' r fs'
  end.

(** The tasks run one after the other in the order [order] in which the
    threads get to them; a task runs once, and what it returns or raises is
    kept in its future. *)
Fixpoint run_tasks (xs : list A) (order : list nat) (fs : futures) (w : world)
  : futures * world :=
  match order with
  | [] => (fs, w)
  | i :: order' =>
      match nth_error xs i, nth_error fs i with
      | Some x, Some None =>
          let (r, w') := fn x w in
          run_tasks xs order' (set_future i r fs) w'
      | _, _ => run_tasks xs order' fs w
      end
  end.

(** Reading the futures in the order of dispatch; the first exception met
    is raised. *)
Fixpoint gather (fs : futures) : result (list B) :=
  match fs with
  | [] => Ok []
  | Some (Ok b) :: fs' => bs <~ gather fs' ;; Ok (b :: bs)
  | Some (Raise e) :: _ => Raise e
  | None :: _ => Raise RequestException (* a future that never ran: [executor_map] runs them all *)
  end.

(** [list(executor.map(fn, xs))] under the schedule [schedule]: every task
    is run, those that [schedule] leaves out at the end in the order of
    dispatch, and the results are read in the order of dispatch.  (When a
    task raises, the interpreter cancels the tasks that have not started
    yet; they come after the one that raised, so this changes which requests
    are sent and not what the call returns or raises.) *)
Definition executor_map (schedule : list nat) (xs : list A) : M (list B) :=
  fun w =>
    let n := List.length xs in
    let (fs, w') := run_tasks xs (schedule ++ seq 0 n) (repeat None n) w in
    (gather fs, w').

(** [[fn(x) for x in xs]] *)
Fixpoint sequential_map (xs : list A) : M (list B) :=
  match xs with
  | [] => ret []
  | x :: xs' =>
      b <- fn x ;;
      bs <- sequential_map xs' ;;
      ret (b :: bs)
  end.

End ExecutorMap.

(** *** [_search_books_paginated], [search_books], [get_latest_books] *)

(** The response that page [i] is parsed from: the first response when
    there is one page only, a new request otherwise. *)
Definition page_response (self : MLOLClient) (req_params : dict) (pages : nat)
    (first_response : Response) (i : nat) : M Response :=
  if Nat.eqb pages 1
  then ret first_response
  else session_request self
         (GET ENDPOINTS.search (dict_merge req_params [(py "page", PyStr.of_nat i)])).

(** The batch of page [i].  A batch of a deep search holds what
    [get_book_by_id] returned, [None] included; the records of a shallow
    search are all [Some]. *)
Definition search_page (self : MLOLClient) (req_params : dict) (pages : nat)
    (deep : bool) (first_response : Response) (schedule : list nat) (i : nat)
  : M (list (option MLOLBook)) :=
  response <- page_response self req_params pages first_response i ;;
  books <- _parse_search_page
             (BeautifulSoup_root (BeautifulSoup (Requests.text response))) ;;
  if deep
  then _ <- lift (ThreadPoolExecutor (Nat.min (List.length books) max_threads)) ;;
       executor_map (get_book_by_id self) schedule (map id books)
  else ret (map Some books).

(** The generator: one suspended computation per page, for the pages
    [1..pages]; [schedules i] is the schedule of the pool of page [i]. *)
Definition _search_books_paginated (self : MLOLClient) (req_params : dict)
    (pages : nat) (deep : bool) (first_response : Response)
    (schedules : nat -> list nat)
  : list (M (list (option MLOLBook))) :=
  map (fun i => search_page self req_params pages deep first_response (schedules i) i)
      (seq 1 pages).

(** Taking the first [n] batches of a generator. *)
Fixpoint take_batches {A} (n : nat) (g : list (M A)) : M (list A) :=
  match n, g with
  | S n', m :: g' =>
      a <- m ;;
      rest <- take_batches n' g' ;;
      ret (a :: rest)
  | _, _ => ret []
  end.

(** [int(soup.select_one("#pager").attrs["data-pages"])], one page when
    there is no pager. *)
Definition page_count (soup : element) : result Z :=
  match select_one [by_id "pager"] soup with
  | None => Ok 1%Z
  | Some pager =>
      v <~ or_raise KeyError (attr (py "data-pages") pager) ;;
      or_raise ValueError (PyStr.int v)
  end.

Definition search_with (self : MLOLClient) (params : dict) (deep : bool)
    (schedules : nat -> list nat)
  : M (list (M (list (option MLOLBook)))) :=
  response <- session_request self (GET ENDPOINTS.search params) ;;
  let soup := BeautifulSoup_root (BeautifulSoup (Requests.text response)) in
  pages <- lift (page_count soup) ;;
  ret (_search_books_paginated self params (Z.to_nat pages) deep response schedules).

Definition search_books (self : MLOLClient) (query : pystr) (deep : bool)
    (schedules : nat -> list nat) :=
  search_with self
    [(py "seltip", py "310"); (py "keywords", PyStr.strip query); (py "nris", py "48")]
    deep schedules.

Definition get_latest_books (self : MLOLClient) (deep : bool)
    (schedules : nat -> list nat) :=
  search_with self
    [(py "seltip", py "310"); (py "news", py "15day"); (py "nris", py "48")]
    deep schedules.

Definition get_book_url_by_id (self : MLOLClient) (book_id : pystr) : pystr :=
  base_url self +s ENDPOINTS.get_book +s py "?id=" +s book_id.

Definition get_book_url (self : MLOLClient) (book : MLOLBook) : pystr :=
  get_book_url_by_id self (id book).

(** *** [reserve_book_by_id] *)

Definition reserve_request (self : MLOLClient) (book_id email : pystr) : request :=
  {| method := py "GET";
     url := ENDPOINTS.reserve +s py "?id=" +s book_id +s py "&email=" +s email;
     headers := Some (dict_merge (session_headers self)
                  [ (py "Host", host_of self);
                    (py "Referer", base_url self +s ENDPOINTS.pre_reserve
                                   +s py "?id=" +s book_id);
                    (py "Accept", py "text/html, */*; q=0.01") ]);
     params := [];
     data := [];
     allow_redirects := true |}.

Definition reserve_book_by_id (self : MLOLClient) (book_id email : pystr)
  : M (option bool) :=
  auth <- is_authenticated ;;
  if negb auth
  then logging ERROR
         (py "You need to be authenticated to MLOL in order to download books.") ;;;
       ret None
  else
    book <- get_book_by_id self book_id ;;
    book_status <- lift (or_raise AttributeError (option_map status book)) ;;
    (if negb (status_is "taken" book_status)
     then logging ERROR
            (py "You can only reserve taken books. Book status: "
             +s str_of_option book_status)
     else ret tt) ;;;
    response <- session_request self (reserve_request self book_id email) ;;
    let soup := BeautifulSoup_root (BeautifulSoup (Requests.text response)) in
    match select_one [by_id "lblInfo"] soup with
    | Some outcome =>
        let message := PyStr.lower (PyStr.strip (text outcome)) in
        if PyStr.contains (py "con successo") message
        then ret (Some true)
        else if PyStr.contains (py "prenotazione attiva") message
        then logging WARNING
               (py "You already have an active reservation for book #" +s book_id) ;;;
             ret (Some true)
        else logging ERROR (py "Failed to reserve book #" +s book_id) ;;;
             ret (Some false)
    | None =>
        logging ERROR
          (py "Failed to reserve book with ID " +s book_id +s py " (unknown outcome)") ;;;
        ret None
    end.


(** *** [_get_auth_cookies] and [__init__] *)

Definition is_control (x : element) : bool :=
  name_is (py "input") x || name_is (py "textarea") x || name_is (py "select") x.

Definition form_fields (form : element) : dict :=
  flat_map
    (fun x =>
       match attr (py "name") x with
       | Some n =>
           [(n, match attr (py "value") x with Some v => v | None => [] end)]
       | None => []
       end)
    (filter is_control (descendant_tags form)).

Definition form_of (form : element) : RoboBrowser.Form :=
  {| RoboBrowser.action := attr (py "action") form;
     RoboBrowser.method :=
       match attr (py "method") form with Some m => m | None => py "get" end;
     RoboBrowser.fields := form_fields form |}.

(** [browser.get_forms()] *)
Definition get_forms (b : RoboBrowser.browser) : list RoboBrowser.Form :=
  map form_of (find_all (py "form") (RoboBrowser.parsed b)).

(** [name in f.fields] *)
Definition has_field (name : pystr) (f : RoboBrowser.Form) : bool :=
  match assoc name (RoboBrowser.fields f) with
  | Some _ => true
  | None => false
  end.

(** [form[name] = value], a [KeyError] when the form has no such control. *)
Definition set_field (name value : pystr) (f : RoboBrowser.Form)
  : result RoboBrowser.Form :=
  if has_field name f
  then Ok {| RoboBrowser.action := RoboBrowser.action f;
             RoboBrowser.method := RoboBrowser.method f;
             RoboBrowser.fields := dict_set name value (RoboBrowser.fields f) |}
  else Raise KeyError.

(** A request of the browser: it goes out with the browser's own jar and
    user agent, relative to the page that is open. *)
Definition browser_request (jar : dict) (base : pystr) (req : request)
  : M RoboBrowser.browser :=
  fun w =>
    let '(srv, jar', r) := send (server w) jar base req in
    let w' := {| log := log w; sent := sent w ++ [req];
                 cookies := cookies w; server := srv |} in
    match r with
    | Ok resp =>
        (Ok {| RoboBrowser.session_cookies := jar';
               RoboBrowser.url := Requests.url resp;
               RoboBrowser.parsed :=
                 BeautifulSoup_root (BeautifulSoup (Requests.text resp)) |}, w')
    | Raise e => (Raise e, w')
    end.

(** [browser.open(url)] on a new browser. *)
Definition browser_open (url : pystr) : M RoboBrowser.browser :=
  browser_request [] []
    {| method := py "GET"; url := url; params := []; data := [];
       headers := Some [(py "User-Agent", DEFAULT_USER_AGENT)];
       allow_redirects := true |}.

(** [browser.submit_form(form)] *)
Definition submit_form (b : RoboBrowser.browser) (form : RoboBrowser.Form)
  : M RoboBrowser.browser :=
  let m := PyStr.upper (RoboBrowser.method form) in
  let is_get := PyStr.eqb m (py "GET") in
  browser_request (RoboBrowser.session_cookies b) (RoboBrowser.url b)
    {| method := m;
       url := match RoboBrowser.action form with
              | Some ((_ :: _) as a) => a
              | _ => RoboBrowser.url b
              end;
       params := if is_get then RoboBrowser.fields form else [];
       data := if is_get then [] else RoboBrowser.fields form;
       headers := Some [(py "User-Agent", DEFAULT_USER_AGENT)];
       allow_redirects := true |}.

Definition _get_auth_cookies (self : MLOLClient) (username password : pystr) : M dict :=
  browser <- browser_open (base_url self +s ENDPOINTS.login) ;;
  form <- lift (or_raise IndexError
                  (hd_error (filter (has_field (py "lusername")) (get_forms browser)))) ;;
  form <- lift (set_field (py "lusername") username form) ;;
  form <- lift (set_field (py "lpassword") password form) ;;
  browser <- submit_form browser form ;;
  ret (RoboBrowser.session_cookies browser).

Definition set_cookies (jar : dict) : M unit :=
  fun w => (Ok tt, {| log := log w; sent := sent w; cookies := jar; server := server w |}).

(** The truth value of an optional argument: given and not empty. *)
Definition given (o : option pystr) : bool :=
  match o with
  | Some (_ :: _) => true
  | _ => false
  end.

(** [MLOLClient(domain=..., username=..., password=...)]: a new session,
    and the login when the three arguments are given. *)
Definition __init__ (domain username password : option pystr) : M MLOLClient :=
  set_cookies [] ;;;
  let session_headers := dict_merge requests_default_headers DEFAULT_HEADERS in
  match domain, username, password with
  | Some d, Some u, Some p =>
      if given username && given password && given domain
      then
        let self :=
          {| base_url := py "https://" +s PyStr.re_sub_scheme (PyStr.rstrip_chars (py "/") d);
             session_headers := session_headers |} in
        jar <- _get_auth_cookies self u p ;;
        set_cookies jar ;;;
        ret self
      else
        logging WARNING
          (py "You did not provide authentication credentials and a subdomain. You will not be able to perform actions that require authentication.") ;;;
        ret {| base_url := py "https://medialibrary.it"; session_headers := session_headers |}
  | _, _, _ =>
      logging WARNING
        (py "You did not provide authentication credentials and a subdomain. You will not be able to perform actions that require authentication.") ;;;
      ret {| base_url := py "https://medialibrary.it"; session_headers := session_headers |}
  end.

End Methods.

(** * What the properties are stated with *)

Unset Implicit Arguments.

Section Specification.
Context {U : UnicodeData} {E : Environment}.
Import Bs4.

(** The fixed vocabulary, in the order in which the words are looked for. *)
Definition vocabulary : list (string * string) :=
  [ ("scarica", "available");
    ("ripeti", "owned");
    ("prenotato", "reserved");
    ("occupato", "taken");
    ("non disponibile", "unavailable") ]%string.

(** The text mentions [word]: the word is part of the trimmed, lower-cased
    text. *)
Definition mentions (word : pystr) (status_text : pystr) : Prop :=
  PyStr.contains word (PyStr.lower (PyStr.strip status_text)) = true.

Definition mentionsb (word : pystr) (status_text : pystr) : bool :=
  PyStr.contains word (PyStr.lower (PyStr.strip status_text)).

(** The status that the vocabulary gives to a text: that of the first word
    of the vocabulary that the text mentions, none when it mentions no
    word. *)
Definition status_of_text (status_text : pystr) : option pystr :=
  option_map (fun entry => py (snd entry))
    (List.find (fun entry => mentionsb (py (fst entry)) status_text) vocabulary).

(** [word] stands somewhere in the text, in any mix of upper and lower
    case. *)
Definition occurs_any_case (word : pystr) (status_text : pystr) : Prop :=
  exists before written after,
    status_text = before ++ written ++ after /\
    Forall (fun c => c < 128) written /\
    map PyStr.lower_ascii written = word.

(** The world with more records at the end of its log. *)
Definition add_log (w : world) (records : list log_record) : world :=
  {| log := log w ++ records; sent := sent w; cookies := cookies w; server := server w |}.

(** The result items of a page, in document order. *)
Definition result_items (page : element) : list element :=
  select [by_class "result-item"] page.

(** An item is well formed when its title and its ID can be extracted. *)
Definition well_formed (book : element) : bool :=
  match item_title_id book with
  | Ok _ => true
  | Raise _ => false
  end.

(** The IDs and titles of the well-formed items, in document order. *)
Fixpoint extracted (items : list element) : list (pystr * pystr) :=
  match items with
  | [] => []
  | book :: rest =>
      match item_title_id book with
      | Ok (title, id) => (id, title) :: extracted rest
      | Raise _ => extracted rest
      end
  end.

(** One record per malformed item, with the position of the item counted
    from [i] for the first of [items]. *)
Fixpoint skipped (lvl : level) (i : nat) (items : list element) : list log_record :=
  match items with
  | [] => []
  | book :: rest =>
      if well_formed book
      then skipped lvl (S i) rest
      else (lvl, skip_message i) :: skipped lvl (S i) rest
  end.

(** The author lookup of an item gives a value to [authors]: it does not
    come out of its [try] block with the variable as it was. *)
Definition assigns_authors (page book : element) : Prop :=
  item_authors page book None <> Ok None.

Section Outcomes.
Context {A B : Type}.

(** What each task of a pool gives when it does not depend on the moment
    at which the task runs. *)
Variable outcome : A -> result B.

(** The futures fit the tasks [xs]: one future per task, and a future that
    is set holds the outcome of its task. *)
Definition fit (xs : list A) (fs : futures B) : Prop :=
  List.length fs = List.length xs
  /\ forall i r, nth_error fs i = Some (Some r) ->
                 exists x, nth_error xs i = Some x /\ r = outcome x.

(** The task at position [i] has run. *)
Definition done (fs : futures B) (i : nat) : Prop :=
  exists r, nth_error fs i = Some (Some r).

(** The outcomes read in the order of dispatch, up to the first
    exception. *)
Fixpoint outcomes (xs : list A) : result (list B) :=
  match xs with
  | [] => Ok []
  | x :: xs' =>
      match outcome x with
      | Ok b => rbind (outcomes xs') (fun bs => Ok (b :: bs))
      | Raise e => Raise e
      end
  end.

End Outcomes.

(** The requests that a call has issued: those of [w'] that were not yet
    in [w]. *)
Definition sent_since (w w' : world) (requests : list request) : Prop :=
  sent w' = sent w ++ requests.

(** The record that reports a missing session. *)
Definition authentication_required : log_record :=
  (ERROR, py "You need to be authenticated to MLOL in order to download books.").

(** The record that reports a book that cannot be downloaded. *)
Definition not_available (book_status : option pystr) : log_record :=
  (ERROR, py "Book is not available for download. Status: " +s str_of_option book_status).

(** The records that report a download whose body lacks the marker. *)
Definition download_failed (book_id : pystr) (response : Response) : list log_record :=
  [ (ERROR, py "Failed to download book " +s book_id);
    (DEBUG, Requests.text response) ].

(** The record that reports an owned book without a loan. *)
Definition loan_not_found (book_id : pystr) : log_record :=
  (ERROR, py "Failed to find owned book " +s book_id +s py " in your profile").

(** The request that follows a redirect to [location]. *)
Definition redirect_request (self : MLOLClient) (location : pystr) : request :=
  {| method := py "GET"; url := location; params := []; data := [];
     headers := Some (dict_merge (session_headers self)
                        [(py "Sec-Fetch-Site", py "cross-site")]);
     allow_redirects := true |}.

(** The body of the response starts with the marker of a download. *)
Definition has_marker (response : Response) : bool :=
  PyStr.startswith (Requests.text response) (py "<fulfillmentToken").

(** The world in which the reservation request is sent: the world after the
    lookup of the book, with one more error record when the book is not
    taken. *)
Definition after_status_check (book_status : option pystr) (w1 : world) : world :=
  if status_is "taken" book_status
  then w1
  else add_log w1
         [(ERROR, py "You can only reserve taken books. Book status: "
                  +s str_of_option book_status)].

(** The portal is stateless for the detail requests of [self]: the answer
    to a request for a book does not depend on the state of the portal or
    of the cookie jar. *)
Definition stateless_details (self : MLOLClient) : Prop :=
  forall book_id s jar s' jar',
    snd (send s jar (base_url self) (GET ENDPOINTS.get_book [(py "id", book_id)]))
    = snd (send s' jar' (base_url self) (GET ENDPOINTS.get_book [(py "id", book_id)])).

(** The records of the malformed items that come before the first
    well-formed item. *)
Fixpoint leading_skipped (lvl : level) (i : nat) (items : list element) : list log_record :=
  match items with
  | [] => []
  | book :: rest =>
      if well_formed book
      then []
      else (lvl, skip_message i) :: leading_skipped lvl (S i) rest
  end.

(** A string of decimal digits that is not empty. *)
Definition digit_string (s : pystr) : Prop :=
  s <> [] /\ Forall (fun c => PyStr.isdecimal c = true) s.

(** What the anchor [$] accepts after the digits: the end of the text, or
    one line feed that ends it. *)
Definition at_end (s : pystr) : bool :=
  match s with
  | [] => true
  | [10] => true
  | _ => false
  end.

(** The statuses that the status parser can give. *)
Definition known_statuses : list pystr :=
  [py "available"; py "owned"; py "reserved"; py "taken"; py "unavailable"].

(** The warning of the detail parser about the formats of a book. *)
Definition formats_warning (title : option pystr) : log_record :=
  (WARNING, py "Failed to parse formats for book " +s str_of_option title).

(** The request of [get_book_by_id]. *)
Definition detail_request (book_id : pystr) : request :=
  GET ENDPOINTS.get_book [(py "id", book_id)].

(** The records of [get_book_by_id]: the fetch, the book that the library
    does not have, the page without a title. *)
Definition fetching (book_id : pystr) : log_record :=
  (DEBUG, py "Fetching book " +s book_id).

Definition fetch_failed (book_id : pystr) : log_record :=
  (WARNING, py "Failed to fetch book " +s book_id
            +s py ". Might not be available to your library.").

Definition title_missing (book_id : pystr) : log_record :=
  (WARNING, py "Failed to get book title for id " +s book_id +s py ", skipping...").

(** The record that [get_book_by_id] builds from the book data of a page
    with the title [title]. *)
Definition detail_book (book_id title : pystr) (d : book_data) : MLOLBook :=
  {| id := book_id;
     title := title;
     authors := bd_authors d;
     publisher := bd_publisher d;
     ISBNs := bd_ISBNs d;
     status := match bd_status d with Some st => st | None => None end;
     language := bd_language d;
     description := bd_description d;
     year := bd_year d;
     formats := bd_formats d;
     drm := bd_drm d |}.

(** The record of a completed download. *)
Definition downloaded (book_id : pystr) : log_record :=
  (INFO, py "Book " +s book_id +s py " downloaded").

(** The record that says that a book that is not taken is being reserved
    all the same. *)
Definition not_taken (book_status : option pystr) : log_record :=
  (ERROR, py "You can only reserve taken books. Book status: "
          +s str_of_option book_status).

(** What [reserve_book_by_id] makes of the answer to the reservation
    request: the result and the record that goes with it. *)
Definition reservation_outcome (book_id : pystr) (response : Response)
  : option bool * list log_record :=
  match Bs4.select_one [Bs4.by_id "lblInfo"]
          (Bs4.BeautifulSoup_root (BeautifulSoup (Requests.text response))) with
  | Some outcome =>
      let message := PyStr.lower (PyStr.strip (Bs4.text outcome)) in
      if PyStr.contains (py "con successo") message then (Some true, [])
      else if PyStr.contains (py "prenotazione attiva") message
      then (Some true,
            [(WARNING, py "You already have an active reservation for book #" +s book_id)])
      else (Some false, [(ERROR, py "Failed to reserve book #" +s book_id)])
  | None =>
      (None, [(ERROR, py "Failed to reserve book with ID " +s book_id
                      +s py " (unknown outcome)")])
  end.

(** The request for page [i] of a search with the parameters [params]. *)
Definition page_request (params : dict) (i : nat) : request :=
  GET ENDPOINTS.search (dict_merge params [(py "page", PyStr.of_nat i)]).

(** The parameters of [search_books] and of [get_latest_books]. *)
Definition search_params (query : pystr) : dict :=
  [(py "seltip", py "310"); (py "keywords", PyStr.strip query); (py "nris", py "48")].

Definition latest_params : dict :=
  [(py "seltip", py "310"); (py "news", py "15day"); (py "nris", py "48")].

(** The client that [__init__] builds without credentials, and the warning
    it logs. *)
Definition anonymous_client : MLOLClient :=
  {| base_url := py "https://medialibrary.it";
     session_headers := dict_merge requests_default_headers DEFAULT_HEADERS |}.

Definition no_credentials : log_record :=
  (WARNING, py "You did not provide authentication credentials and a subdomain. You will not be able to perform actions that require authentication.").

(** The client that [__init__] builds for the library at [domain]. *)
Definition client_of (domain : pystr) : MLOLClient :=
  {| base_url := py "https://" +s PyStr.re_sub_scheme (PyStr.rstrip_chars (py "/") domain);
     session_headers := dict_merge requests_default_headers DEFAULT_HEADERS |}.

(** The world with another cookie jar for the session. *)
Definition with_cookies (w : world) (jar : dict) : world :=
  {| log := log w; sent := sent w; cookies := jar; server := server w |}.


(** The tasks of a pool that have not run yet. *)
Fixpoint pending {A B : Type} (xs : list A) (fs : futures B) : list A :=
  match xs, fs with
  | x :: xs', None :: fs' => x :: pending xs' fs'
  | _ :: xs', Some _ :: fs' => pending xs' fs'
  | _, _ => []
  end.

(** A text without white space at its ends. *)
Definition trimmed (s : pystr) : Prop := PyStr.strip s = s.

(** A list of names as the parsers give it: not empty, every name trimmed
    and free of the separator. *)
Definition names (l : list pystr) : Prop :=
  l <> [] /\ Forall (fun a => trimmed a /\ ~ In 59 a) l.

(** A record of the listing parser: the ID, the title and the authors
    split at the semicolons, nothing else. *)
Definition shallow (book : MLOLBook) : Prop :=
  exists a, book = listing_book (id book) (title book) (split_authors a).

End Specification.

(** ** Pages and portals to run the client on *)

Module Fixtures.
Import Bs4.
Local Open Scope string_scope.

Definition tag (name : string) (attrs : list (string * string)) (children : list node)
  : node :=
  Tag (py name) (map (fun kv => (py (fst kv), py (snd kv))) attrs) children.

Definition txt (s : string) : node := NavigableString (py s).

Definition document (children : list node) : element :=
  BeautifulSoup_root (Tag (py "[document]") [] children).

Fixpoint lookup {A} (k : pystr) (table : list (pystr * A)) : option A :=
  match table with
  | [] => None
  | (k', v) :: table' => if PyStr.eqb k' k then Some v else lookup k table'
  end.

Definition page (status : N) (body : string) : Response :=
  {| Requests.status_code := status; Requests.url := [];
     Requests.headers := []; Requests.text := py body; Requests.content := py body |}.

(** A portal that answers by address from a fixed table and never changes,
    with a parser that knows the documents of the table. *)
Definition portal_of (responses : list (string * Response))
    (documents : list (string * list node)) : Environment :=
  {| portal := unit;
     send := fun s jar _ req =>
       (s, jar,
        match lookup (url req) (map (fun kv => (py (fst kv), snd kv)) responses) with
        | Some r => Ok r
        | None => Raise RequestException
        end);
     BeautifulSoup := fun t =>
       match lookup t (map (fun kv => (py (fst kv), snd kv)) documents) with
       | Some children => Tag (py "[document]") [] children
       | None => Tag (py "[document]") [] []
       end;
     navigable_string_has_text := false;
     requests_default_headers := [] |}.

(** No portal at all: every request fails. *)
Definition offline : Environment := portal_of [] [].

Definition start (E : Environment) (jar : dict) (s : portal) : world :=
  {| log := []; sent := []; cookies := jar; server := s |}.

(** Nothing logged, nothing sent, no cookie. *)
Definition fresh : @world offline := start offline [] tt.

(** A listing item with an author link. *)
Definition listing_item (title href author : string) : node :=
  tag "div" [("class", "result-item")]
    [ tag "h4" [("title", title)] [];
      tag "a" [("href", href)] [];
      tag "p" [] [tag "a" [("class", "authorref")] [txt author]] ]%string.

(** Three items, the second without a title. *)
Definition listing_three : element :=
  document
    [ listing_item "Il nome della rosa" "scheda.aspx?id=150" "Eco, Umberto";
      tag "div" [("class", "result-item")] [tag "a" [("href", "scheda.aspx?id=151")] []];
      listing_item "I promessi sposi" "scheda.aspx?id=152" "Manzoni, Alessandro" ]%string.


(** One well-formed item without an author link, on a page whose first
    paragraph carries an [itemprop] that is not the author's. *)
Definition listing_no_author : element :=
  document
    [ tag "p" [("itemprop", "name")] [txt "Risultati"];
      tag "div" [("class", "result-item")]
        [ tag "h4" [("title", "Il nome della rosa")] [];
          tag "a" [("href", "scheda.aspx?id=150")] [] ] ]%string.

(** The markup of a detail page, field by field. *)
Definition title_markup : node :=
  tag "h1" [("class", "book-title")] [txt " Il nome della rosa "].
Definition authors_markup : node :=
  tag "div" [("class", "authors_title")] [txt "Eco, Umberto; Altro, Autore"].
Definition publisher_markup : node :=
  tag "div" [("class", "publisher_title")] [tag "span" [] [tag "a" [] [txt "Bompiani"]]].
Definition isbn_markup : node :=
  tag "span" [("itemprop", "isbn")] [txt "9788845278655"].
Definition status_markup (status_text : string) : node :=
  tag "div" [("class", "panel panel-mlol")] [txt status_text].
Definition description_markup : node :=
  tag "div" [("itemprop", "description")] [tag "p" [] [txt " Un romanzo. "]].
Definition language_markup : node :=
  tag "span" [("itemprop", "inLanguage")] [txt "italiano"].
Definition year_markup (year_text : string) : node :=
  tag "span" [("itemprop", "datePublished")] [txt year_text].
Definition formats_markup (formats_text : string) : node :=
  tag "div" []
    [ tag "p" [] [tag "b" [] [txt "FORMATO"]];
      tag "span" [] [txt formats_text] ].

(** A complete detail page. *)
Definition detail_page (status_text : string) : list node :=
  [ title_markup; authors_markup; publisher_markup; isbn_markup;
    status_markup status_text; description_markup; language_markup;
    year_markup " 1980 "; formats_markup "EPUB/PDF con DRM Adobe" ].

(** The same page without its description block. *)
Definition detail_without_description : list node :=
  [ title_markup; authors_markup; publisher_markup; isbn_markup;
    status_markup "Scarica"; language_markup;
    year_markup " 1980 "; formats_markup "EPUB/PDF con DRM Adobe" ].

(** The same page with a year that is not a number. *)
Definition detail_with_year (year_text : string) : list node :=
  [ title_markup; authors_markup; publisher_markup; isbn_markup;
    status_markup "Scarica"; description_markup; language_markup;
    year_markup year_text; formats_markup "EPUB/PDF con DRM Adobe" ].

(** A client of the library "biblio". *)
Definition client : MLOLClient :=
  {| base_url := py "https://biblio.medialibrary.it";
     session_headers := DEFAULT_HEADERS |}.

(** A portal whose detail endpoint serves the given page. *)
Definition detail_portal (detail : list node) : Environment :=
  portal_of [("/media/scheda.aspx", page 200 "detail")] [("detail", detail)].

(** A login page whose only form is the catalogue search. *)
Definition login_without_form : list node :=
  [ tag "form" [("action", "/media/ricerca.aspx"); ("method", "get")]
      [tag "input" [("name", "keywords"); ("value", "rosa")] []] ].

(** A portal whose login endpoint serves the given page. *)
Definition login_portal (login : list node) : Environment :=
  portal_of
    [("https://biblio.medialibrary.it/user/logform.aspx", page 200 "login")]
    [("login", login)].

(** A listing page without any result item. *)
Definition listing_empty : list node :=
  [ tag "p" [] [txt "Nessun risultato"] ].

(** A portal whose search endpoint serves the given listing and whose
    detail endpoint serves the given detail page. *)
Definition catalogue_portal (listing detail : list node) : Environment :=
  portal_of
    [ ("/media/ricerca.aspx", page 200 "listing");
      ("/media/scheda.aspx", page 200 "detail") ]
    [ ("listing", listing); ("detail", detail) ].

(** The pool takes its tasks in the order of dispatch. *)
Definition in_order : nat -> list nat := fun _ => [].

(** The page of the user's resources with the loan 777 of book 150. *)
Definition resources_with_loan : list node :=
  [ tag "div" [("class", "loan")]
      [ tag "h3" [] [tag "a" [("href", "../media/scheda.aspx?id=150")] [txt "Il nome della rosa"]];
        tag "div" [("class", "download_button bottom-buffer-10")]
          [tag "a" [("href", "../help/helpdeskdl.aspx?idp=777")] [txt "Download"]] ] ].

(** The page of the user's resources without any loan. *)
Definition resources_without_loan : list node :=
  [ tag "p" [] [txt "Nessun prestito"] ].

(** A detail page without a title. *)
Definition detail_without_title : list node :=
  [ status_markup "Scarica"; description_markup ].

(** The result page of a reservation. *)
Definition reservation_result (message : string) : list node :=
  [ tag "span" [("id", "lblInfo")] [txt message] ].

(** A portal for a member of the library: the detail page of the book, the
    page of the member's resources, both download endpoints answering with
    the given body, and the reservation endpoint for book 150. *)
Definition member_portal (detail resources : list node) (download_body : string)
    (reservation : list node) : Environment :=
  portal_of
    [ ("/media/scheda.aspx", page 200 "detail");
      ("/user/risorse.aspx", page 200 "resources");
      ("/help/dlrepeat.aspx", page 200 download_body);
      ("/media/downloadebadok.aspx", page 200 download_body);
      ("/media/prenota2.aspx?id=150&email=lettore@example.org", page 200 "reservation") ]
    [ ("detail", detail); ("resources", resources); ("reservation", reservation) ].

(** The cookie jar of a session that is logged in. *)
Definition logged_in : dict := [(py ".ASPXAUTH", py "0123456789ABCDEF")].

(** A listing page with five result items. *)
Definition listing_five : list node :=
  [ listing_item "Il nome della rosa" "scheda.aspx?id=150" "Eco, Umberto";
    listing_item "I promessi sposi" "scheda.aspx?id=151" "Manzoni, Alessandro";
    listing_item "Il gattopardo" "scheda.aspx?id=152" "Tomasi di Lampedusa, Giuseppe";
    listing_item "La coscienza di Zeno" "scheda.aspx?id=153" "Svevo, Italo";
    listing_item "Il barone rampante" "scheda.aspx?id=154" "Calvino, Italo" ].

(** The IDs of the records of a batch. *)
Definition batch_ids (r : result (list (option MLOLBook))) : result (list (option pystr)) :=
  match r with
  | Ok batch => Ok (map (option_map id) batch)
  | Raise e => Raise e
  end.

(** A listing item without an author link. *)
Definition listing_item_without_author (title href : string) : node :=
  tag "div" [("class", "result-item")]
    [ tag "h4" [("title", title)] [];
      tag "a" [("href", href)] [] ].

(** A page whose first paragraph is not the author's, with an item that
    has an author link followed by one that has none. *)
Definition listing_carry_over : element :=
  document
    [ tag "p" [("itemprop", "name")] [txt "Risultati"];
      listing_item "Il nome della rosa" "scheda.aspx?id=150" "Eco, Umberto";
      listing_item_without_author "I promessi sposi" "scheda.aspx?id=151" ].

(** The complete detail page with another combined format string. *)
Definition detail_with_formats (formats_text : string) : list node :=
  [ title_markup; authors_markup; publisher_markup; isbn_markup;
    status_markup "Scarica"; description_markup; language_markup;
    year_markup " 1980 "; formats_markup formats_text ].

(** The answer of the portal for a book that the library does not have:
    the request has been redirected to the alert page. *)
Definition alert_response : Response :=
  {| Requests.status_code := 200;
     Requests.url := py "https://biblio.medialibrary.it/media/alert.aspx?id=150";
     Requests.headers := [];
     Requests.text := py "alert";
     Requests.content := py "alert" |}.

(** A portal whose detail endpoint answers with the alert page. *)
Definition alert_portal : Environment :=
  portal_of [("/media/scheda.aspx", alert_response)] [].

(** A redirect that does not say where to. *)
Definition redirect_without_location : Response :=
  {| Requests.status_code := 302; Requests.url := [];
     Requests.headers := [(py "Content-Length", py "0")];
     Requests.text := []; Requests.content := [] |}.

(** A listing page with a pager that announces the given number of pages. *)
Definition listing_with_pager (pages : string) : list node :=
  [ tag "div" [("id", "pager"); ("data-pages", pages)] [];
    listing_item "Il nome della rosa" "scheda.aspx?id=150" "Eco, Umberto" ].

(** A listing page whose pager does not say how many pages there are. *)
Definition listing_with_bare_pager : list node :=
  [ tag "div" [("id", "pager")] [] ].

(** A login page with the search form and the login form. *)
Definition login_with_form : list node :=
  [ tag "form" [("action", "/media/ricerca.aspx"); ("method", "get")]
      [tag "input" [("name", "keywords"); ("value", "rosa")] []];
    tag "form" [("action", "/user/logform.aspx"); ("method", "post")]
      [ tag "input" [("name", "lente"); ("value", "biblio")] [];
        tag "input" [("name", "lusername")] [];
        tag "input" [("name", "lpassword"); ("type", "password")] [] ] ].

(** A login page whose form has no field for the password. *)
Definition login_without_password : list node :=
  [ tag "form" [("action", "/user/logform.aspx"); ("method", "post")]
      [ tag "input" [("name", "lusername")] [] ] ].

(** A portal with a login page at the login endpoint, which it also
    accepts submissions at, without ever setting a cookie. *)
Definition login_submit_portal (login : list node) : Environment :=
  portal_of
    [ ("https://biblio.medialibrary.it/user/logform.aspx", page 200 "login");
      ("/user/logform.aspx", page 200 "login") ]
    [("login", login)].

(** The client of the library "biblio" as [__init__] builds it on a portal
    of [portal_of]. *)
Definition client_with_headers : MLOLClient :=
  {| base_url := py "https://biblio.medialibrary.it";
     session_headers := dict_merge [] DEFAULT_HEADERS |}.

End Fixtures.

(** * Properties *)

(** ** Strings *)

Section StringFacts.
Context {U : UnicodeData}.

Lemma startswith_app (pat rest : pystr) : PyStr.startswith (pat ++ rest) pat = true.
Proof.
  induction pat as [|c pat IH]; simpl; [now destruct rest|].
  now rewrite N.eqb_refl, IH.
Qed.

Lemma contains_here (pat s : pystr) :
  PyStr.startswith s pat = true -> PyStr.contains pat s = true.
Proof. destruct s; simpl; intros ->; reflexivity. Qed.

Lemma contains_app_l (pat before s : pystr) :
  PyStr.contains pat s = true -> PyStr.contains pat (before ++ s) = true.
Proof.
  intros H. induction before as [|c before IH]; simpl; [exact H|].
  rewrite IH. apply orb_true_r.
Qed.

Lemma contains_middle (pat before after : pystr) :
  PyStr.contains pat (before ++ pat ++ after) = true.
Proof. apply contains_app_l, contains_here, startswith_app. Qed.

Lemma dropwhile_suffix (f : codepoint -> bool) (s : pystr) :
  exists dropped, s = dropped ++ PyStr.dropwhile f s.
Proof.
  induction s as [|c s [d IH]]; simpl.
  - now exists [].
  - destruct (f c).
    + exists (c :: d). simpl. now f_equal.
    + now exists [].
Qed.

(** Dropping from the left stops at the latest at a character that [f]
    rejects. *)
Lemma dropwhile_keeps (f : codepoint -> bool) (before : pystr) (c : codepoint)
    (after : pystr) :
  f c = false ->
  exists before', PyStr.dropwhile f (before ++ c :: after) = before' ++ c :: after.
Proof.
  intros Hc. induction before as [|b before [d IH]]; simpl.
  - rewrite Hc. now exists [].
  - destruct (f b).
    + now exists d.
    + now exists (b :: before).
Qed.

Lemma lstrip_keeps (before : pystr) (c : codepoint) (after : pystr) :
  PyStr.isspace c = false ->
  exists before', PyStr.lstrip (before ++ c :: after) = before' ++ c :: after.
Proof. apply dropwhile_keeps. Qed.

Lemma rstrip_keeps (before : pystr) (c : codepoint) (after : pystr) :
  PyStr.isspace c = false ->
  exists after', PyStr.rstrip (before ++ c :: after) = before ++ c :: after'.
Proof.
  intros Hc. unfold PyStr.rstrip.
  rewrite rev_app_distr. simpl. rewrite <- app_assoc. simpl.
  destruct (dropwhile_keeps PyStr.isspace (rev after) c (rev before) Hc) as [d Hd].
  rewrite Hd. exists (rev d).
  rewrite rev_app_distr. simpl. rewrite rev_involutive, <- app_assoc. reflexivity.
Qed.

(** A word that begins and ends with characters that are not white space
    survives [strip] wherever it stands.  (The default character 32 is the
    space, so the word is not empty.) *)
Lemma strip_keeps_word (before word after : pystr) :
  PyStr.isspace (hd 32 word) = false ->
  PyStr.isspace (List.last word 32) = false ->
  exists before' after',
    PyStr.strip (before ++ word ++ after) = before' ++ word ++ after'.
Proof.
  intros Hf Hl. unfold PyStr.strip.
  assert (Hne : word <> []) by (intros ->; discriminate Hf).
  assert (Hleft : exists b', PyStr.lstrip (before ++ word ++ after) = b' ++ word ++ after).
  { destruct word as [|first rest]; [congruence|]. simpl in Hf.
    apply (lstrip_keeps before first (rest ++ after) Hf). }
  destruct Hleft as [b' ->].
  destruct (exists_last Hne) as (init & l & ->).
  rewrite last_last in Hl.
  replace (b' ++ (init ++ [l]) ++ after) with ((b' ++ init) ++ l :: after)
    by (rewrite <- !app_assoc; reflexivity).
  destruct (rstrip_keeps (b' ++ init) l after Hl) as [a' ->].
  exists b', a'. rewrite <- !app_assoc. reflexivity.
Qed.

(** Lower-casing works from left to right: what a prefix becomes does not
    change what follows it. *)
Lemma lower_from_app (before a b : pystr) :
  exists a', PyStr.lower_from before (a ++ b)
             = a' ++ PyStr.lower_from (rev a ++ before) b.
Proof.
  revert before. induction a as [|c a IH]; intros before; simpl.
  - now exists [].
  - destruct (IH (c :: before)) as [a' Ha]. rewrite Ha.
    exists ((if c <? 128 then [PyStr.lower_ascii c] else uni_lower before c (a ++ b)) ++ a').
    rewrite <- !app_assoc. reflexivity.
Qed.

Lemma lower_from_ascii (before word after : pystr) :
  Forall (fun c => c < 128) word ->
  PyStr.lower_from before (word ++ after)
  = map PyStr.lower_ascii word ++ PyStr.lower_from (rev word ++ before) after.
Proof.
  intros H. revert before. induction H as [|c word Hc _ IH]; intros before; simpl.
  - reflexivity.
  - apply N.ltb_lt in Hc. rewrite Hc. simpl. rewrite IH.
    rewrite <- app_assoc. reflexivity.
Qed.

(** Lower-casing turns a word of ASCII letters into its lower-case form
    wherever it stands. *)
Lemma lower_keeps_word (before word after : pystr) :
  Forall (fun c => c < 128) word ->
  exists before' after',
    PyStr.lower (before ++ word ++ after) = before' ++ map PyStr.lower_ascii word ++ after'.
Proof.
  intros H. unfold PyStr.lower.
  destruct (lower_from_app [] before (word ++ after)) as [b' Hb]. rewrite Hb.
  rewrite (lower_from_ascii _ _ _ H). eauto.
Qed.

Lemma isspace_lower_ascii (c : codepoint) :
  c < 128 -> PyStr.isspace (PyStr.lower_ascii c) = false -> PyStr.isspace c = false.
Proof.
  unfold PyStr.isspace, PyStr.lower_ascii. intros Hc.
  destruct ((65 <=? c) && (c <=? 90)) eqn:Hup; [|tauto].
  intros _. apply N.ltb_lt in Hc. rewrite Hc.
  apply andb_true_iff in Hup. destruct Hup as [H1 H2].
  apply N.leb_le in H1. apply N.leb_le in H2.
  apply orb_false_iff. split; apply andb_false_iff; right; apply N.leb_gt; lia.
Qed.

End StringFacts.

(** ** The status vocabulary *)

Section StatusFacts.
Context {U : UnicodeData}.

Lemma last_map_lower (l : pystr) :
  List.last (map PyStr.lower_ascii l) 32 = PyStr.lower_ascii (List.last l 32).
Proof.
  induction l as [|a [|b l] IH]; try reflexivity.
  exact IH.
Qed.

Lemma Forall_last_ascii (l : pystr) :
  Forall (fun c => c < 128) l -> List.last l 32 < 128.
Proof.
  induction 1 as [|a [|b l] Ha Hl IH]; simpl; try lia.
  exact IH.
Qed.

(** A word written in any case anywhere in the text is mentioned, when the
    word neither begins nor ends with white space. *)
Lemma occurs_any_case_mentions (word status_text : pystr) :
  PyStr.isspace (hd 32 word) = false ->
  PyStr.isspace (List.last word 32) = false ->
  occurs_any_case word status_text ->
  mentions word status_text.
Proof.
  intros Hf Hl (before & written & after & -> & Hascii & Hlow).
  subst word.
  assert (Hsf : PyStr.isspace (hd 32 written) = false).
  { destruct written as [|f' written]; [discriminate Hf|].
    simpl in *. apply isspace_lower_ascii; [now inversion Hascii | exact Hf]. }
  assert (Hsl : PyStr.isspace (List.last written 32) = false).
  { rewrite last_map_lower in Hl.
    apply isspace_lower_ascii; [now apply Forall_last_ascii | exact Hl]. }
  destruct (strip_keeps_word before written after Hsf Hsl) as (b' & a' & Hstrip).
  unfold mentions. rewrite Hstrip.
  destruct (lower_keeps_word b' written a' Hascii) as (b'' & a'' & Hlower).
  rewrite Hlower. apply contains_middle.
Qed.

(** The same, word by word. *)
Lemma parse_book_status_cascade (status_text : pystr) :
  let has (word : string) := mentionsb (py word) status_text in
  (has "scarica"%string = true -> _parse_book_status status_text = Some (py "available"))
  /\ (has "scarica"%string = false -> has "ripeti"%string = true ->
      _parse_book_status status_text = Some (py "owned"))
  /\ (has "scarica"%string = false -> has "ripeti"%string = false -> has "prenotato"%string = true ->
      _parse_book_status status_text = Some (py "reserved"))
  /\ (has "scarica"%string = false -> has "ripeti"%string = false -> has "prenotato"%string = false ->
      has "occupato"%string = true ->
      _parse_book_status status_text = Some (py "taken"))
  /\ (has "scarica"%string = false -> has "ripeti"%string = false -> has "prenotato"%string = false ->
      has "occupato"%string = false -> has "non disponibile"%string = true ->
      _parse_book_status status_text = Some (py "unavailable"))
  /\ (has "scarica"%string = false -> has "ripeti"%string = false -> has "prenotato"%string = false ->
      has "occupato"%string = false -> has "non disponibile"%string = false ->
      _parse_book_status status_text = None).
Proof.
  unfold _parse_book_status, mentionsb. cbv zeta.
  repeat split; intros; repeat match goal with H : _ = _ |- _ => rewrite H; clear H end;
    reflexivity.
Qed.

(** C1. The status parser gives to every text the status of the first word
    of the vocabulary (scarica, ripeti, prenotato, occupato, non
    disponibile, in this order) that the trimmed, lower-cased text
    contains, and no status when it contains none of them; it is a total
    function, so no text makes it raise.  A word of the vocabulary written
    in any case at any position of the text is contained in this sense.
    The text "  RIPETI DOWNLOAD  " is owned. *)
Theorem parse_book_status_vocabulary (status_text : pystr) :
  _parse_book_status status_text = status_of_text status_text
  /\ (forall word st, In (word, st) vocabulary ->
        occurs_any_case (py word) status_text ->
        mentions (py word) status_text /\
        exists st', _parse_book_status status_text = Some (py st'))
  /\ (occurs_any_case (py "scarica") status_text ->
      _parse_book_status status_text = Some (py "available"))
  /\ _parse_book_status (py "  RIPETI DOWNLOAD  ") = Some (py "owned").
Proof.
  assert (Hspec : _parse_book_status status_text = status_of_text status_text).
  { unfold _parse_book_status, status_of_text, mentionsb, vocabulary. simpl.
    repeat match goal with
           | |- context [if ?b then _ else _] => destruct b; try reflexivity
           end. }
  assert (Hm : forall word st, In (word, st) vocabulary ->
                 occurs_any_case (py word) status_text ->
                 mentions (py word) status_text).
  { intros word st Hin Hocc. simpl in Hin.
    repeat (destruct Hin as [Heq | Hin];
            [ injection Heq as <- _;
              apply occurs_any_case_mentions; [reflexivity | reflexivity | exact Hocc] | ]).
    contradiction. }
  split; [exact Hspec|]. split; [|split; [|reflexivity]].
  - intros word st Hin Hocc.
    split; [exact (Hm word st Hin Hocc)|].
    rewrite Hspec. unfold status_of_text.
    destruct (List.find _ vocabulary) as [entry|] eqn:Hfind.
    + exists (snd entry). reflexivity.
    + exfalso. pose proof (find_none _ _ Hfind _ Hin) as Hf. simpl in Hf.
      pose proof (Hm word st Hin Hocc) as Ht.
      unfold mentions in Ht. unfold mentionsb in Hf. congruence.
  - intros Hocc.
    apply (proj1 (parse_book_status_cascade status_text)).
    apply (Hm "scarica"%string "available"%string); [now left | exact Hocc].
Qed.

End StatusFacts.

(** A status text with the first word of the vocabulary in upper case. *)
Lemma parse_book_status_vocabulary_witness :
  occurs_any_case (py "scarica") (py " Clicca e SCARICA  ")
  /\ _parse_book_status (U := ascii_only) (py " Clicca e SCARICA  ")
     = Some (py "available").
Proof.
  assert (H : occurs_any_case (py "scarica") (py " Clicca e SCARICA  ")).
  { exists (py " Clicca e "), (py "SCARICA"), (py "  ").
    split; [reflexivity|]. split; [|reflexivity].
    vm_compute. repeat constructor. }
  split; [exact H|].
  exact (proj1 (proj2 (proj2 (parse_book_status_vocabulary (U := ascii_only) _))) H).
Defined.

(** ** The log *)

Section LogFacts.
Context {U : UnicodeData} {E : Environment}.

Lemma logging_add_log (l : level) (msg : pystr) (w : world) :
  logging l msg w = (Ok tt, add_log w [(l, msg)]).
Proof. reflexivity. Qed.

Lemma add_log_nil (w : world) : add_log w [] = w.
Proof. destruct w. unfold add_log. simpl. now rewrite app_nil_r. Qed.

Lemma add_log_app (w : world) (a b : list log_record) :
  add_log (add_log w a) b = add_log w (a ++ b).
Proof. unfold add_log. simpl. now rewrite app_assoc. Qed.

End LogFacts.

(** ** The listing parser *)

Section ListingFacts.
Context {U : UnicodeData} {E : Environment}.
Import Bs4.

Lemma item_authors_cases (page book : element) :
  (forall a, item_authors page book a = Ok a)
  \/ (exists r, (forall a, item_authors page book a = r) /\ r <> Ok None).
Proof.
  unfold item_authors.
  destruct (select _ book) as [|author_el ?].
  - destruct (find (py "p") page) as [p|]; simpl.
    + destruct (attr (py "itemprop") p) as [v|]; simpl.
      * destruct (PyStr.eqb v (py "author")).
        -- right. destruct (string_of p); simpl; eexists; split; try reflexivity; discriminate.
        -- left. reflexivity.
      * right. eexists; split; [reflexivity | discriminate].
    + right. eexists; split; [reflexivity | discriminate].
  - right. destruct (string_of author_el); simpl; eexists; split; try reflexivity; discriminate.
Qed.

(** In terms of the page: the item has an author link, or the first
    paragraph of the page is missing, has no [itemprop], or is the
    author's. *)
Lemma assigns_authors_iff (page book : element) :
  assigns_authors page book <->
  select [by_tag "p"; by_tag_class "a" "authorref"] book <> []
  \/ match find (py "p") page with
     | None => True
     | Some p =>
         match attr (py "itemprop") p with
         | None => True
         | Some v => PyStr.eqb v (py "author") = true
         end
     end.
Proof.
  unfold assigns_authors, item_authors.
  destruct (select _ book) as [|author_el others].
  - destruct (find (py "p") page) as [p|]; simpl.
    + destruct (attr (py "itemprop") p) as [v|]; simpl.
      * destruct (PyStr.eqb v (py "author")).
        -- split; [auto|]. intros _. destruct (string_of p); discriminate.
        -- split; [intros H; now contradiction H|].
           intros [H | H]; [now contradiction H | discriminate H].
      * split; [auto|]. discriminate.
    + split; [auto|]. discriminate.
  - split; [intros _; left; discriminate|].
    intros _. destruct (string_of author_el); discriminate.
Qed.


Lemma extracted_skipped_length (lvl : level) (i : nat) (items : list element) :
  (List.length (extracted items) + List.length (skipped lvl i items))%nat = List.length items.
Proof.
  revert i. induction items as [|book rest IH]; intros i; simpl; [reflexivity|].
  unfold well_formed. destruct (item_title_id book) as [[t d]|e]; simpl.
  - now rewrite IH.
  - rewrite Nat.add_succ_r. now rewrite IH.
Qed.




End ListingFacts.

Section ListingClaim.
Context {U : UnicodeData} {E : Environment}.
Import Bs4.


End ListingClaim.



(** ** The detail parser *)

Section FormatFacts.
Context {U : UnicodeData}.
Import Bs4.


End FormatFacts.


(** The detail parser on the complete page. *)
Example parse_book_page_complete :
  _parse_book_page (U := ascii_only) (E := Fixtures.offline)
    (Fixtures.document (Fixtures.detail_page "  RIPETI DOWNLOAD  ")) Fixtures.fresh
  = (Ok {| bd_title := Some (py "Il nome della rosa");
           bd_authors := Some [py "Eco, Umberto"; py "Altro, Autore"];
           bd_publisher := Some (py "Bompiani");
           bd_ISBNs := Some [py "9788845278655"];
           bd_status := Some (Some (py "owned"));
           bd_description := Some (py "Un romanzo.");
           bd_language := Some (py "italiano");
           bd_year := Some 1980%Z;
           bd_drm := Some true;
           bd_formats := Some [py "epub"; py "pdf"] |},
     Fixtures.fresh).
Proof. vm_compute. reflexivity. Qed.

Section DetailFacts.
Context {U : UnicodeData} {E : Environment}.
Import Bs4.

(** A page without a description block makes the detail parser raise,
    whatever else is on the page. *)
Lemma parse_book_page_without_description (page : element) (w : world) :
  find_attr (py "div") (py "itemprop") (py "description") page = None ->
  _parse_book_page page w = (Raise TypeError, w).
Proof.
  intros H. unfold _parse_book_page, description_element, bind, lift.
  rewrite H. reflexivity.
Qed.

(** So does a description block that has no tag inside. *)
Lemma parse_book_page_empty_description (page div : element) (w : world) :
  find_attr (py "div") (py "itemprop") (py "description") page = Some div ->
  List.find has_text (contents div) = None ->
  _parse_book_page page w = (Raise StopIteration, w).
Proof.
  intros H1 H2. unfold _parse_book_page, description_element, bind, lift.
  rewrite H1, H2. reflexivity.
Qed.

(** And a year that is not an integer literal, when the description is
    there. *)
Lemma parse_book_page_year_not_integer (page description year : element) (w : world) :
  description_element page = Ok description ->
  find_attr (py "span") (py "itemprop") (py "datePublished") page = Some year ->
  PyStr.int (PyStr.strip (text year)) = None ->
  _parse_book_page page w = (Raise ValueError, w).
Proof.
  intros H1 H2 H3. unfold _parse_book_page, bind, lift.
  rewrite H1, H2, H3. reflexivity.
Qed.

End DetailFacts.

(** C2 fails on the code.  The page that lacks only its description block
    has the markup of its title, authors, publisher, ISBN, status, language,
    year and formats, and the detail parser raises [TypeError] on it instead
    of returning them; with a year that is not a number it raises
    [ValueError]; and [get_book_by_id] passes the exception on to its
    caller. *)
Theorem parse_book_page_field_failure_raises :
  let page := Fixtures.document Fixtures.detail_without_description in
  let env := Fixtures.detail_portal Fixtures.detail_without_description in
  Bs4.select_one (U := ascii_only) [Bs4.by_class "book-title"] page <> None
  /\ _parse_book_page (U := ascii_only) (E := Fixtures.offline) page Fixtures.fresh
     = (Raise TypeError, Fixtures.fresh)
  /\ _parse_book_page (U := ascii_only) (E := Fixtures.offline)
       (Fixtures.document (Fixtures.detail_with_year "MCMLXXX")) Fixtures.fresh
     = (Raise ValueError, Fixtures.fresh)
  /\ fst (get_book_by_id (U := ascii_only) (E := env) Fixtures.client
            (py "150") (Fixtures.start env [] tt))
     = Raise TypeError.
Proof.
  cbv zeta. split; [vm_compute; discriminate|].
  split; [vm_compute; reflexivity|].
  split; vm_compute; reflexivity.
Qed.

(** ** The login *)

Section LoginFacts.
Context {U : UnicodeData} {E : Environment}.
Import Bs4.

(** C9, as the code has it.  When the login page opens and none of its
    forms has a control named [lusername], the login fails with
    [IndexError], raised by the [[0]] that takes the first matching form;
    the construction of a client with credentials fails with it. *)
Theorem get_auth_cookies_without_login_form
    (self : MLOLClient) (username password : pystr) (w w1 : world)
    (browser : RoboBrowser.browser) :
  browser_open (base_url self +s ENDPOINTS.login) w = (Ok browser, w1) ->
  filter (has_field (py "lusername")) (get_forms browser) = [] ->
  _get_auth_cookies self username password w = (Raise IndexError, w1)
  /\ forall (domain : pystr) (w0 : world),
       given (Some username) && given (Some password) && given (Some domain) = true ->
       self = {| base_url := py "https://"
                               +s PyStr.re_sub_scheme (PyStr.rstrip_chars (py "/") domain);
                 session_headers := dict_merge requests_default_headers DEFAULT_HEADERS |} ->
       w = {| log := log w0; sent := sent w0; cookies := []; server := server w0 |} ->
       __init__ (Some domain) (Some username) (Some password) w0 = (Raise IndexError, w1).
Proof.
  intros Hopen Hnone.
  assert (Hauth : _get_auth_cookies self username password w = (Raise IndexError, w1)).
  { unfold _get_auth_cookies, bind. rewrite Hopen. unfold lift. rewrite Hnone. reflexivity. }
  split; [exact Hauth|].
  intros domain w0 Hgiven -> ->.
  unfold __init__, bind, set_cookies. rewrite Hgiven.
  cbv beta iota. rewrite Hauth. reflexivity.
Qed.

End LoginFacts.

(** The login page that has only the search form. *)
Lemma get_auth_cookies_without_login_form_witness :
  let env := Fixtures.login_portal Fixtures.login_without_form in
  fst (_get_auth_cookies (U := ascii_only) (E := env)
         Fixtures.client (py "user") (py "secret") (Fixtures.start env [] tt))
  = Raise IndexError.
Proof.
  intros env.
  destruct (get_auth_cookies_without_login_form (U := ascii_only) (E := env)
              Fixtures.client (py "user") (py "secret") (Fixtures.start env [] tt)
              (snd (browser_open (E := env)
                      (base_url Fixtures.client +s ENDPOINTS.login)
                      (Fixtures.start env [] tt)))
              {| RoboBrowser.session_cookies := [];
                 RoboBrowser.url := [];
                 RoboBrowser.parsed := Fixtures.document Fixtures.login_without_form |})
    as [H _].
  - vm_compute. reflexivity.
  - vm_compute. reflexivity.
  - rewrite H. reflexivity.
Defined.

(** C9 as stated fails: on the login page without a login form the
    exception is [IndexError], not [AuthenticationError], from the login
    and from the construction of the client alike. *)
Lemma get_auth_cookies_raises_index_error :
  let env := Fixtures.login_portal Fixtures.login_without_form in
  let r := fst (_get_auth_cookies (U := ascii_only) (E := env)
                  Fixtures.client (py "user") (py "secret") (Fixtures.start env [] tt)) in
  r = Raise IndexError
  /\ r <> Raise AuthenticationError
  /\ fst (__init__ (U := ascii_only) (E := env)
            (Some (py "https://biblio.medialibrary.it/")) (Some (py "user"))
            (Some (py "secret")) (Fixtures.start env [] tt))
     = Raise IndexError.
Proof.
  cbv zeta. split; [vm_compute; reflexivity|].
  split; [vm_compute; discriminate | vm_compute; reflexivity].
Qed.

(** ** The worker pool and the deep search *)

Section ExecutorFacts.
Context {U : UnicodeData} {E : Environment}.
Variables A B : Type.
Variable fn : A -> M B.

(** What a task gives does not depend on when it runs. *)
Variable outcome : A -> result B.
Hypothesis fn_outcome : forall x w, fst (fn x w) = outcome x.

Lemma set_future_length (i : nat) (r : result B) (fs : futures B) :
  List.length (set_future i r fs) = List.length fs.
Proof.
  revert i. induction fs as [|f fs IH]; intros [|i]; simpl; auto.
Qed.

Lemma nth_error_set_future_same (i : nat) (r : result B) (fs : futures B) :
  (i < List.length fs)%nat -> nth_error (set_future i r fs) i = Some (Some r).
Proof.
  revert i. induction fs as [|f fs IH]; intros [|i] Hi; simpl in *; try lia; auto.
  apply IH. lia.
Qed.

Lemma nth_error_set_future_other (i j : nat) (r : result B) (fs : futures B) :
  i <> j -> nth_error (set_future i r fs) j = nth_error fs j.
Proof.
  revert i j. induction fs as [|f fs IH]; intros [|i] [|j] Hij; simpl; auto.
  congruence.
Qed.

Lemma fit_set_future (xs : list A) (fs : futures B) (i : nat) (x : A) (w : world) :
  fit outcome xs fs -> nth_error xs i = Some x ->
  fit outcome xs (set_future i (fst (fn x w)) fs).
Proof.
  intros [Hlen Hfit] Hx. split; [now rewrite set_future_length|].
  intros j r Hj. destruct (Nat.eq_dec i j) as [<- | Hij].
  - rewrite nth_error_set_future_same in Hj.
    + injection Hj as <-. exists x. split; [exact Hx | apply fn_outcome].
    + rewrite Hlen. apply nth_error_Some. congruence.
  - rewrite nth_error_set_future_other in Hj by exact Hij. now apply Hfit.
Qed.

(** Running tasks keeps the futures fitting, keeps what is done, and does
    every task that the order names. *)
Lemma run_tasks_fit (xs : list A) (order : list nat) :
  forall (fs : futures B) (w : world),
    fit outcome xs fs ->
    fit outcome xs (fst (run_tasks fn xs order fs w))
    /\ forall i, (i < List.length xs)%nat -> In i order \/ done fs i ->
                 done (fst (run_tasks fn xs order fs w)) i.
Proof.
  induction order as [|a order IH]; intros fs w Hfit; simpl.
  - split; [exact Hfit|]. intros i _ [[] | Hd]. exact Hd.
  - destruct (nth_error xs a) as [x|] eqn:Hx.
    + destruct (nth_error fs a) as [[r|]|] eqn:Hf.
      * destruct (IH fs w Hfit) as [H1 H2]. split; [exact H1|].
        intros i Hi [[<- | Hin] | Hd]; apply H2; auto.
        right. now exists r.
      * destruct (fn x w) as [r w'] eqn:Hrun.
        assert (Hfit' : fit outcome xs (set_future a r fs)).
        { replace r with (fst (fn x w)) by now rewrite Hrun.
          now apply fit_set_future. }
        destruct (IH (set_future a r fs) w' Hfit') as [H1 H2]. split; [exact H1|].
        intros i Hi Hcase. apply H2; [exact Hi|].
        destruct Hcase as [[<- | Hin] | [r' Hd]]; auto.
        -- right. exists r. apply nth_error_set_future_same.
           apply nth_error_Some. congruence.
        -- right. exists r'. rewrite nth_error_set_future_other; [exact Hd|].
           intros <-. congruence.
      * exfalso. destruct Hfit as [Hlen _].
        apply nth_error_None in Hf. rewrite Hlen in Hf.
        assert (nth_error xs a <> None) by congruence.
        apply nth_error_Some in H. lia.
    + destruct (IH fs w Hfit) as [H1 H2]. split; [exact H1|].
      intros i Hi [[<- | Hin] | Hd]; try (apply H2; auto).
      apply nth_error_None in Hx. lia.
Qed.

(** Once all the tasks have run, the futures are the outcomes of the tasks
    in the order of dispatch, whatever the schedule was. *)
Lemma run_tasks_all (xs : list A) (schedule : list nat) (w : world) :
  fst (run_tasks fn xs (schedule ++ seq 0 (List.length xs))
         (repeat None (List.length xs)) w)
  = map (fun x => Some (outcome x)) xs.
Proof.
  assert (Hfit0 : fit outcome xs (repeat None (List.length xs))).
  { split; [apply repeat_length|]. intros i r Hi. exfalso.
    apply nth_error_In, repeat_spec in Hi. discriminate. }
  destruct (run_tasks_fit xs (schedule ++ seq 0 (List.length xs)) _ w Hfit0)
    as [[Hlen Hfit] Hdone].
  apply nth_error_ext. intros i. rewrite nth_error_map.
  destruct (Nat.lt_ge_cases i (List.length xs)) as [Hi | Hi].
  - destruct (Hdone i Hi) as [r Hr].
    { left. apply in_or_app. right. apply in_seq. lia. }
    rewrite Hr. destruct (Hfit i r Hr) as (x & -> & ->). reflexivity.
  - rewrite (proj2 (nth_error_None xs i)) by exact Hi.
    apply nth_error_None. now rewrite Hlen.
Qed.

Lemma gather_outcomes (xs : list A) :
  gather (map (fun x => Some (outcome x)) xs) = outcomes outcome xs.
Proof.
  induction xs as [|x xs IH]; simpl; [reflexivity|].
  destruct (outcome x); [now rewrite IH | reflexivity].
Qed.

Lemma executor_map_outcomes (schedule : list nat) (xs : list A) (w : world) :
  fst (executor_map fn schedule xs w) = outcomes outcome xs.
Proof.
  unfold executor_map.
  pose proof (run_tasks_all xs schedule w) as H.
  destruct (run_tasks fn xs _ _ w) as [fs w']. simpl in *.
  rewrite H. apply gather_outcomes.
Qed.

Lemma sequential_map_outcomes (xs : list A) (w : world) :
  fst (sequential_map fn xs w) = outcomes outcome xs.
Proof.
  revert w. induction xs as [|x xs IH]; intros w; simpl; [reflexivity|].
  unfold bind. rewrite <- (fn_outcome x w).
  destruct (fn x w) as [[b|e] w']; simpl; [|reflexivity].
  rewrite <- (IH w').
  destruct (sequential_map fn xs w') as [[bs|e] w'']; reflexivity.
Qed.

Lemma outcomes_length (xs : list A) (bs : list B) :
  outcomes outcome xs = Ok bs -> List.length bs = List.length xs.
Proof.
  revert bs. induction xs as [|x xs IH]; intros bs; simpl.
  - now intros [= <-].
  - destruct (outcome x); [|discriminate].
    destruct (outcomes outcome xs) as [bs'|]; [|discriminate].
    simpl. intros [= <-]. simpl. now rewrite (IH bs').
Qed.

(** The batch of the pool is the sequential map, under every schedule: the
    same list, or the same first exception; a list has one element per
    task. *)
Lemma executor_map_dispatch_order (schedule : list nat) (xs : list A) (w w' : world) :
  fst (executor_map fn schedule xs w) = fst (sequential_map fn xs w')
  /\ forall bs, fst (executor_map fn schedule xs w) = Ok bs ->
                List.length bs = List.length xs.
Proof.
  rewrite executor_map_outcomes, sequential_map_outcomes. split; [reflexivity|].
  apply outcomes_length.
Qed.

End ExecutorFacts.

Section StatelessPortal.
Context {U : UnicodeData} {E : Environment}.
Import Bs4.

(** The detail parser does nothing but read the page and add to the log:
    what it returns and what it logs are the same in every world. *)
Lemma parse_book_page_reads_only (page : element) :
  exists r records, forall w, _parse_book_page page w = (r, add_log w records).
Proof.
  unfold _parse_book_page, bind, lift, ret, or_raise.
  destruct (description_element page) as [description|e];
    [destruct (find_attr (py "span") (py "itemprop") (py "datePublished") page) as [year|];
     [destruct (PyStr.int (PyStr.strip (text year))) as [y|]|]|];
    cbv beta iota;
    try match goal with |- context [formats_block page ?d] =>
          destruct (formats_block page d) as [[[]|e] d']
        end;
    cbv beta iota zeta;
    first [ eexists; exists []; intros w; rewrite add_log_nil; reflexivity
          | eexists; eexists; intros w; rewrite logging_add_log; reflexivity ].
Qed.

(** On such a portal, what [get_book_by_id] gives for an ID is the same in
    every world. *)
Lemma get_book_by_id_stateless (self : MLOLClient) (book_id : pystr) (w w' : world) :
  stateless_details self ->
  fst (get_book_by_id self book_id w) = fst (get_book_by_id self book_id w').
Proof.
  intros Hstateless. unfold get_book_by_id, bind.
  rewrite !logging_add_log. unfold session_request. simpl.
  specialize (Hstateless book_id (server w) (cookies w) (server w') (cookies w')).
  destruct (send (server w) (cookies w) (base_url self) _) as [[s1 j1] r1].
  destruct (send (server w') (cookies w') (base_url self) _) as [[s2 j2] r2].
  simpl in Hstateless. subst r2.
  destruct r1 as [response|e]; [|reflexivity].
  destruct ((400 <=? Requests.status_code response)
            && (Requests.status_code response <? 600)); [reflexivity|].
  destruct (PyStr.contains (py "alert.aspx") (Requests.url response)); [reflexivity|].
  destruct (parse_book_page_reads_only
              (BeautifulSoup_root (BeautifulSoup (Requests.text response))))
    as (r & records & Hparse).
  rewrite !Hparse. destruct r as [d|e]; [|reflexivity].
  destruct (bd_title d); reflexivity.
Qed.

End StatelessPortal.

Section DeepSearchFacts.
Context {U : UnicodeData} {E : Environment}.
Import Bs4.

(** The batch of a deep search on a page with at least one record, when
    what [get_book_by_id] gives for an ID does not depend on the moment of
    the request: under every schedule of the pool it is the sequential map
    of [get_book_by_id] over the IDs of the records in listing order, with
    one element per record. *)
Lemma deep_batch_in_listing_order
    (self : MLOLClient) (req_params : dict) (pages : nat) (first_response : Response)
    (schedule : list nat) (i : nat) (w w1 w2 : world) (response : Response)
    (books : list MLOLBook) (detail : pystr -> result (option MLOLBook)) :
  (forall book_id w, fst (get_book_by_id self book_id w) = detail book_id) ->
  page_response self req_params pages first_response i w = (Ok response, w1) ->
  _parse_search_page (BeautifulSoup_root (BeautifulSoup (Requests.text response))) w1
  = (Ok books, w2) ->
  books <> [] ->
  fst (search_page self req_params pages true first_response schedule i w)
  = fst (sequential_map (get_book_by_id self) (map id books) w2)
  /\ forall batch,
       fst (search_page self req_params pages true first_response schedule i w) = Ok batch ->
       List.length batch = List.length books.
Proof.
  intros Hdetail Hresp Hparse Hne.
  unfold search_page, bind. rewrite Hresp, Hparse.
  destruct books as [|b books]; [congruence|].
  unfold lift. simpl ThreadPoolExecutor. cbv beta iota.
  destruct (executor_map_dispatch_order _ _ (get_book_by_id self) detail Hdetail
              schedule (map id (b :: books)) w2 w2) as [Heq Hlen].
  split; [exact Heq|].
  intros batch Hb. rewrite (Hlen batch Hb). apply length_map.
Qed.

(** The same for a portal that is stateless for the detail requests. *)
Lemma deep_batch_on_stateless_portal
    (self : MLOLClient) (req_params : dict) (pages : nat) (first_response : Response)
    (schedule : list nat) (i : nat) (w w1 w2 : world) (response : Response)
    (books : list MLOLBook) :
  stateless_details self ->
  page_response self req_params pages first_response i w = (Ok response, w1) ->
  _parse_search_page (BeautifulSoup_root (BeautifulSoup (Requests.text response))) w1
  = (Ok books, w2) ->
  books <> [] ->
  fst (search_page self req_params pages true first_response schedule i w)
  = fst (sequential_map (get_book_by_id self) (map id books) w2)
  /\ forall batch,
       fst (search_page self req_params pages true first_response schedule i w) = Ok batch ->
       List.length batch = List.length books.
Proof.
  intros Hstateless.
  apply (deep_batch_in_listing_order self req_params pages first_response schedule i
           w w1 w2 response books (fun book_id => fst (get_book_by_id self book_id w))).
  intros book_id w'. now apply get_book_by_id_stateless.
Qed.

(** C10. When the listing parse of a page gives no record, the batch of a
    deep search raises: the pool is asked for [min(0, 5) = 0] workers and
    refuses; the batch of a shallow search on the same page is the empty
    list.  So a deep search yields a batch only for a page with at least
    one record. *)
Theorem deep_search_empty_page_raises
    (self : MLOLClient) (req_params : dict) (pages : nat) (first_response : Response)
    (schedule : list nat) (i : nat) (w : world) :
  ThreadPoolExecutor (Nat.min 0 max_threads) = Raise ValueError
  /\ (forall response w1 w2,
        page_response self req_params pages first_response i w = (Ok response, w1) ->
        _parse_search_page (BeautifulSoup_root (BeautifulSoup (Requests.text response))) w1
        = (Ok [], w2) ->
        search_page self req_params pages true first_response schedule i w
        = (Raise ValueError, w2)
        /\ search_page self req_params pages false first_response schedule i w
           = (Ok [], w2))
  /\ (forall batch w',
        search_page self req_params pages true first_response schedule i w = (Ok batch, w') ->
        exists response w1 books w2,
          page_response self req_params pages first_response i w = (Ok response, w1)
          /\ _parse_search_page
               (BeautifulSoup_root (BeautifulSoup (Requests.text response))) w1
             = (Ok books, w2)
          /\ books <> []).
Proof.
  split; [reflexivity|]. split.
  - intros response w1 w2 Hresp Hparse.
    unfold search_page, bind. rewrite Hresp, Hparse. split; reflexivity.
  - intros batch w'. unfold search_page, bind.
    destruct (page_response self req_params pages first_response i w)
      as [[response|e] w1] eqn:Hresp; [|discriminate].
    destruct (_parse_search_page _ w1) as [[books|e] w2] eqn:Hparse; [|discriminate].
    intros H. exists response, w1, books, w2.
    split; [reflexivity|]. split; [exact Hparse|].
    intros ->. discriminate H.
Qed.

End DeepSearchFacts.

(** The listing page without result items, searched deep and shallow. *)
Lemma deep_search_empty_page_raises_witness :
  let env := Fixtures.catalogue_portal Fixtures.listing_empty
               (Fixtures.detail_page "Scarica") in
  let w := Fixtures.start env [] tt in
  search_page (U := ascii_only) (E := env) Fixtures.client [] 1 true
    (Fixtures.page 200 "listing") [] 1 w
  = (Raise ValueError, w)
  /\ search_page (U := ascii_only) (E := env) Fixtures.client [] 1 false
       (Fixtures.page 200 "listing") [] 1 w
     = (Ok [], w).
Proof.
  intros env w.
  destruct (deep_search_empty_page_raises (U := ascii_only) (E := env)
              Fixtures.client [] 1 (Fixtures.page 200 "listing") [] 1 w)
    as (_ & H & _).
  apply (H (Fixtures.page 200 "listing") w w); vm_compute; reflexivity.
Defined.

(** C6 fails on the code for a page without listing records: the batch of
    a deep search is not the sequential map of [get_book_by_id] over the
    IDs of the records, which is the empty list, but the [ValueError] of the
    pool, through [search_books] as well. *)
Theorem deep_search_of_empty_listing_raises :
  let env := Fixtures.catalogue_portal Fixtures.listing_empty
               (Fixtures.detail_page "Scarica") in
  let w := Fixtures.start env [] tt in
  let listing := Fixtures.document Fixtures.listing_empty in
  fst (_parse_search_page (U := ascii_only) (E := env) listing w) = Ok []
  /\ fst (sequential_map (get_book_by_id (U := ascii_only) (E := env) Fixtures.client)
            (map id []) w)
     = Ok []
  /\ fst (search_page (U := ascii_only) (E := env) Fixtures.client [] 1 true
            (Fixtures.page 200 "listing") [] 1 w)
     = Raise ValueError
  /\ fst ((batches <- search_books (U := ascii_only) (E := env) Fixtures.client
                        (py "rosa") true Fixtures.in_order ;;
           take_batches 1 batches)%py_scope w)
     = Raise ValueError
  /\ fst ((batches <- search_books (U := ascii_only) (E := env) Fixtures.client
                        (py "rosa") false Fixtures.in_order ;;
           take_batches 1 batches)%py_scope w)
     = Ok [[]].
Proof.
  cbv zeta. repeat split; vm_compute; reflexivity.
Qed.

(** ** The download *)

Section DownloadFacts.
Context {U : UnicodeData} {E : Environment}.
Import Bs4.

Lemma eqb_eq (a b : pystr) : PyStr.eqb a b = true <-> a = b.
Proof.
  revert b. induction a as [|x a IH]; intros [|y b]; simpl; split;
    try discriminate; try reflexivity.
  - intros H. apply andb_true_iff in H. destruct H as [H1 H2].
    apply N.eqb_eq in H1. apply IH in H2. congruence.
  - intros [= -> ->]. rewrite N.eqb_refl. now apply IH.
Qed.

Lemma status_is_true (st : string) (o : option pystr) :
  status_is st o = true <-> o = Some (py st).
Proof.
  unfold status_is. destruct o as [s|]; [|split; discriminate].
  rewrite eqb_eq. split; congruence.
Qed.

Lemma status_is_false (st : string) (o : option pystr) :
  status_is st o = false <-> o <> Some (py st).
Proof.
  rewrite <- status_is_true. destruct (status_is st o); split; congruence.
Qed.

Lemma session_request_sent (self : MLOLClient) (req : request) (w : world) :
  sent_since w (snd (session_request self req w)) [req]
  /\ log (snd (session_request self req w)) = log w.
Proof.
  unfold session_request, sent_since.
  destruct (send (server w) (cookies w) (base_url self) req) as [[srv jar] [resp|e]];
    [destruct ((400 <=? Requests.status_code resp) && (Requests.status_code resp <? 600))|];
    simpl; auto.
Qed.

(** What [finish_download] sends: nothing, or the one request that follows
    the redirect, which lets the session follow further redirects. *)
Lemma finish_download_sent (self : MLOLClient) (book_id : pystr) (response : Response)
    (w : world) :
  exists requests,
    sent_since w (snd (finish_download self book_id response w)) requests
    /\ Forall (fun q => allow_redirects q = true) requests.
Proof.
  unfold finish_download, bind, sent_since.
  destruct (Requests.status_code response =? 302).
  - unfold lift. destruct (header _ _) as [location|]; simpl.
    + match goal with |- context [session_request self ?q w] =>
        pose proof (session_request_sent self q w) as [Hs _];
        destruct (session_request self q w) as [[resp|e] w'] eqn:Hreq;
        exists [q]
      end; simpl in *.
      * split; [|repeat constructor].
        destruct (PyStr.startswith _ _); simpl; exact Hs.
      * split; [exact Hs | repeat constructor].
    + exists []. simpl. now rewrite app_nil_r.
  - exists []. unfold ret.
    destruct (PyStr.startswith _ _); simpl; now rewrite app_nil_r.
Qed.

(** What the redownload sends: the request for the user's resources first,
    then at most the request to the redownload endpoint. *)
Lemma redownload_sent (self : MLOLClient) (book_id : pystr) (w : world) :
  exists requests,
    sent_since w (snd (_redownload_owned_book self book_id w))
      (GET ENDPOINTS.resources [] :: requests)
    /\ Forall (fun q => url q = ENDPOINTS.redownload) requests.
Proof.
  unfold _redownload_owned_book, bind, sent_since.
  pose proof (session_request_sent self (GET ENDPOINTS.resources []) w) as [Hs _].
  destruct (session_request self (GET ENDPOINTS.resources []) w) as [[resp|e] w1].
  - unfold try_except, lift.
    destruct (find_loan_id _ book_id) as [loan_id|e]; simpl in *.
    + pose proof (session_request_sent self (redownload_request self loan_id) w1) as [Hs2 _].
      exists [redownload_request self loan_id]. split; [|repeat constructor].
      unfold sent_since in *. rewrite Hs2, Hs, <- app_assoc. reflexivity.
    + exists []. split; [exact Hs | constructor].
  - exists []. split; [exact Hs | constructor].
Qed.

(** After the session test and the lookup of the book, the download is the
    branch that the status selects. *)
Lemma download_book_by_id_branches
    (self : MLOLClient) (book_id : pystr) (w w1 : world) (book : MLOLBook) :
  authenticated w = true ->
  get_book_by_id self book_id w = (Ok (Some book), w1) ->
  download_book_by_id self book_id w
  = (if status_is "owned" (status book)
     then logging INFO (py "You already own this book. Redownloading...") ;;;
          response <- _redownload_owned_book self book_id ;;
          finish_download self book_id response
     else if negb (status_is "available" (status book))
     then logging (fst (not_available (status book))) (snd (not_available (status book))) ;;;
          ret None
     else response <- session_request self (download_request self book_id) ;;
          finish_download self book_id response)%py_scope w1.
Proof.
  intros Hauth Hget.
  unfold download_book_by_id, is_authenticated.
  unfold bind at 1. rewrite Hauth. cbv [negb].
  unfold bind at 1. rewrite Hget.
  unfold bind at 1. unfold lift, or_raise, option_map. reflexivity.
Qed.

(** The download, case by case: without a session, and with a session and
    a record for the book, by the status of the record; with the requests
    that each case sends. *)
Lemma download_by_status (self : MLOLClient) (book_id : pystr) (w : world) :
  (authenticated w = false ->
   download_book_by_id self book_id w = (Ok None, add_log w [authentication_required]))
  /\ (authenticated w = true ->
      forall book w1,
        get_book_by_id self book_id w = (Ok (Some book), w1) ->
        let w' := snd (download_book_by_id self book_id w) in
        (status book = Some (py "owned") ->
         download_book_by_id self book_id w
         = (response <- _redownload_owned_book self book_id ;;
            finish_download self book_id response)%py_scope
             (add_log w1 [(INFO, py "You already own this book. Redownloading...")])
         /\ exists requests,
              sent_since w1 w' (GET ENDPOINTS.resources [] :: requests)
              /\ ~ In (download_request self book_id) requests)
        /\ (status book = Some (py "available") ->
            download_book_by_id self book_id w
            = (response <- session_request self (download_request self book_id) ;;
               finish_download self book_id response)%py_scope w1
            /\ url (download_request self book_id) = ENDPOINTS.download
            /\ params (download_request self book_id)
               = [(py "unid", book_id); (py "form", py "epub")]
            /\ exists requests,
                 sent_since w1 w' (download_request self book_id :: requests))
        /\ (status book <> Some (py "owned") ->
            status book <> Some (py "available") ->
            download_book_by_id self book_id w
            = (Ok None, add_log w1 [not_available (status book)])
            /\ sent_since w1 w' [])).
Proof.
  split.
  - intros Hauth. unfold download_book_by_id, is_authenticated.
    unfold bind at 1. rewrite Hauth. reflexivity.
  - intros Hauth book w1 Hget w'. subst w'.
    pose proof (download_book_by_id_branches self book_id w w1 book Hauth Hget) as Hbr.
    split; [|split].
    + intros Hst. apply status_is_true in Hst.
      set (w2 := add_log w1 [(INFO, py "You already own this book. Redownloading...")]).
      assert (Heq : download_book_by_id self book_id w
                    = (response <- _redownload_owned_book self book_id ;;
                       finish_download self book_id response)%py_scope w2).
      { rewrite Hbr, Hst. unfold bind at 1. rewrite logging_add_log. reflexivity. }
      split; [exact Heq|]. rewrite Heq.
      destruct (redownload_sent self book_id w2) as (l1 & Hs1 & Hl1).
      unfold bind.
      destruct (_redownload_owned_book self book_id w2) as [[response|e] w3];
        simpl in Hs1; cbv beta iota.
      * destruct (finish_download_sent self book_id response w3) as (l2 & Hs2 & Hl2).
        exists (l1 ++ l2). split.
        -- unfold sent_since in *. rewrite Hs2, Hs1. simpl.
           rewrite <- app_assoc. reflexivity.
        -- intros Hin. apply in_app_or in Hin. destruct Hin as [Hin | Hin].
           ++ rewrite Forall_forall in Hl1. apply Hl1 in Hin. discriminate Hin.
           ++ rewrite Forall_forall in Hl2. apply Hl2 in Hin. discriminate Hin.
      * exists l1. split; [exact Hs1|].
        intros Hin. rewrite Forall_forall in Hl1. apply Hl1 in Hin. discriminate Hin.
    + intros Hst.
      assert (Hown : status_is "owned" (status book) = false).
      { apply status_is_false. rewrite Hst. discriminate. }
      apply status_is_true in Hst.
      assert (Heq : download_book_by_id self book_id w
                    = (response <- session_request self (download_request self book_id) ;;
                       finish_download self book_id response)%py_scope w1).
      { rewrite Hbr, Hown, Hst. reflexivity. }
      split; [exact Heq|]. split; [reflexivity|]. split; [reflexivity|].
      rewrite Heq. unfold bind.
      pose proof (session_request_sent self (download_request self book_id) w1) as [Hs _].
      destruct (session_request self (download_request self book_id) w1)
        as [[response|e] w2]; simpl in Hs; cbv beta iota.
      * destruct (finish_download_sent self book_id response w2) as (l2 & Hs2 & _).
        exists l2. unfold sent_since in *. rewrite Hs2, Hs, <- app_assoc. reflexivity.
      * exists []. exact Hs.
    + intros Hown Havail.
      apply status_is_false in Hown. apply status_is_false in Havail.
      assert (Heq : download_book_by_id self book_id w
                    = (Ok None, add_log w1 [not_available (status book)])).
      { rewrite Hbr, Hown, Havail. reflexivity. }
      split; [exact Heq|]. rewrite Heq.
      unfold sent_since. simpl. now rewrite app_nil_r.
Qed.


End DownloadFacts.


Section FailureFacts.
Context {U : UnicodeData} {E : Environment}.
Import Bs4.

(** A final response without the marker: an error is logged and there is
    no result. *)
Lemma finish_download_without_marker
    (self : MLOLClient) (book_id : pystr) (response : Response) (w : world) :
  (Requests.status_code response =? 302) = false ->
  has_marker response = false ->
  finish_download self book_id response w
  = (Ok None, add_log w (download_failed book_id response)).
Proof.
  intros Hcode Hmark. unfold finish_download, has_marker in *.
  rewrite Hcode. unfold bind at 1. unfold ret at 1.
  rewrite Hmark. unfold bind, ret. rewrite !logging_add_log, add_log_app. reflexivity.
Qed.

(** The same after the redirect has been followed. *)
Lemma finish_download_redirect_without_marker
    (self : MLOLClient) (book_id location : pystr) (response final : Response)
    (w w' : world) :
  (Requests.status_code response =? 302) = true ->
  header (py "Location") (Requests.headers response) = Some location ->
  session_request self (redirect_request self location) w = (Ok final, w') ->
  has_marker final = false ->
  finish_download self book_id response w
  = (Ok None, add_log w' (download_failed book_id final)).
Proof.
  intros Hcode Hloc Hreq Hmark. unfold finish_download, has_marker in *.
  rewrite Hcode, Hloc. unfold bind at 1. unfold bind at 1. unfold lift, or_raise.
  fold (redirect_request self location). rewrite Hreq, Hmark.
  unfold bind, ret. rewrite !logging_add_log, add_log_app. reflexivity.
Qed.

(** A loan that is not found: the error is logged and the exception of the
    lookup goes on to the caller. *)
Lemma redownload_loan_not_found
    (self : MLOLClient) (book_id : pystr) (response : Response) (w w1 : world) (e : exn) :
  session_request self (GET ENDPOINTS.resources []) w = (Ok response, w1) ->
  find_loan_id (BeautifulSoup_root (BeautifulSoup (Requests.text response))) book_id
  = Raise e ->
  _redownload_owned_book self book_id w = (Raise e, add_log w1 [loan_not_found book_id]).
Proof.
  intros Hreq Hloan. unfold _redownload_owned_book.
  unfold bind at 1. rewrite Hreq.
  unfold bind at 1. unfold try_except, lift. rewrite Hloan.
  unfold bind, raise. rewrite logging_add_log. reflexivity.
Qed.

(** C5, as the code has it.  Of the failures of a download, three are
    reported with an error in the log and no result: a missing session, a
    book that is neither owned nor available, and a final response without
    the marker of a download (shown for both ends of [download_book_by_id]
    and for the direct download as a whole).  When the loan of an owned book
    is not found, the error is logged and the exception of the lookup is
    raised again to the caller; an exception of the lookup of the book
    reaches the caller as well. *)
Theorem download_book_by_id_failures (self : MLOLClient) (book_id : pystr) (w : world) :
  (authenticated w = false ->
   download_book_by_id self book_id w = (Ok None, add_log w [authentication_required]))
  /\ (authenticated w = true ->
      (forall e w1,
         get_book_by_id self book_id w = (Raise e, w1) ->
         download_book_by_id self book_id w = (Raise e, w1))
      /\ forall book w1,
         get_book_by_id self book_id w = (Ok (Some book), w1) ->
         (status book <> Some (py "owned") ->
          status book <> Some (py "available") ->
          download_book_by_id self book_id w
          = (Ok None, add_log w1 [not_available (status book)]))
         /\ (status book = Some (py "owned") ->
             forall response w2 e,
               session_request self (GET ENDPOINTS.resources [])
                 (add_log w1 [(INFO, py "You already own this book. Redownloading...")])
               = (Ok response, w2) ->
               find_loan_id (BeautifulSoup_root (BeautifulSoup (Requests.text response)))
                 book_id = Raise e ->
               download_book_by_id self book_id w
               = (Raise e, add_log w2 [loan_not_found book_id]))
         /\ (status book = Some (py "available") ->
             forall response w2,
               session_request self (download_request self book_id) w1 = (Ok response, w2) ->
               (Requests.status_code response =? 302) = false ->
               has_marker response = false ->
               download_book_by_id self book_id w
               = (Ok None, add_log w2 (download_failed book_id response))))
  /\ (forall response w0,
        (Requests.status_code response =? 302) = false ->
        has_marker response = false ->
        finish_download self book_id response w0
        = (Ok None, add_log w0 (download_failed book_id response)))
  /\ (forall location response final w0 w0',
        (Requests.status_code response =? 302) = true ->
        header (py "Location") (Requests.headers response) = Some location ->
        session_request self (redirect_request self location) w0 = (Ok final, w0') ->
        has_marker final = false ->
        finish_download self book_id response w0
        = (Ok None, add_log w0' (download_failed book_id final))).
Proof.
  destruct (download_by_status self book_id w) as [Hno Hyes].
  split; [exact Hno|]. split; [|split].
  - intros Hauth. split.
    + intros e w1 Hget. unfold download_book_by_id, is_authenticated.
      unfold bind at 1. rewrite Hauth. cbv [negb].
      unfold bind at 1. rewrite Hget. reflexivity.
    + intros book w1 Hget.
      destruct (Hyes Hauth book w1 Hget) as (Howned & Havail & Hother).
      split; [|split].
      * intros H1 H2. apply (Hother H1 H2).
      * intros Hst response w2 e Hreq Hloan.
        destruct (Howned Hst) as [-> _].
        unfold bind.
        rewrite (redownload_loan_not_found self book_id response _ w2 e Hreq Hloan).
        reflexivity.
      * intros Hst response w2 Hreq Hcode Hmark.
        destruct (Havail Hst) as [-> _].
        unfold bind at 1. rewrite Hreq.
        apply finish_download_without_marker; assumption.
  - intros response w0. apply finish_download_without_marker.
  - intros location response final w0 w0'.
    apply finish_download_redirect_without_marker.
Qed.

End FailureFacts.

(** A book that is not available: an error in the log and no result. *)
Lemma download_book_by_id_failures_witness :
  let env := Fixtures.member_portal (Fixtures.detail_page "Non disponibile")
               Fixtures.resources_without_loan "Errore" [] in
  let w := Fixtures.start env Fixtures.logged_in tt in
  let w1 := snd (get_book_by_id (U := ascii_only) (E := env) Fixtures.client (py "150") w) in
  authenticated w = true
  /\ download_book_by_id (U := ascii_only) (E := env) Fixtures.client (py "150") w
     = (Ok None, add_log w1 [not_available (Some (py "unavailable"))]).
Proof.
  intros env w w1. split; [reflexivity|].
  destruct (download_book_by_id_failures (U := ascii_only) (E := env)
              Fixtures.client (py "150") w) as (_ & H & _).
  destruct (H eq_refl) as [_ Hbook].
  destruct (get_book_by_id (U := ascii_only) (E := env) Fixtures.client (py "150") w)
    as [[[book|]|e] w2] eqn:Hget;
    try (vm_compute in Hget; discriminate Hget).
  destruct (Hbook book w2 eq_refl) as [Hother _].
  assert (Hst : status book = Some (py "unavailable")).
  { vm_compute in Hget. injection Hget as <- _. reflexivity. }
  rewrite Hother; rewrite Hst; [reflexivity | discriminate | discriminate].
Defined.

(** C5 as stated fails.  For an owned book whose loan is not on the page of
    the user's resources the error is logged and the download raises; and
    when the lookup of the book gives no record (here a detail page without
    a title) the download raises [AttributeError]. *)
Lemma download_book_by_id_raises :
  (let env := Fixtures.member_portal (Fixtures.detail_page "Ripeti download")
                Fixtures.resources_without_loan "Errore" [] in
   let r := download_book_by_id (U := ascii_only) (E := env) Fixtures.client (py "150")
              (Fixtures.start env Fixtures.logged_in tt) in
   fst r = Raise AttributeError
   /\ fst r <> Ok None
   /\ In (loan_not_found (py "150")) (log (snd r)))
  /\ (let env := Fixtures.member_portal Fixtures.detail_without_title
                   Fixtures.resources_without_loan "Errore" [] in
      let w := Fixtures.start env Fixtures.logged_in tt in
      fst (get_book_by_id (U := ascii_only) (E := env) Fixtures.client (py "150") w)
      = Ok None
      /\ fst (download_book_by_id (U := ascii_only) (E := env) Fixtures.client (py "150") w)
         = Raise AttributeError).
Proof.
  cbv zeta. split; [split; [|split]|split].
  - vm_compute. reflexivity.
  - vm_compute. discriminate.
  - vm_compute. right. right. left. reflexivity.
  - vm_compute. reflexivity.
  - vm_compute. reflexivity.
Qed.

(** ** The reservation *)

Section ReservationFacts.
Context {U : UnicodeData} {E : Environment}.
Import Bs4.

(** C8. Once the reservation request has been answered, the result goes by
    the text of the element [#lblInfo] of the answer, trimmed and in lower
    case: with "con successo" in it the result is [True]; otherwise, with
    "prenotazione attiva" in it, the result is [True] and a warning is
    logged; with neither, the result is [False] and an error is logged.
    When the answer has no such element, an error that says that the
    outcome is unknown is logged, and there is no result. *)
Theorem reserve_book_by_id_outcome
    (self : MLOLClient) (book_id email : pystr) (w w1 w3 : world)
    (book : MLOLBook) (response : Response) :
  authenticated w = true ->
  get_book_by_id self book_id w = (Ok (Some book), w1) ->
  session_request self (reserve_request self book_id email)
    (after_status_check (status book) w1) = (Ok response, w3) ->
  let soup := BeautifulSoup_root (BeautifulSoup (Requests.text response)) in
  (forall outcome,
     select_one [by_id "lblInfo"] soup = Some outcome ->
     let message := PyStr.lower (PyStr.strip (text outcome)) in
     (PyStr.contains (py "con successo") message = true ->
      reserve_book_by_id self book_id email w = (Ok (Some true), w3))
     /\ (PyStr.contains (py "con successo") message = false ->
         PyStr.contains (py "prenotazione attiva") message = true ->
         reserve_book_by_id self book_id email w
         = (Ok (Some true),
            add_log w3 [(WARNING, py "You already have an active reservation for book #"
                                  +s book_id)]))
     /\ (PyStr.contains (py "con successo") message = false ->
         PyStr.contains (py "prenotazione attiva") message = false ->
         reserve_book_by_id self book_id email w
         = (Ok (Some false),
            add_log w3 [(ERROR, py "Failed to reserve book #" +s book_id)])))
  /\ (select_one [by_id "lblInfo"] soup = None ->
      reserve_book_by_id self book_id email w
      = (Ok None,
         add_log w3 [(ERROR, py "Failed to reserve book with ID " +s book_id
                             +s py " (unknown outcome)")])).
Proof.
  intros Hauth Hget Hreq soup.
  assert (Hrun : reserve_book_by_id self book_id email w
                 = match select_one [by_id "lblInfo"] soup with
                   | Some outcome =>
                       let message := PyStr.lower (PyStr.strip (text outcome)) in
                       if PyStr.contains (py "con successo") message
                       then ret (Some true) w3
                       else if PyStr.contains (py "prenotazione attiva") message
                       then (logging WARNING
                               (py "You already have an active reservation for book #"
                                +s book_id) ;;;
                             ret (Some true))%py_scope w3
                       else (logging ERROR (py "Failed to reserve book #" +s book_id) ;;;
                             ret (Some false))%py_scope w3
                   | None =>
                       (logging ERROR
                          (py "Failed to reserve book with ID " +s book_id
                           +s py " (unknown outcome)") ;;;
                        ret None)%py_scope w3
                   end).
  { unfold reserve_book_by_id, is_authenticated.
    unfold bind at 1. rewrite Hauth. change (negb true) with false. cbv iota.
    unfold bind at 1. rewrite Hget.
    unfold bind at 1. unfold lift, or_raise, option_map.
    unfold bind at 1.
    assert (Hcheck : (if negb (status_is "taken" (status book))
                      then logging ERROR
                             (py "You can only reserve taken books. Book status: "
                              +s str_of_option (status book))
                      else ret tt) w1
                     = (Ok tt, after_status_check (status book) w1)).
    { unfold after_status_check. destruct (status_is "taken" (status book)); reflexivity. }
    rewrite Hcheck. unfold bind at 1. rewrite Hreq.
    fold soup. destruct (select_one [by_id "lblInfo"] soup) as [outcome|]; [|reflexivity].
    cbv zeta. destruct (PyStr.contains (py "con successo") _); [reflexivity|].
    destruct (PyStr.contains (py "prenotazione attiva") _); reflexivity. }
  split.
  - intros outcome Hsel message. subst message. rewrite Hrun, Hsel. cbv zeta.
    split; [|split].
    + intros ->. reflexivity.
    + intros -> ->. reflexivity.
    + intros -> ->. reflexivity.
  - intros Hsel. rewrite Hrun, Hsel. reflexivity.
Qed.

End ReservationFacts.

(** A reservation that the portal accepts. *)
Lemma reserve_book_by_id_outcome_witness :
  let env := Fixtures.member_portal (Fixtures.detail_page "Occupato")
               Fixtures.resources_without_loan "Errore"
               (Fixtures.reservation_result " Prenotazione effettuata CON SUCCESSO. ") in
  let w := Fixtures.start env Fixtures.logged_in tt in
  authenticated w = true
  /\ fst (reserve_book_by_id (U := ascii_only) (E := env) Fixtures.client
            (py "150") (py "lettore@example.org") w)
     = Ok (Some true).
Proof.
  intros env w. split; [reflexivity|].
  destruct (get_book_by_id (U := ascii_only) (E := env) Fixtures.client (py "150") w)
    as [[[book|]|e] w1] eqn:Hget;
    try (vm_compute in Hget; discriminate Hget).
  destruct (session_request (E := env) Fixtures.client
              (reserve_request Fixtures.client (py "150") (py "lettore@example.org"))
              (after_status_check (status book) w1))
    as [[response|e] w3] eqn:Hreq.
  - destruct (reserve_book_by_id_outcome (U := ascii_only) (E := env) Fixtures.client
                (py "150") (py "lettore@example.org") w w1 w3 book response
                eq_refl Hget Hreq) as [Hsome _].
    assert (Hresp : response = Fixtures.page 200 "reservation").
    { vm_compute in Hget. injection Hget as <- <-.
      vm_compute in Hreq. injection Hreq as <- _. reflexivity. }
    subst response.
    destruct (Hsome (Bs4.Element (Bs4.soup (Fixtures.document
                        (Fixtures.reservation_result
                           " Prenotazione effettuata CON SUCCESSO. "))) [0%nat]))
      as [Hok _]; [vm_compute; reflexivity|].
    rewrite Hok; [reflexivity | vm_compute; reflexivity].
  - exfalso. vm_compute in Hget. injection Hget as <- <-.
    vm_compute in Hreq. discriminate Hreq.
Defined.

(** A deep batch of five items whose detail pages are fetched in the order
    5, 3, 1, 4, 2: the requests go out in that order, and the batch is in
    listing order. *)
Example deep_batch_of_five :
  let env := Fixtures.catalogue_portal Fixtures.listing_five
               (Fixtures.detail_page "Scarica") in
  let r := search_page (U := ascii_only) (E := env) Fixtures.client [] 1 true
             (Fixtures.page 200 "listing") [4; 2; 0; 3; 1]%nat 1
             (Fixtures.start env [] tt) in
  Fixtures.batch_ids (fst r)
  = Ok [Some (py "150"); Some (py "151"); Some (py "152"); Some (py "153"); Some (py "154")]
  /\ map params (sent (snd r))
     = [ [(py "id", py "154")]; [(py "id", py "152")]; [(py "id", py "150")];
         [(py "id", py "153")]; [(py "id", py "151")] ].
Proof. cbv zeta. split; vm_compute; reflexivity. Qed.

(** * Further properties of the client *)

(** ** The listing parser on every page *)

Section ListingOutcome.
Context {U : UnicodeData} {E : Environment}.
Import Bs4.

(** Once [authors] has a value, the loop cannot fail any more: an item that
    does not assign it keeps the value of the item before. *)
Lemma parse_result_items_bound (page : element) (items : list element) :
  forall i a books w,
  exists records,
    parse_result_items page i items (Some a) books w
    = (Ok (books ++ records), add_log w (skipped ERROR i items))
    /\ map (fun b => (id b, title b)) records = extracted items.
Proof.
  induction items as [|book rest IH]; intros i a books w; simpl.
  - exists []. rewrite app_nil_r, add_log_nil. auto.
  - unfold well_formed. destruct (item_title_id book) as [[t d]|e].
    + assert (Ha : exists a',
                 match item_authors page book (Some a) with
                 | Ok x => x
                 | Raise _ => Some None
                 end = Some a').
      { destruct (item_authors_cases page book) as [Hsame | (r & Hr & Hne)].
        - rewrite Hsame. eauto.
        - rewrite Hr. destruct r as [[x|]|e]; eauto. exfalso. now apply Hne. }
      destruct Ha as [a' ->].
      destruct (IH (S i) a' (books ++ [listing_book d t (split_authors a')]) w)
        as (records & Hrun & Hmap).
      exists (listing_book d t (split_authors a') :: records).
      rewrite Hrun, <- app_assoc. simpl. rewrite Hmap. auto.
    + unfold bind. rewrite logging_add_log.
      destruct (IH (S i) a books (add_log w [(ERROR, skip_message i)]))
        as (records & Hrun & Hmap).
      exists records. rewrite Hrun, add_log_app. auto.
Qed.

(** The loop from its start, where [authors] has no value yet: all depends
    on the first well-formed item. *)
Lemma parse_result_items_unbound (page : element) (items : list element) :
  forall i books w,
    (List.find well_formed items = None ->
     parse_result_items page i items None books w
     = (Ok books, add_log w (skipped ERROR i items)))
    /\ (forall book,
          List.find well_formed items = Some book ->
          (assigns_authors page book ->
           exists records,
             parse_result_items page i items None books w
             = (Ok (books ++ records), add_log w (skipped ERROR i items))
             /\ map (fun b => (id b, title b)) records = extracted items)
          /\ (~ assigns_authors page book ->
              parse_result_items page i items None books w
              = (Raise UnboundLocalError, add_log w (leading_skipped ERROR i items)))).
Proof.
  induction items as [|b rest IH]; intros i books w; simpl.
  - split; [intros _; now rewrite add_log_nil | discriminate].
  - destruct (item_title_id b) as [[t d]|e] eqn:Hb.
    + assert (Hwf : well_formed b = true) by (unfold well_formed; now rewrite Hb).
      rewrite !Hwf.
      split; [discriminate|]. intros book [= <-]. unfold assigns_authors.
      destruct (item_authors_cases page b) as [Hsame | (r & Hr & Hne)].
      * rewrite Hsame. split; [intros H; now contradiction H|].
        intros _. unfold raise. now rewrite add_log_nil.
      * rewrite Hr. split; [|intros H; now contradiction H].
        intros _.
        assert (Ha : exists a', match r with Ok x => x | Raise _ => Some None end = Some a').
        { destruct r as [[x|]|e]; eauto. exfalso. now apply Hne. }
        destruct Ha as [a' ->].
        destruct (parse_result_items_bound page rest (S i) a'
                    (books ++ [listing_book d t (split_authors a')]) w)
          as (records & Hrun & Hmap).
        exists (listing_book d t (split_authors a') :: records).
        rewrite Hrun, <- app_assoc. simpl. rewrite Hmap. auto.
    + assert (Hwf : well_formed b = false) by (unfold well_formed; now rewrite Hb).
      rewrite !Hwf.
      unfold bind. rewrite logging_add_log.
      destruct (IH (S i) books (add_log w [(ERROR, skip_message i)])) as [Hnone Hsome].
      split.
      * intros Hfind. rewrite (Hnone Hfind), add_log_app. reflexivity.
      * intros book Hfind. destruct (Hsome book Hfind) as [Hyes Hno]. split.
        -- intros Hassign. destruct (Hyes Hassign) as (records & Hrun & Hmap).
           exists records. rewrite Hrun, add_log_app. auto.
        -- intros Hassign. rewrite (Hno Hassign), add_log_app. reflexivity.
Qed.

End ListingOutcome.

Section ListingExtras.
Context {U : UnicodeData} {E : Environment}.
Import Bs4.

(** The outcome of the listing parser by its first well-formed item. *)
Lemma listing_outcome (page : element) (w : world) :
  (List.find well_formed (result_items page) = None ->
   _parse_search_page page w = (Ok [], add_log w (skipped ERROR 0 (result_items page))))
  /\ (forall book,
        List.find well_formed (result_items page) = Some book ->
        (assigns_authors page book ->
         exists records,
           _parse_search_page page w
           = (Ok records, add_log w (skipped ERROR 0 (result_items page)))
           /\ map (fun b => (id b, title b)) records = extracted (result_items page))
        /\ (~ assigns_authors page book ->
            _parse_search_page page w
            = (Raise UnboundLocalError,
               add_log w (leading_skipped ERROR 0 (result_items page))))).
Proof.
  unfold _parse_search_page. fold (result_items page).
  destruct (parse_result_items_unbound page (result_items page) 0 [] w) as [Hnone Hsome].
  split; [exact Hnone|].
  intros book Hfind. destruct (Hsome book Hfind) as [Hyes Hno].
  split; [|exact Hno].
  intros Hassign. destruct (Hyes Hassign) as (records & Hrun & Hmap).
  exists records. now rewrite Hrun.
Qed.

(** X1. What the listing parser does on any page is decided by the first
    item whose ID and title can be extracted.  Without such an item it
    returns the empty list; when that item gives a value to [authors] it
    returns one record per well-formed item, in document order, whatever the
    later items do; when it does not, the parser raises [UnboundLocalError],
    having logged the malformed items before it.  In each case the parser
    only adds to the log. *)
Theorem parse_search_page_outcome (page : element) (w : world) :
  (List.find well_formed (result_items page) = None ->
   _parse_search_page page w = (Ok [], add_log w (skipped ERROR 0 (result_items page))))
  /\ (forall book,
        List.find well_formed (result_items page) = Some book ->
        (assigns_authors page book ->
         exists records,
           _parse_search_page page w
           = (Ok records, add_log w (skipped ERROR 0 (result_items page)))
           /\ map (fun b => (id b, title b)) records = extracted (result_items page))
        /\ (~ assigns_authors page book ->
            _parse_search_page page w
            = (Raise UnboundLocalError,
               add_log w (leading_skipped ERROR 0 (result_items page))))).
Proof. exact (listing_outcome page w). Qed.

Lemma digits_to_end_cons (c : codepoint) (s : pystr) :
  PyStr.digits_to_end (c :: s)
  = if PyStr.isdecimal c
    then if at_end s then Some [c] else option_map (cons c) (PyStr.digits_to_end s)
    else None.
Proof.
  simpl. destruct (PyStr.isdecimal c); [|reflexivity].
  destruct s as [|c' s']; [reflexivity|].
  destruct c' as [|p]; [reflexivity|].
  repeat (destruct p as [p|p|]; try reflexivity).
  destruct s'; reflexivity.
Qed.

Lemma digits_to_end_digits (s m : pystr) :
  PyStr.digits_to_end s = Some m -> digit_string m.
Proof.
  revert m. induction s as [|c s IH]; intros m; [discriminate|].
  rewrite digits_to_end_cons.
  destruct (PyStr.isdecimal c) eqn:Hc; [|discriminate].
  destruct (at_end s).
  - intros [= <-]. split; [discriminate | now repeat constructor].
  - destruct (PyStr.digits_to_end s) as [m'|]; [|discriminate].
    intros [= <-]. destruct (IH m' eq_refl) as [_ Hall].
    split; [discriminate | now constructor].
Qed.

Lemma search_digits_after_digits (rkey before s m : pystr) :
  PyStr.search_digits_after rkey before s = Some m -> digit_string m.
Proof.
  revert before. induction s as [|c s IH]; intros before;
    cbn [PyStr.search_digits_after]; cbv zeta.
  - destruct (PyStr.startswith before rkey); discriminate.
  - destruct (PyStr.startswith before rkey); [|apply IH].
    destruct (PyStr.digits_to_end (c :: s)) as [m'|] eqn:Hd; [|apply IH].
    intros [= <-]. now apply (digits_to_end_digits (c :: s)).
Qed.

Lemma item_title_id_digits (book : element) (t d : pystr) :
  item_title_id book = Ok (t, d) -> digit_string d.
Proof.
  unfold item_title_id, rbind, or_raise.
  destruct (find (py "h4") book) as [h4|]; [|discriminate].
  destruct (attr (py "title") h4); [|discriminate].
  destruct (find (py "a") book) as [a|]; [|discriminate].
  destruct (attr (py "href") a) as [href|]; [|discriminate].
  destruct (PyStr.re_search_digits_after (py "id=") href) as [m|] eqn:Hm; [|discriminate].
  intros [= _ <-]. now apply (search_digits_after_digits _ _ _ _ Hm).
Qed.

Lemma extracted_digits (items : list element) :
  Forall (fun p => digit_string (fst p)) (extracted items).
Proof.
  induction items as [|b rest IH]; simpl; [constructor|].
  destruct (item_title_id b) as [[t d]|e] eqn:Hb; [|exact IH].
  constructor; [|exact IH]. simpl. now apply (item_title_id_digits b t).
Qed.

Lemma listing_records (page : element) (w w' : world) (records : list MLOLBook) :
  _parse_search_page page w = (Ok records, w') ->
  map (fun b => (id b, title b)) records = extracted (result_items page)
  /\ Forall (fun b => digit_string (id b)) records
  /\ w' = add_log w (skipped ERROR 0 (result_items page)).
Proof.
  intros Hrun.
  assert (H : map (fun b => (id b, title b)) records = extracted (result_items page)
              /\ w' = add_log w (skipped ERROR 0 (result_items page))).
  { destruct (listing_outcome page w) as [Hnone Hsome].
    destruct (List.find well_formed (result_items page)) as [book|] eqn:Hfind.
    - destruct (Hsome book eq_refl) as [Hyes Hno].
      destruct (item_authors page book None) as [[a|]|e] eqn:Ha.
      + destruct Hyes as (records' & Hrun' & Hmap);
          [unfold assigns_authors; rewrite Ha; discriminate|].
        rewrite Hrun in Hrun'. injection Hrun' as <- <-. auto.
      + rewrite Hno in Hrun; [discriminate|].
        unfold assigns_authors. rewrite Ha. intros H. now apply H.
      + destruct Hyes as (records' & Hrun' & Hmap);
          [unfold assigns_authors; rewrite Ha; discriminate|].
        rewrite Hrun in Hrun'. injection Hrun' as <- <-. auto.
    - rewrite (Hnone eq_refl) in Hrun. injection Hrun as <- <-.
      split; [|reflexivity].
      clear - Hfind. induction (result_items page) as [|b rest IH]; [reflexivity|].
      simpl in *. unfold well_formed in Hfind.
      destruct (item_title_id b) as [[t d]|e]; [discriminate | now apply IH]. }
  destruct H as [Hmap Hw]. split; [exact Hmap|]. split; [|exact Hw].
  pose proof (extracted_digits (result_items page)) as Hd. rewrite <- Hmap in Hd.
  rewrite Forall_map in Hd. exact Hd.
Qed.

(** X2. Whatever the page, the records that the listing parser returns are
    those of the well-formed items, in document order, and the ID of each
    record is a string of decimal digits that is not empty; the parser has
    then added one error per malformed item to the log and has changed
    nothing else (no request, no cookie). *)
Theorem parse_search_page_sound (page : element) (w w' : world) (records : list MLOLBook) :
  _parse_search_page page w = (Ok records, w') ->
  map (fun b => (id b, title b)) records = extracted (result_items page)
  /\ Forall (fun b => digit_string (id b)) records
  /\ w' = add_log w (skipped ERROR 0 (result_items page)).
Proof. exact (listing_records page w w' records). Qed.



End ListingExtras.


(** The same page: the first well-formed item gives a value to [authors],
    so the parser returns; the page whose only item gives none raises. *)
Lemma parse_search_page_outcome_witness :
  (exists records,
     _parse_search_page (U := ascii_only) (E := Fixtures.offline)
       Fixtures.listing_carry_over Fixtures.fresh
     = (Ok records, Fixtures.fresh)
     /\ map (fun b => (id b, title b)) records
        = [(py "150", py "Il nome della rosa"); (py "151", py "I promessi sposi")])
  /\ _parse_search_page (U := ascii_only) (E := Fixtures.offline)
       Fixtures.listing_no_author Fixtures.fresh
     = (Raise UnboundLocalError, Fixtures.fresh).
Proof.
  split.
  - destruct (parse_search_page_outcome (U := ascii_only) (E := Fixtures.offline)
                Fixtures.listing_carry_over Fixtures.fresh) as [_ H].
    destruct (H (Bs4.Element (Bs4.soup Fixtures.listing_carry_over) [1%nat]))
      as [Hyes _]; [vm_compute; reflexivity|].
    destruct Hyes as (records & Hrun & Hmap);
      [unfold assigns_authors; vm_compute; discriminate|].
    exists records. split; [exact Hrun | exact Hmap].
  - destruct (parse_search_page_outcome (U := ascii_only) (E := Fixtures.offline)
                Fixtures.listing_no_author Fixtures.fresh) as [_ H].
    destruct (H (Bs4.Element (Bs4.soup Fixtures.listing_no_author) [1%nat]))
      as [_ Hno]; [vm_compute; reflexivity|].
    apply Hno. unfold assigns_authors. vm_compute. intros Hc. now apply Hc.
Defined.

(** The three-item page: two records with the IDs 150 and 152. *)
Lemma parse_search_page_sound_witness :
  exists records w',
    _parse_search_page (U := ascii_only) (E := Fixtures.offline)
      Fixtures.listing_three Fixtures.fresh = (Ok records, w')
    /\ Forall (fun b => digit_string (U := ascii_only) (id b)) records.
Proof.
  destruct (_parse_search_page (U := ascii_only) (E := Fixtures.offline)
              Fixtures.listing_three Fixtures.fresh) as [[records|e] w'] eqn:Hrun;
    [|vm_compute in Hrun; discriminate Hrun].
  exists records, w'. split; [reflexivity|].
  exact (proj1 (proj2 (parse_search_page_sound (U := ascii_only) (E := Fixtures.offline)
                         Fixtures.listing_three Fixtures.fresh w' records Hrun))).
Defined.

(** ** The detail parser when it returns *)

Section DetailExtras.
Context {U : UnicodeData} {E : Environment}.
Import Bs4.

(** The last block touches [drm] and [formats] only. *)
Lemma formats_block_keeps (page : element) (d d' : book_data) (r : result unit) :
  formats_block page d = (r, d') ->
  bd_title d' = bd_title d /\ bd_authors d' = bd_authors d
  /\ bd_publisher d' = bd_publisher d /\ bd_ISBNs d' = bd_ISBNs d
  /\ bd_status d' = bd_status d /\ bd_description d' = bd_description d
  /\ bd_language d' = bd_language d /\ bd_year d' = bd_year d.
Proof.
  unfold formats_block. destruct (formats_str page) as [fs|e].
  - destruct (parse_formats fs); intros [= <- <-]; simpl; tauto.
  - intros [= <- <-]. tauto.
Qed.

(** What the last block leaves in [drm] and [formats], from book data that
    have neither. *)
Lemma formats_block_result (page : element) (d d' : book_data) (r : result unit) :
  bd_drm d = None -> bd_formats d = None ->
  formats_block page d = (r, d') ->
  match r with
  | Ok _ =>
      exists fs token others,
        formats_str page = Ok fs /\ PyStr.split_ws fs = token :: others
        /\ bd_drm d' = Some (parse_drm fs)
        /\ bd_formats d'
           = Some (map (fun f => PyStr.lower (PyStr.strip f)) (PyStr.split 47 token))
  | Raise _ =>
      bd_formats d' = None
      /\ match formats_str page with
         | Ok fs => PyStr.split_ws fs = [] /\ bd_drm d' = Some (parse_drm fs)
         | Raise _ => bd_drm d' = None
         end
  end.
Proof.
  intros Hdrm Hfmt. unfold formats_block, parse_formats.
  destruct (formats_str page) as [fs|e].
  - destruct (PyStr.split_ws fs) as [|token others] eqn:Hsplit; simpl;
      intros [= <- <-]; simpl.
    + repeat split; try reflexivity; assumption.
    + exists fs, token, others. repeat split; try reflexivity; assumption.
  - intros [= <- <-]. split; assumption.
Qed.

(** The detail parser, step by step, when it returns: the book data before
    the last block, and the last block. *)
Lemma parse_book_page_returns (page : element) (w w' : world) (d : book_data) :
  _parse_book_page page w = (Ok d, w') ->
  exists description d0 r,
    description_element page = Ok description
    /\ formats_block page d0 = (r, d)
    /\ bd_drm d0 = None /\ bd_formats d0 = None
    /\ w' = match r with
            | Ok _ => w
            | Raise _ => add_log w [formats_warning (bd_title d)]
            end
    /\ bd_title d0
       = option_map (fun e => PyStr.strip (text e)) (select_one [by_class "book-title"] page)
    /\ bd_authors d0
       = option_map (fun e => map PyStr.strip (PyStr.split 59 (PyStr.strip (text e))))
           (select_one [by_class "authors_title"] page)
    /\ bd_publisher d0
       = option_map (fun e => PyStr.strip (text e))
           (select_one [by_class "publisher_title"; by_tag "span"; by_tag "a"] page)
    /\ bd_ISBNs d0
       = match find_all_attr (py "itemprop") (py "isbn") page with
         | [] => None
         | l => Some (map (fun i => PyStr.strip (text i)) l)
         end
    /\ bd_status d0
       = option_map (fun e => _parse_book_status (PyStr.strip (text e)))
           (select_one [by_class "panel-mlol"] page)
    /\ bd_description d0
       = (if truthy description then Some (PyStr.strip (text description)) else None)
    /\ bd_language d0
       = option_map (fun e => PyStr.strip (text e))
           (find_attr (py "span") (py "itemprop") (py "inLanguage") page)
    /\ match find_attr (py "span") (py "itemprop") (py "datePublished") page with
       | Some year => PyStr.int (PyStr.strip (text year)) = bd_year d0 /\ bd_year d0 <> None
       | None => bd_year d0 = None
       end.
Proof.
  unfold _parse_book_page, bind, lift, ret, or_raise, formats_warning.
  destruct (description_element page) as [description|e]; [|discriminate].
  destruct (find_attr (py "span") (py "itemprop") (py "datePublished") page) as [year|];
    [destruct (PyStr.int (PyStr.strip (text year))) as [y|]; [|discriminate]|];
    cbv beta iota zeta;
    match goal with |- context [formats_block page ?d] =>
      destruct (formats_block page d) as [[[]|e] d'] eqn:Hblock
    end;
    try rewrite logging_add_log;
    intros [= <- <-];
    eexists description, _, _; (split; [reflexivity|]); (split; [exact Hblock|]);
    unfold if_found;
    destruct (select_one [by_class "book-title"] page);
    destruct (select_one [by_class "authors_title"] page);
    destruct (select_one [by_class "publisher_title"; by_tag "span"; by_tag "a"] page);
    destruct (find_all_attr (py "itemprop") (py "isbn") page);
    destruct (select_one [by_class "panel-mlol"] page);
    destruct (truthy description);
    destruct (find_attr (py "span") (py "itemprop") (py "inLanguage") page);
    simpl; repeat split; try reflexivity; try discriminate.
Qed.

(** The fields that the detail parser reads each from its own element. *)
Lemma book_data_fields (page : element) (w w' : world) (d : book_data) :
  _parse_book_page page w = (Ok d, w') ->
  bd_title d
  = option_map (fun e => PyStr.strip (text e)) (select_one [by_class "book-title"] page)
  /\ bd_authors d
     = option_map (fun e => map PyStr.strip (PyStr.split 59 (PyStr.strip (text e))))
         (select_one [by_class "authors_title"] page)
  /\ bd_publisher d
     = option_map (fun e => PyStr.strip (text e))
         (select_one [by_class "publisher_title"; by_tag "span"; by_tag "a"] page)
  /\ bd_ISBNs d
     = match find_all_attr (py "itemprop") (py "isbn") page with
       | [] => None
       | l => Some (map (fun i => PyStr.strip (text i)) l)
       end
  /\ bd_status d
     = option_map (fun e => _parse_book_status (PyStr.strip (text e)))
         (select_one [by_class "panel-mlol"] page)
  /\ bd_language d
     = option_map (fun e => PyStr.strip (text e))
         (find_attr (py "span") (py "itemprop") (py "inLanguage") page).
Proof.
  intros Hrun.
  destruct (parse_book_page_returns page w w' d Hrun)
    as (description & d0 & r & _ & Hblock & _ & _ & _ & H1 & H2 & H3 & H4 & H5 & _ & H7 & _).
  destruct (formats_block_keeps page d0 d r Hblock)
    as (K1 & K2 & K3 & K4 & K5 & _ & K7 & _).
  rewrite K1, K2, K3, K4, K5, K7. auto 10.
Qed.


(** What the detail parser logs. *)
Lemma book_data_log (page : element) (w w' : world) (r : result book_data) :
  _parse_book_page page w = (r, w') ->
  match r with
  | Ok d =>
      (bd_formats d = None -> w' = add_log w [formats_warning (bd_title d)])
      /\ (bd_formats d <> None -> w' = w /\ bd_drm d <> None)
  | Raise e =>
      w' = w /\ (e = TypeError \/ e = StopIteration \/ e = ValueError)
  end.
Proof.
  destruct r as [d|e]; intros Hrun.
  - destruct (parse_book_page_returns page w w' d Hrun)
      as (description & d0 & r & _ & Hblock & Hdrm & Hfmt & -> & _).
    pose proof (formats_block_result page d0 d r Hdrm Hfmt Hblock) as Hres.
    destruct r as [[]|e].
    + destruct Hres as (fs & token & others & _ & _ & Hd & Hf).
      split; [congruence|]. intros _. split; [reflexivity | congruence].
    + destruct Hres as [Hf _]. split; [reflexivity | congruence].
  - revert Hrun. unfold _parse_book_page, description_element, bind, lift, ret, or_raise.
    destruct (find_attr (py "div") (py "itemprop") (py "description") page) as [div|];
      cbv beta iota zeta; [|intros [= <- <-]; split; [reflexivity | auto]].
    destruct (List.find has_text (contents div)) as [description|];
      cbv beta iota zeta; [|intros [= <- <-]; split; [reflexivity | auto]].
    destruct (find_attr (py "span") (py "itemprop") (py "datePublished") page) as [year|];
      cbv beta iota zeta.
    + destruct (PyStr.int (PyStr.strip (text year))) as [y|];
        cbv beta iota zeta; [|intros [= <- <-]; split; [reflexivity | auto]].
      match goal with |- context [formats_block page ?d] =>
        destruct (formats_block page d) as [[[]|e'] d']
      end; try rewrite logging_add_log; discriminate.
    + match goal with |- context [formats_block page ?d] =>
        destruct (formats_block page d) as [[[]|e'] d']
      end; try rewrite logging_add_log; discriminate.
Qed.

(** X5. The detail parser writes to the log in one case only.  When it
    returns book data without [formats], it has logged one warning that
    names the title of the book ([None] when there is none); when the book
    data have [formats], they have [drm] as well and nothing was logged.
    When it raises, the exception is [TypeError], [StopIteration] or
    [ValueError] and nothing was logged. *)
Theorem parse_book_page_log (page : element) (w w' : world) (r : result book_data) :
  _parse_book_page page w = (r, w') ->
  match r with
  | Ok d =>
      (bd_formats d = None -> w' = add_log w [formats_warning (bd_title d)])
      /\ (bd_formats d <> None -> w' = w /\ bd_drm d <> None)
  | Raise e =>
      w' = w /\ (e = TypeError \/ e = StopIteration \/ e = ValueError)
  end.
Proof. exact (book_data_log page w w' r). Qed.

(** X6. A combined format string without any token (the element is there
    but empty) leaves [drm] set and [formats] absent: the two assignments
    are in this order in the guarded block, and the first has been done when
    the second fails. *)
Theorem parse_book_page_drm_without_formats
    (page : element) (w w' : world) (d : book_data) (fs : pystr) :
  _parse_book_page page w = (Ok d, w') ->
  formats_str page = Ok fs ->
  PyStr.split_ws fs = [] ->
  bd_drm d = Some (parse_drm fs) /\ bd_formats d = None
  /\ w' = add_log w [formats_warning (bd_title d)].
Proof.
  intros Hrun Hstr Hsplit.
  destruct (parse_book_page_returns page w w' d Hrun)
    as (description & d0 & r & _ & Hblock & Hdrm & Hfmt & -> & _).
  pose proof (formats_block_result page d0 d r Hdrm Hfmt Hblock) as Hres.
  destruct r as [[]|e].
  - destruct Hres as (fs' & token & others & Hstr' & Hsplit' & _).
    rewrite Hstr in Hstr'. injection Hstr' as <-. congruence.
  - destruct Hres as [Hf Hd]. rewrite Hstr in Hd. destruct Hd as [_ Hd]. auto.
Qed.

End DetailExtras.


(** The page whose combined string is "DOC": no formats warning, since
    formats and drm are both set. *)
Lemma parse_book_page_log_witness :
  exists d,
    _parse_book_page (U := ascii_only) (E := Fixtures.offline)
      (Fixtures.document (Fixtures.detail_with_formats "DOC")) Fixtures.fresh
    = (Ok d, Fixtures.fresh)
    /\ bd_drm d <> None.
Proof.
  destruct (_parse_book_page (U := ascii_only) (E := Fixtures.offline)
              (Fixtures.document (Fixtures.detail_with_formats "DOC")) Fixtures.fresh)
    as [[d|e] w'] eqn:Hrun; [|vm_compute in Hrun; discriminate Hrun].
  pose proof (parse_book_page_log (U := ascii_only) (E := Fixtures.offline) _ _ _ _ Hrun)
    as [_ H].
  destruct H as [-> Hdrm].
  - vm_compute in Hrun. injection Hrun as <- _. discriminate.
  - exists d. split; [reflexivity | exact Hdrm].
Defined.

(** The page whose combined string is blank: [drm] is [False], [formats]
    is absent, and the warning is logged. *)
Lemma parse_book_page_drm_without_formats_witness :
  exists d w',
    _parse_book_page (U := ascii_only) (E := Fixtures.offline)
      (Fixtures.document (Fixtures.detail_with_formats "   ")) Fixtures.fresh = (Ok d, w')
    /\ bd_drm d = Some false /\ bd_formats d = None
    /\ w' = add_log Fixtures.fresh
              [formats_warning (Some (py "Il nome della rosa"))].
Proof.
  destruct (_parse_book_page (U := ascii_only) (E := Fixtures.offline)
              (Fixtures.document (Fixtures.detail_with_formats "   ")) Fixtures.fresh)
    as [[d|e] w'] eqn:Hrun; [|vm_compute in Hrun; discriminate Hrun].
  exists d, w'. split; [reflexivity|].
  destruct (parse_book_page_drm_without_formats (U := ascii_only) (E := Fixtures.offline)
              _ _ _ _ [] Hrun) as (Hd & Hf & Hw);
    [vm_compute; reflexivity | reflexivity |].
  split; [exact Hd|]. split; [exact Hf|].
  rewrite Hw. vm_compute in Hrun. injection Hrun as <- _. reflexivity.
Defined.

(** ** The lookup of a book *)

Section LookupExtras.
Context {U : UnicodeData} {E : Environment}.
Import Bs4.

(** The lookup, outcome by outcome. *)
Lemma get_book_by_id_cases (self : MLOLClient) (book_id : pystr) (w : world) :
  get_book_by_id self book_id w
  = match session_request self (detail_request book_id) (add_log w [fetching book_id]) with
    | (Raise e, w1) => (Raise e, w1)
    | (Ok response, w1) =>
        if PyStr.contains (py "alert.aspx") (Requests.url response)
        then (Ok None, add_log w1 [fetch_failed book_id])
        else
          match _parse_book_page
                  (BeautifulSoup_root (BeautifulSoup (Requests.text response))) w1 with
          | (Raise e, w2) => (Raise e, w2)
          | (Ok d, w2) =>
              match bd_title d with
              | None => (Ok None, add_log w2 [title_missing book_id])
              | Some title => (Ok (Some (detail_book book_id title d)), w2)
              end
          end
    end.
Proof.
  unfold get_book_by_id, detail_request, fetching, fetch_failed, title_missing.
  unfold bind at 1. rewrite logging_add_log.
  unfold bind at 1.
  destruct (session_request self _ _) as [[response|e] w1]; [|reflexivity].
  destruct (PyStr.contains (py "alert.aspx") (Requests.url response)); [reflexivity|].
  unfold bind at 1.
  destruct (_parse_book_page _ w1) as [[d|e] w2]; [|reflexivity].
  destruct (bd_title d); reflexivity.
Qed.

Lemma sent_add_log (w : world) (records : list log_record) :
  sent (add_log w records) = sent w.
Proof. reflexivity. Qed.

Lemma get_book_by_id_sent (self : MLOLClient) (book_id : pystr) (w : world) :
  sent_since w (snd (get_book_by_id self book_id w)) [detail_request book_id]
  /\ url (detail_request book_id) = ENDPOINTS.get_book
  /\ params (detail_request book_id) = [(py "id", book_id)].
Proof.
  split; [|split; reflexivity].
  rewrite get_book_by_id_cases. unfold sent_since.
  destruct (session_request_sent self (detail_request book_id) (add_log w [fetching book_id]))
    as [Hs _].
  destruct (session_request self _ _) as [[response|e] w1]; simpl in Hs;
    [|exact Hs].
  destruct (PyStr.contains (py "alert.aspx") (Requests.url response)); [exact Hs|].
  destruct (parse_book_page_reads_only
              (BeautifulSoup_root (BeautifulSoup (Requests.text response))))
    as (r & records & Hparse).
  rewrite Hparse. destruct r as [d|e]; [|exact Hs].
  destruct (bd_title d); exact Hs.
Qed.

(** X7. Every call of [get_book_by_id] sends exactly one request, the one
    for the detail page of the book with the ID in its parameters, whatever
    the portal answers and whatever the page holds. *)
Theorem get_book_by_id_one_request (self : MLOLClient) (book_id : pystr) (w : world) :
  sent_since w (snd (get_book_by_id self book_id w)) [detail_request book_id]
  /\ url (detail_request book_id) = ENDPOINTS.get_book
  /\ params (detail_request book_id) = [(py "id", book_id)].
Proof. exact (get_book_by_id_sent self book_id w). Qed.

Lemma parse_book_status_known (status_text s : pystr) :
  _parse_book_status status_text = Some s -> In s known_statuses.
Proof.
  unfold _parse_book_status, known_statuses.
  repeat match goal with
         | |- context [if ?b then _ else _] => destruct b
         end; intros [= <-]; simpl; auto 10.
Qed.

Lemma split_not_empty (sep : codepoint) (s : pystr) : PyStr.split sep s <> [].
Proof.
  unfold PyStr.split. generalize (@nil codepoint) as cur.
  induction s as [|c s IH]; intros cur; simpl; [discriminate|].
  destruct (c =? sep); [discriminate | apply IH].
Qed.

(** X8. A record that [get_book_by_id] returns has the ID that was asked
    for (not one read from the page); its status is absent or one of
    available, owned, reserved, taken, unavailable; when it has formats it
    has a DRM flag; and its lists of authors, ISBNs and formats are never
    empty when present. *)
Theorem get_book_by_id_record
    (self : MLOLClient) (book_id : pystr) (w w' : world) (book : MLOLBook) :
  get_book_by_id self book_id w = (Ok (Some book), w') ->
  id book = book_id
  /\ (forall s, status book = Some s -> In s known_statuses)
  /\ (formats book <> None -> drm book <> None)
  /\ authors book <> Some []
  /\ ISBNs book <> Some []
  /\ formats book <> Some [].
Proof.
  rewrite get_book_by_id_cases.
  destruct (session_request self _ _) as [[response|e] w1]; [|discriminate].
  destruct (PyStr.contains (py "alert.aspx") (Requests.url response)); [discriminate|].
  destruct (_parse_book_page _ w1) as [[d|e] w2] eqn:Hparse; [|discriminate].
  destruct (bd_title d) as [t|]; [|discriminate].
  intros [= <- <-]. simpl.
  destruct (book_data_fields _ _ _ _ Hparse) as (_ & Ha & _ & Hi & Hs & _).
  pose proof (book_data_log _ _ _ (Ok d) Hparse) as [_ Hlog].
  destruct (parse_book_page_returns _ _ _ _ Hparse)
    as (description & d0 & r & _ & Hblock & Hdrm & Hfmt & _).
  pose proof (formats_block_result _ d0 d r Hdrm Hfmt Hblock) as Hres.
  split; [reflexivity|]. split; [|split; [|split; [|split]]].
  - intros s Hst. rewrite Hs in Hst.
    destruct (select_one [by_class "panel-mlol"] _) as [el|]; simpl in Hst; [|discriminate].
    now apply (parse_book_status_known _ _ Hst).
  - intros Hf. now apply Hlog.
  - rewrite Ha. destruct (select_one [by_class "authors_title"] _) as [el|]; simpl;
      [|discriminate].
    intros [= H]. apply map_eq_nil in H. now apply split_not_empty in H.
  - rewrite Hi. destruct (find_all_attr _ _ _); discriminate.
  - destruct r as [[]|e].
    + destruct Hres as (fs & token & others & _ & _ & _ & ->).
      intros [= H]. apply map_eq_nil in H. now apply split_not_empty in H.
    + destruct Hres as [-> _]. discriminate.
Qed.

(** X9. When [get_book_by_id] gives no record, it has said why: the last
    record of the log is a warning, either that the book could not be
    fetched or that its page has no title.  The first is the case whenever
    the answer comes from an address with "alert.aspx" in it, and the page
    is then not parsed at all. *)
Theorem get_book_by_id_not_found (self : MLOLClient) (book_id : pystr) (w : world) :
  (forall w',
     get_book_by_id self book_id w = (Ok None, w') ->
     exists w1,
       w' = add_log w1 [fetch_failed book_id] \/ w' = add_log w1 [title_missing book_id])
  /\ (forall response w1,
        session_request self (detail_request book_id) (add_log w [fetching book_id])
        = (Ok response, w1) ->
        PyStr.contains (py "alert.aspx") (Requests.url response) = true ->
        get_book_by_id self book_id w = (Ok None, add_log w1 [fetch_failed book_id])).
Proof.
  rewrite get_book_by_id_cases. split.
  - intros w'.
    destruct (session_request self _ _) as [[response|e] w1]; [|discriminate].
    destruct (PyStr.contains (py "alert.aspx") (Requests.url response)).
    + intros [= <-]. eauto.
    + destruct (_parse_book_page _ w1) as [[d|e] w2]; [|discriminate].
      destruct (bd_title d); [discriminate|]. intros [= <-]. eauto.
  - intros response w1 -> ->. reflexivity.
Qed.

End LookupExtras.

(** The complete detail page, looked up as book 150. *)
Lemma get_book_by_id_record_witness :
  let env := Fixtures.detail_portal (Fixtures.detail_page "Prenotato") in
  exists book w',
    get_book_by_id (U := ascii_only) (E := env) Fixtures.client (py "150")
      (Fixtures.start env [] tt) = (Ok (Some book), w')
    /\ id book = py "150"
    /\ status book = Some (py "reserved").
Proof.
  intros env.
  destruct (get_book_by_id (U := ascii_only) (E := env) Fixtures.client (py "150")
              (Fixtures.start env [] tt)) as [[[book|]|e] w'] eqn:Hrun;
    try (vm_compute in Hrun; discriminate Hrun).
  exists book, w'. split; [reflexivity|].
  destruct (get_book_by_id_record (U := ascii_only) (E := env) _ _ _ _ _ Hrun) as [Hid _].
  split; [exact Hid|].
  vm_compute in Hrun. injection Hrun as <- _. reflexivity.
Defined.

(** A book that the library does not have. *)
Lemma get_book_by_id_not_found_witness :
  let env := Fixtures.alert_portal in
  let w := Fixtures.start env [] tt in
  exists w1,
    get_book_by_id (U := ascii_only) (E := env) Fixtures.client (py "150") w
    = (Ok None, add_log w1 [fetch_failed (py "150")]).
Proof.
  intros env w.
  destruct (get_book_by_id_not_found (U := ascii_only) (E := env)
              Fixtures.client (py "150") w) as [_ H].
  exists (snd (session_request (E := env) Fixtures.client (detail_request (py "150"))
                 (add_log w [fetching (py "150")]))).
  apply (H Fixtures.alert_response); vm_compute; reflexivity.
Defined.

(** ** The end of a download *)

Section DownloadExtras.
Context {U : UnicodeData} {E : Environment}.
Import Bs4.

(** The end of a download, from the response that is examined. *)
Lemma examine_download (self : MLOLClient) (book_id : pystr) (final : Response) (w : world) :
  (if has_marker final
   then logging INFO (py "Book " +s book_id +s py " downloaded") ;;;
        ret (Some (Requests.content final))
   else logging ERROR (py "Failed to download book " +s book_id) ;;;
        logging DEBUG (Requests.text final) ;;;
        ret None)%py_scope w
  = if has_marker final
    then (Ok (Some (Requests.content final)), add_log w [downloaded book_id])
    else (Ok None, add_log w (download_failed book_id final)).
Proof.
  destruct (has_marker final); unfold bind, ret; rewrite !logging_add_log;
    [reflexivity | now rewrite add_log_app].
Qed.

Lemma finish_download_cases
    (self : MLOLClient) (book_id : pystr) (response : Response) (w : world) :
  finish_download self book_id response w
  = if Requests.status_code response =? 302
    then match header (py "Location") (Requests.headers response) with
         | None => (Raise KeyError, w)
         | Some location =>
             match session_request self (redirect_request self location) w with
             | (Raise e, w1) => (Raise e, w1)
             | (Ok final, w1) =>
                 if has_marker final
                 then (Ok (Some (Requests.content final)), add_log w1 [downloaded book_id])
                 else (Ok None, add_log w1 (download_failed book_id final))
             end
         end
    else if has_marker response
         then (Ok (Some (Requests.content response)), add_log w [downloaded book_id])
         else (Ok None, add_log w (download_failed book_id response)).
Proof.
  unfold finish_download. unfold bind at 1.
  destruct (Requests.status_code response =? 302).
  - unfold bind at 1. unfold lift, or_raise.
    destruct (header (py "Location") (Requests.headers response)) as [location|];
      [|reflexivity].
    fold (redirect_request self location).
    destruct (session_request self (redirect_request self location) w)
      as [[final|e] w1]; [|reflexivity].
    apply (examine_download self book_id final w1).
  - unfold ret at 1. apply (examine_download self book_id response w).
Qed.

(** X10. A redirect is followed once and by hand.  A response with status
    302 that has no [Location] header makes the download raise [KeyError]
    without any further request; with the header, one request goes to that
    address, and whatever comes back is examined as the final response, a
    second 302 included; a response with any other status is examined
    itself. *)
Theorem finish_download_redirect
    (self : MLOLClient) (book_id : pystr) (response : Response) (w : world) :
  ((Requests.status_code response =? 302) = true ->
   (header (py "Location") (Requests.headers response) = None ->
    finish_download self book_id response w = (Raise KeyError, w))
   /\ forall location,
        header (py "Location") (Requests.headers response) = Some location ->
        sent_since w (snd (finish_download self book_id response w))
          [redirect_request self location]
        /\ forall final w1,
             session_request self (redirect_request self location) w = (Ok final, w1) ->
             finish_download self book_id response w
             = if has_marker final
               then (Ok (Some (Requests.content final)), add_log w1 [downloaded book_id])
               else (Ok None, add_log w1 (download_failed book_id final)))
  /\ ((Requests.status_code response =? 302) = false ->
      sent_since w (snd (finish_download self book_id response w)) []
      /\ finish_download self book_id response w
         = if has_marker response
           then (Ok (Some (Requests.content response)), add_log w [downloaded book_id])
           else (Ok None, add_log w (download_failed book_id response))).
Proof.
  rewrite finish_download_cases. split; intros ->.
  - split; [intros ->; reflexivity|].
    intros location ->.
    destruct (session_request_sent self (redirect_request self location) w) as [Hs _].
    destruct (session_request self (redirect_request self location) w)
      as [[final|e] w1]; simpl in Hs.
    + split.
      * destruct (has_marker final); exact Hs.
      * intros final' w1' [= <- <-]. reflexivity.
    + split; [exact Hs | discriminate].
  - split; [|reflexivity].
    unfold sent_since. destruct (has_marker response); simpl; now rewrite app_nil_r.
Qed.



End DownloadExtras.

(** A redirect without address. *)
Lemma finish_download_redirect_witness :
  finish_download (U := ascii_only) (E := Fixtures.offline) Fixtures.client (py "150")
    Fixtures.redirect_without_location Fixtures.fresh
  = (Raise KeyError, Fixtures.fresh).
Proof.
  destruct (finish_download_redirect (U := ascii_only) (E := Fixtures.offline)
              Fixtures.client (py "150") Fixtures.redirect_without_location Fixtures.fresh)
    as [H _].
  destruct (H eq_refl) as [Hnone _].
  apply Hnone. reflexivity.
Defined.


(** ** The reservation, request by request *)

Section ReservationExtras.
Context {U : UnicodeData} {E : Environment}.
Import Bs4.

(** The reservation after the lookup of the book. *)
Lemma reserve_book_by_id_cases
    (self : MLOLClient) (book_id email : pystr) (w w1 : world) (book : MLOLBook) :
  authenticated w = true ->
  get_book_by_id self book_id w = (Ok (Some book), w1) ->
  reserve_book_by_id self book_id email w
  = match session_request self (reserve_request self book_id email)
            (after_status_check (status book) w1) with
    | (Raise e, w3) => (Raise e, w3)
    | (Ok response, w3) =>
        (Ok (fst (reservation_outcome book_id response)),
         add_log w3 (snd (reservation_outcome book_id response)))
    end.
Proof.
  intros Hauth Hget. unfold reserve_book_by_id, is_authenticated.
  unfold bind at 1. rewrite Hauth. change (negb true) with false. cbv iota.
  unfold bind at 1. rewrite Hget.
  unfold bind at 1. unfold lift, or_raise, option_map.
  unfold bind at 1.
  assert (Hcheck : (if negb (status_is "taken" (status book))
                    then logging ERROR
                           (py "You can only reserve taken books. Book status: "
                            +s str_of_option (status book))
                    else ret tt) w1
                   = (Ok tt, after_status_check (status book) w1)).
  { unfold after_status_check. destruct (status_is "taken" (status book)); reflexivity. }
  rewrite Hcheck. unfold bind at 1.
  destruct (session_request self _ _) as [[response|e] w3]; [|reflexivity].
  unfold reservation_outcome.
  destruct (select_one [by_id "lblInfo"] _) as [outcome|].
  - cbv zeta. destruct (PyStr.contains (py "con successo") _).
    + unfold ret. simpl. now rewrite add_log_nil.
    + destruct (PyStr.contains (py "prenotazione attiva") _);
        unfold bind, ret; rewrite logging_add_log; reflexivity.
  - unfold bind, ret. rewrite logging_add_log. reflexivity.
Qed.

(** X12. The status of the book does not stop a reservation.  With a
    session and a record for the book, [reserve_book_by_id] sends exactly
    one request after the lookup, the reservation request, whose address
    carries the ID and the e-mail address as they are and which has no
    parameters; when the book is not taken it first logs that only taken
    books can be reserved, and goes on.  Without a session it sends nothing
    and returns no result; when the lookup gives no record it raises
    [AttributeError] and the reservation request is not sent. *)
Theorem reserve_book_by_id_requests
    (self : MLOLClient) (book_id email : pystr) (w : world) :
  (authenticated w = false ->
   reserve_book_by_id self book_id email w = (Ok None, add_log w [authentication_required]))
  /\ (authenticated w = true ->
      (forall w1,
         get_book_by_id self book_id w = (Ok None, w1) ->
         reserve_book_by_id self book_id email w = (Raise AttributeError, w1))
      /\ forall book w1,
           get_book_by_id self book_id w = (Ok (Some book), w1) ->
           let w' := snd (reserve_book_by_id self book_id email w) in
           sent_since w1 w' [reserve_request self book_id email]
           /\ url (reserve_request self book_id email)
              = ENDPOINTS.reserve +s py "?id=" +s book_id +s py "&email=" +s email
           /\ params (reserve_request self book_id email) = []
           /\ (status book <> Some (py "taken") ->
               In (not_taken (status book)) (log w'))).
Proof.
  split.
  - intros Hauth. unfold reserve_book_by_id, is_authenticated.
    unfold bind at 1. rewrite Hauth. reflexivity.
  - intros Hauth. split.
    + intros w1 Hget. unfold reserve_book_by_id, is_authenticated.
      unfold bind at 1. rewrite Hauth. cbv [negb].
      unfold bind at 1. rewrite Hget. reflexivity.
    + intros book w1 Hget w'. subst w'.
      rewrite (reserve_book_by_id_cases self book_id email w w1 book Hauth Hget).
      destruct (session_request_sent self (reserve_request self book_id email)
                  (after_status_check (status book) w1)) as [Hs Hl].
      assert (Hsent : sent (after_status_check (status book) w1) = sent w1).
      { unfold after_status_check. destruct (status_is "taken" (status book)); reflexivity. }
      assert (Hlog : status book <> Some (py "taken") ->
                     In (not_taken (status book))
                        (log (after_status_check (status book) w1))).
      { intros Hst. apply status_is_false in Hst.
        unfold after_status_check. rewrite Hst. simpl.
        apply in_or_app. right. left. reflexivity. }
      unfold sent_since in *. rewrite Hsent in Hs.
      destruct (session_request self _ _) as [[response|e] w3]; simpl in *.
      * split; [exact Hs|]. split; [reflexivity|]. split; [reflexivity|].
        intros Hst. apply in_or_app. left. rewrite Hl. now apply Hlog.
      * split; [exact Hs|]. split; [reflexivity|]. split; [reflexivity|].
        intros Hst. rewrite Hl. now apply Hlog.
Qed.

End ReservationExtras.

(** An available book is reserved all the same: the request goes out after
    the error has been logged. *)
Lemma reserve_book_by_id_requests_witness :
  let env := Fixtures.member_portal (Fixtures.detail_page "Scarica")
               Fixtures.resources_without_loan "Errore"
               (Fixtures.reservation_result "Impossibile prenotare") in
  let w := Fixtures.start env Fixtures.logged_in tt in
  let w' := snd (reserve_book_by_id (U := ascii_only) (E := env) Fixtures.client
                   (py "150") (py "lettore@example.org") w) in
  authenticated w = true
  /\ In (not_taken (Some (py "available"))) (log w')
  /\ In (reserve_request Fixtures.client (py "150") (py "lettore@example.org")) (sent w').
Proof.
  intros env w w'. split; [reflexivity|].
  destruct (reserve_book_by_id_requests (U := ascii_only) (E := env) Fixtures.client
              (py "150") (py "lettore@example.org") w) as [_ H].
  destruct (H eq_refl) as [_ Hbook].
  destruct (get_book_by_id (U := ascii_only) (E := env) Fixtures.client (py "150") w)
    as [[[book|]|e] w1] eqn:Hget;
    try (vm_compute in Hget; discriminate Hget).
  destruct (Hbook book w1 eq_refl) as (Hsent & _ & _ & Hlog).
  assert (Hst : status book = Some (py "available")).
  { vm_compute in Hget. injection Hget as <- _. reflexivity. }
  split.
  - rewrite <- Hst. apply Hlog. rewrite Hst. discriminate.
  - unfold sent_since in Hsent. fold w' in Hsent. rewrite Hsent.
    apply in_or_app. right. left. reflexivity.
Defined.

(** ** The pages of a search *)

Section SearchExtras.
Context {U : UnicodeData} {E : Environment}.
Import Bs4.

(** The listing parser only adds to the log. *)
Lemma parse_result_items_reads_only (page : element) (items : list element) :
  forall i authors books,
  exists r records,
    forall w, parse_result_items page i items authors books w = (r, add_log w records).
Proof.
  induction items as [|book rest IH]; intros i authors books; simpl.
  - exists (Ok books), []. intros w. now rewrite add_log_nil.
  - destruct (item_title_id book) as [[t d]|e].
    + destruct (match item_authors page book authors with
                | Ok a => a
                | Raise _ => Some None
                end) as [a|].
      * apply IH.
      * exists (Raise UnboundLocalError), []. intros w. unfold raise.
        now rewrite add_log_nil.
    + destruct (IH (S i) authors books) as (r & records & Hrun).
      exists r, ((ERROR, skip_message i) :: records). intros w.
      unfold bind. rewrite logging_add_log, Hrun, add_log_app. reflexivity.
Qed.

Lemma parse_search_page_reads_only (page : element) :
  exists r records, forall w, _parse_search_page page w = (r, add_log w records).
Proof. apply parse_result_items_reads_only. Qed.

Lemma search_with_cases
    (self : MLOLClient) (params : dict) (deep : bool) (schedules : nat -> list nat)
    (w : world) :
  search_with self params deep schedules w
  = match session_request self (GET ENDPOINTS.search params) w with
    | (Raise e, w1) => (Raise e, w1)
    | (Ok response, w1) =>
        match page_count (BeautifulSoup_root (BeautifulSoup (Requests.text response))) with
        | Ok pages =>
            (Ok (_search_books_paginated self params (Z.to_nat pages) deep response
                   schedules), w1)
        | Raise e => (Raise e, w1)
        end
    end.
Proof.
  unfold search_with. unfold bind at 1.
  destruct (session_request self _ w) as [[response|e] w1]; [|reflexivity].
  unfold bind, lift, ret. destruct (page_count _); reflexivity.
Qed.

(** X13. A search makes one request and reads the number of pages from the
    answer: one page when the answer has no pager; the number that the
    attribute [data-pages] of the pager holds otherwise, none when that
    number is zero or negative.  The generator it returns has that many
    batches, and nothing has been parsed or fetched for them yet.  A pager
    without the attribute makes the search raise [KeyError], one whose
    attribute is not an integer [ValueError]. *)
Theorem search_page_count
    (self : MLOLClient) (params : dict) (deep : bool) (schedules : nat -> list nat)
    (w w1 : world) (response : Response) :
  session_request self (GET ENDPOINTS.search params) w = (Ok response, w1) ->
  let soup := BeautifulSoup_root (BeautifulSoup (Requests.text response)) in
  (select_one [by_id "pager"] soup = None ->
   exists batches,
     search_with self params deep schedules w = (Ok batches, w1)
     /\ List.length batches = 1%nat)
  /\ (forall pager,
        select_one [by_id "pager"] soup = Some pager ->
        (attr (py "data-pages") pager = None ->
         search_with self params deep schedules w = (Raise KeyError, w1))
        /\ (forall v,
              attr (py "data-pages") pager = Some v ->
              (PyStr.int v = None ->
               search_with self params deep schedules w = (Raise ValueError, w1))
              /\ (forall n,
                    PyStr.int v = Some n ->
                    exists batches,
                      search_with self params deep schedules w = (Ok batches, w1)
                      /\ List.length batches = Z.to_nat n))).
Proof.
  intros Hreq soup. rewrite search_with_cases, Hreq. fold soup. unfold page_count.
  split.
  - intros ->. eexists. split; [reflexivity|].
    unfold _search_books_paginated. now rewrite length_map, length_seq.
  - intros pager ->. split.
    + intros ->. reflexivity.
    + intros v ->. simpl. split.
      * intros ->. reflexivity.
      * intros n ->. eexists. split; [reflexivity|].
        unfold _search_books_paginated. now rewrite length_map, length_seq.
Qed.

(** A shallow batch sends what its page response sends. *)
Lemma shallow_batch_sent
    (self : MLOLClient) (params : dict) (pages : nat) (first_response : Response)
    (schedule : list nat) (i : nat) (w : world) :
  sent (snd (search_page self params pages false first_response schedule i w))
  = sent (snd (page_response self params pages first_response i w)).
Proof.
  unfold search_page. unfold bind at 1.
  destruct (page_response self params pages first_response i w) as [[response|e] w1];
    [|reflexivity].
  destruct (parse_search_page_reads_only
              (BeautifulSoup_root (BeautifulSoup (Requests.text response))))
    as (r & records & Hparse).
  unfold bind. rewrite Hparse. destruct r; reflexivity.
Qed.

(** What the batch of a shallow search sends. *)
Lemma shallow_batch_sends
    (self : MLOLClient) (params : dict) (pages : nat) (first_response : Response)
    (schedule : list nat) (i : nat) (w : world) :
  let w' := snd (search_page self params pages false first_response schedule i w) in
  (pages = 1%nat ->
   sent_since w w' []
   /\ fst (search_page self params pages false first_response schedule i w)
      = match fst (_parse_search_page
                     (BeautifulSoup_root (BeautifulSoup (Requests.text first_response))) w)
        with
        | Ok books => Ok (map Some books)
        | Raise e => Raise e
        end)
  /\ (pages <> 1%nat -> sent_since w w' [page_request params i]).
Proof.
  intros w'. subst w'. unfold sent_since. rewrite shallow_batch_sent. split.
  - intros ->. split.
    + unfold page_response. simpl. now rewrite app_nil_r.
    + unfold search_page, page_response. simpl Nat.eqb. cbv iota.
      unfold bind at 1. unfold ret at 1. unfold bind.
      destruct (_parse_search_page _ w) as [[books|e] w1]; reflexivity.
  - intros Hpages. unfold page_response.
    destruct (Nat.eqb pages 1) eqn:Heq; [apply Nat.eqb_eq in Heq; contradiction|].
    apply (session_request_sent self (page_request params i) w).
Qed.

(** X14. The first response is used for the listing only when the search
    has a single page: the batch of a one-page shallow search sends nothing.
    With any other number of pages, the batch of page [i] sends exactly one
    request, to the search endpoint with the parameters of the search and
    [page] set to [i]; so the first page is requested a second time. *)
Theorem shallow_batch_requests
    (self : MLOLClient) (params : dict) (pages : nat) (first_response : Response)
    (schedule : list nat) (i : nat) (w : world) :
  let w' := snd (search_page self params pages false first_response schedule i w) in
  (pages = 1%nat ->
   sent_since w w' []
   /\ fst (search_page self params pages false first_response schedule i w)
      = match fst (_parse_search_page
                     (BeautifulSoup_root (BeautifulSoup (Requests.text first_response))) w)
        with
        | Ok books => Ok (map Some books)
        | Raise e => Raise e
        end)
  /\ (pages <> 1%nat -> sent_since w w' [page_request params i]).
Proof. exact (shallow_batch_sends self params pages first_response schedule i w). Qed.

(** Walking the pages [pages] of a shallow search that has more than one
    page. *)
Lemma take_batches_sent
    (self : MLOLClient) (params : dict) (pages : nat) (first_response : Response)
    (schedules : nat -> list nat) (indices : list nat) :
  pages <> 1%nat ->
  forall w w' batches,
    take_batches (List.length indices)
      (map (fun i => search_page self params pages false first_response (schedules i) i)
           indices) w
    = (Ok batches, w') ->
    sent_since w w' (map (page_request params) indices)
    /\ List.length batches = List.length indices.
Proof.
  intros Hpages. induction indices as [|i rest IH]; intros w w' batches; simpl.
  - intros [= <- <-]. unfold sent_since. now rewrite app_nil_r.
  - unfold bind at 1.
    pose proof (shallow_batch_sends self params pages first_response (schedules i) i w)
      as [_ Hone].
    specialize (Hone Hpages).
    destruct (search_page self params pages false first_response (schedules i) i w)
      as [[b|e] w1]; [|discriminate]. simpl in Hone.
    unfold bind at 1.
    destruct (take_batches _ _ w1) as [[bs|e] w2] eqn:Hrest; [|discriminate].
    intros [= <- <-]. destruct (IH w1 w2 bs Hrest) as [Hs Hl].
    unfold sent_since in *. rewrite Hs, Hone, <- app_assoc. simpl.
    split; [reflexivity | now rewrite Hl].
Qed.

(** X15. Taking all the batches of a shallow search of [n] pages, [n] other
    than one, sends the [n] page requests in the order of the pages, one per
    batch, and nothing else. *)
Theorem shallow_search_walk
    (self : MLOLClient) (params : dict) (pages : nat) (first_response : Response)
    (schedules : nat -> list nat) (w w' : world)
    (batches : list (list (option MLOLBook))) :
  pages <> 1%nat ->
  take_batches pages
    (_search_books_paginated self params pages false first_response schedules) w
  = (Ok batches, w') ->
  sent_since w w' (map (page_request params) (seq 1 pages))
  /\ List.length batches = pages.
Proof.
  intros Hpages Hrun.
  destruct (take_batches_sent self params pages first_response schedules (seq 1 pages)
              Hpages w w' batches) as [Hs Hl].
  - rewrite length_seq. exact Hrun.
  - split; [exact Hs|]. now rewrite Hl, length_seq.
Qed.

End SearchExtras.

(** A search whose answer announces three pages. *)
Lemma search_page_count_witness :
  let env := Fixtures.catalogue_portal (Fixtures.listing_with_pager "3")
               (Fixtures.detail_page "Scarica") in
  let w := Fixtures.start env [] tt in
  exists batches w1,
    search_books (U := ascii_only) (E := env) Fixtures.client (py " rosa ") false
      Fixtures.in_order w = (Ok batches, w1)
    /\ List.length batches = 3%nat
    /\ sent w1 = [GET ENDPOINTS.search (search_params (U := ascii_only) (py " rosa "))].
Proof.
  intros env w.
  destruct (session_request (E := env) Fixtures.client
              (GET ENDPOINTS.search (search_params (U := ascii_only) (py " rosa "))) w)
    as [[response|e] w1] eqn:Hreq; [|vm_compute in Hreq; discriminate Hreq].
  destruct (search_page_count (U := ascii_only) (E := env) Fixtures.client
              (search_params (U := ascii_only) (py " rosa ")) false Fixtures.in_order
              w w1 response Hreq) as [_ Hpager].
  assert (Hresp : response = Fixtures.page 200 "listing" /\ sent w1
                  = [GET ENDPOINTS.search (search_params (U := ascii_only) (py " rosa "))]).
  { vm_compute in Hreq. injection Hreq as <- <-. split; reflexivity. }
  destruct Hresp as [-> Hsent].
  destruct (Hpager (Bs4.Element (Bs4.soup (Fixtures.document
                       (Fixtures.listing_with_pager "3"))) [0%nat]))
    as [_ Hv]; [vm_compute; reflexivity|].
  destruct (Hv (py "3")) as [_ Hn]; [vm_compute; reflexivity|].
  destruct (Hn 3%Z) as (batches & Hrun & Hlen); [vm_compute; reflexivity|].
  exists batches, w1. split; [exact Hrun|]. split; [exact Hlen | exact Hsent].
Defined.

(** The first batch of a two-page search asks for page 1 again. *)
Lemma shallow_batch_requests_witness :
  let env := Fixtures.catalogue_portal (Fixtures.listing_with_pager "2")
               (Fixtures.detail_page "Scarica") in
  let w := Fixtures.start env [] tt in
  sent (snd (search_page (U := ascii_only) (E := env) Fixtures.client latest_params 2
               false (Fixtures.page 200 "listing") [] 1 w))
  = [page_request latest_params 1].
Proof.
  intros env w.
  destruct (shallow_batch_requests (U := ascii_only) (E := env) Fixtures.client
              latest_params 2 (Fixtures.page 200 "listing") [] 1 w) as [_ H].
  apply H. discriminate.
Defined.

(** The two pages of a two-page search, walked. *)
Lemma shallow_search_walk_witness :
  let env := Fixtures.catalogue_portal (Fixtures.listing_with_pager "2")
               (Fixtures.detail_page "Scarica") in
  let w := Fixtures.start env [] tt in
  exists batches w',
    take_batches 2
      (_search_books_paginated (U := ascii_only) (E := env) Fixtures.client latest_params 2
         false (Fixtures.page 200 "listing") Fixtures.in_order) w
    = (Ok batches, w')
    /\ sent w' = [page_request latest_params 1; page_request latest_params 2].
Proof.
  intros env w.
  destruct (take_batches 2
              (_search_books_paginated (U := ascii_only) (E := env) Fixtures.client
                 latest_params 2 false (Fixtures.page 200 "listing") Fixtures.in_order) w)
    as [[batches|e] w'] eqn:Hrun; [|vm_compute in Hrun; discriminate Hrun].
  exists batches, w'. split; [reflexivity|].
  destruct (shallow_search_walk (U := ascii_only) (E := env) Fixtures.client latest_params 2
              (Fixtures.page 200 "listing") Fixtures.in_order w w' batches) as [Hs _].
  - discriminate.
  - exact Hrun.
  - exact Hs.
Defined.

(** ** The construction of a client and the login *)

Section LoginExtras.
Context {U : UnicodeData} {E : Environment}.
Import Bs4.

Lemma eqb_refl (a : pystr) : PyStr.eqb a a = true.
Proof. now apply eqb_eq. Qed.

(** Setting a key and reading it back; the other keys keep their values. *)
Lemma assoc_dict_set_same (k v : pystr) (d : dict) :
  assoc k (dict_set k v d) = Some v.
Proof.
  induction d as [|[k' v'] d IH]; simpl.
  - now rewrite eqb_refl.
  - destruct (PyStr.eqb k' k) eqn:Hk; simpl; rewrite Hk; [reflexivity | exact IH].
Qed.

Lemma assoc_dict_set_other (k k' v : pystr) (d : dict) :
  PyStr.eqb k k' = false -> assoc k' (dict_set k v d) = assoc k' d.
Proof.
  intros Hk. induction d as [|[k0 v0] d IH]; simpl.
  - now rewrite Hk.
  - destruct (PyStr.eqb k0 k) eqn:H0; simpl.
    + apply eqb_eq in H0. subst k0. now rewrite Hk.
    + destruct (PyStr.eqb k0 k'); [reflexivity | exact IH].
Qed.



(** X17. Without the three credentials (one of them missing or empty),
    [__init__] makes no request: it gives the session a fresh, empty cookie
    jar, logs a warning and returns a client for the address
    [https://medialibrary.it].  On that client, as long as the jar has no
    cookie [.ASPXAUTH], a download and a reservation send nothing and return
    no result. *)
Theorem init_without_credentials (domain username password : option pystr) (w : world) :
  given username && given password && given domain = false ->
  __init__ domain username password w
  = (Ok anonymous_client, add_log (with_cookies w []) [no_credentials])
  /\ authenticated (add_log (with_cookies w []) [no_credentials]) = false
  /\ forall w' book_id email,
       authenticated w' = false ->
       download_book_by_id anonymous_client book_id w'
       = (Ok None, add_log w' [authentication_required])
       /\ reserve_book_by_id anonymous_client book_id email w'
          = (Ok None, add_log w' [authentication_required]).
Proof.
  intros Hgiven. split; [|split].
  - unfold __init__. unfold bind at 1. unfold set_cookies.
    destruct domain as [d|], username as [u|], password as [p|];
      try reflexivity.
    rewrite Hgiven. reflexivity.
  - reflexivity.
  - intros w' book_id email Hauth. split.
    + unfold download_book_by_id, is_authenticated. unfold bind at 1.
      rewrite Hauth. reflexivity.
    + unfold reserve_book_by_id, is_authenticated. unfold bind at 1.
      rewrite Hauth. reflexivity.
Qed.

(** X18. A login that the portal does not honour is not noticed by
    [__init__].  With the three credentials given, whatever cookies the
    login returns become the jar of the session and the client is returned;
    when there is no cookie [.ASPXAUTH] among them, it is the first download
    that reports the missing authentication, with no result. *)
Theorem init_with_credentials
    (domain username password : pystr) (w w1 : world) (jar : dict) :
  given (Some username) && given (Some password) && given (Some domain) = true ->
  _get_auth_cookies (client_of domain) username password (with_cookies w []) = (Ok jar, w1) ->
  __init__ (Some domain) (Some username) (Some password) w
  = (Ok (client_of domain), with_cookies w1 jar)
  /\ (assoc (py ".ASPXAUTH") jar = None ->
      forall book_id,
        download_book_by_id (client_of domain) book_id (with_cookies w1 jar)
        = (Ok None, add_log (with_cookies w1 jar) [authentication_required])).
Proof.
  intros Hgiven Hlogin. split.
  - unfold __init__. unfold bind at 1. unfold set_cookies at 1.
    rewrite Hgiven. cbv beta iota.
    fold (client_of domain). fold (with_cookies w []).
    unfold bind at 1. rewrite Hlogin.
    unfold bind, set_cookies, ret. reflexivity.
  - intros Hnone book_id.
    unfold download_book_by_id, is_authenticated. unfold bind at 1.
    unfold authenticated, with_cookies. cbn [cookies]. rewrite Hnone. reflexivity.
Qed.

End LoginExtras.


Lemma init_without_credentials_witness :
  __init__ (U := ascii_only) (E := Fixtures.offline)
    None (Some (py "user")) (Some (py "secret")) Fixtures.fresh
  = (Ok (anonymous_client (E := Fixtures.offline)), add_log (with_cookies Fixtures.fresh []) [no_credentials])
  /\ download_book_by_id (U := ascii_only) (E := Fixtures.offline)
       (anonymous_client (E := Fixtures.offline)) (py "150") Fixtures.fresh
     = (Ok None, add_log Fixtures.fresh [authentication_required]).
Proof.
  destruct (init_without_credentials (U := ascii_only) (E := Fixtures.offline)
              None (Some (py "user")) (Some (py "secret")) Fixtures.fresh)
    as (Hinit & _ & Hlater); [reflexivity|].
  split; [exact Hinit|].
  apply (Hlater Fixtures.fresh (py "150") (py "user@example.org")). reflexivity.
Defined.

Lemma init_with_credentials_witness :
  let env := Fixtures.login_submit_portal Fixtures.login_with_form in
  let w := Fixtures.start env [] tt in
  exists w1,
    __init__ (U := ascii_only) (E := env)
      (Some (py "http://biblio.medialibrary.it/")) (Some (py "user")) (Some (py "secret")) w
    = (Ok Fixtures.client_with_headers, w1)
    /\ download_book_by_id (U := ascii_only) (E := env)
         Fixtures.client_with_headers (py "150") w1
       = (Ok None, add_log w1 [authentication_required]).
Proof.
  intros env w.
  set (domain := py "http://biblio.medialibrary.it/").
  set (w1 := snd (_get_auth_cookies (U := ascii_only) (E := env)
                    (client_of (E := env) domain) (py "user") (py "secret") (with_cookies w []))).
  exists (with_cookies w1 []).
  destruct (init_with_credentials (U := ascii_only) (E := env)
              domain (py "user") (py "secret") w w1 [])
    as (Hinit & Hlater).
  - reflexivity.
  - vm_compute. reflexivity.
  - split; [exact Hinit|]. apply Hlater. reflexivity.
Defined.

(** ** The address of the library *)

Section AddressExtras.
Context {U : UnicodeData} {E : Environment}.










Lemma dropwhile_shape (f : codepoint -> bool) (s : pystr) :
  PyStr.dropwhile f s = []
  \/ exists c t, PyStr.dropwhile f s = c :: t /\ f c = false.
Proof.
  induction s as [|c s IH]; simpl; [now left|].
  destruct (f c) eqn:Hc; [exact IH|]. right. now exists c, s.
Qed.







End AddressExtras.


(** ** The address of a book *)

Section UrlExtras.
Context {U : UnicodeData} {E : Environment}.

Lemma at_end_longer (c c' : codepoint) (s : pystr) : at_end (c :: c' :: s) = false.
Proof.
  destruct c as [|p]; [reflexivity|].
  repeat (destruct p as [p|p|]; try reflexivity).
Qed.

Lemma at_end_other (c : codepoint) : c <> 10 -> at_end [c] = false.
Proof.
  intros Hc. destruct c as [|p]; [reflexivity|].
  repeat (destruct p as [p|p|]; try reflexivity). now elim Hc.
Qed.

Lemma digits_to_end_all (s : pystr) :
  digit_string s -> PyStr.digits_to_end s = Some s.
Proof.
  intros [Hne Hall]. induction Hall as [|c s Hc Hall IH]; [now elim Hne|].
  rewrite digits_to_end_cons, Hc.
  destruct s as [|c' s']; [reflexivity|].
  assert (Hend : at_end (c' :: s') = false).
  { destruct s' as [|c2 s2]; [|apply at_end_longer].
    apply at_end_other. intros ->.
    inversion Hall as [|? ? Hc' _]; subst. discriminate Hc'. }
  rewrite Hend, IH by discriminate. reflexivity.
Qed.

(** No run of digits reaches the end across another character. *)
Lemma digits_to_end_broken (t r : pystr) (x : codepoint) :
  PyStr.isdecimal x = false -> r <> [] ->
  PyStr.digits_to_end (t ++ x :: r) = None.
Proof.
  intros Hx Hr. induction t as [|c t IH].
  - rewrite app_nil_l, digits_to_end_cons, Hx. reflexivity.
  - change ((c :: t) ++ x :: r) with (c :: (t ++ x :: r)).
    rewrite digits_to_end_cons, IH.
    destruct (PyStr.isdecimal c); [|reflexivity].
    assert (Hend : at_end (t ++ x :: r) = false).
    { destruct t as [|c1 t1].
      - destruct r; [now elim Hr | apply at_end_longer].
      - change ((c1 :: t1) ++ x :: r) with (c1 :: (t1 ++ x :: r)).
        destruct (t1 ++ x :: r) eqn:Ht; [now destruct t1 | apply at_end_longer]. }
    rewrite Hend. reflexivity.
Qed.

Lemma search_digits_after_skip (rkey before t r : pystr) (x : codepoint) :
  PyStr.isdecimal x = false -> r <> [] ->
  PyStr.search_digits_after rkey before (t ++ x :: r)
  = PyStr.search_digits_after rkey (x :: rev t ++ before) r.
Proof.
  intros Hx Hr. revert before. induction t as [|c t IH]; intros before.
  - pose proof (digits_to_end_broken [] r x Hx Hr) as Hnone. rewrite app_nil_l in *.
    cbn [PyStr.search_digits_after]. cbv zeta. rewrite Hnone.
    destruct (PyStr.startswith before rkey); reflexivity.
  - pose proof (digits_to_end_broken (c :: t) r x Hx Hr) as Hnone.
    change ((c :: t) ++ x :: r) with (c :: (t ++ x :: r)) in *.
    cbn [PyStr.search_digits_after]. cbv zeta. rewrite Hnone.
    rewrite IH. simpl rev. rewrite <- app_assoc.
    destruct (PyStr.startswith before rkey); reflexivity.
Qed.

Lemma search_digits_after_here (rkey before s : pystr) :
  PyStr.startswith before rkey = true -> digit_string s ->
  PyStr.search_digits_after rkey before s = Some s.
Proof.
  intros Hkey Hs. pose proof (digits_to_end_all s Hs) as Hd.
  destruct s as [|c s]; [now destruct Hs|].
  cbn [PyStr.search_digits_after]. cbv zeta. rewrite Hkey, Hd. reflexivity.
Qed.

Lemma book_url_id (self : MLOLClient) (book_id : pystr) :
  digit_string book_id ->
  PyStr.re_search_digits_after (py "id=") (get_book_url_by_id self book_id) = Some book_id.
Proof.
  intros Hid. unfold PyStr.re_search_digits_after, get_book_url_by_id.
  change (base_url self +s ENDPOINTS.get_book +s py "?id=" +s book_id)
    with (base_url self ++ (py "/media/scheda.aspx?id" ++ 61 :: book_id)).
  rewrite app_assoc.
  rewrite search_digits_after_skip; [|reflexivity|now destruct Hid].
  apply search_digits_after_here; [|exact Hid].
  rewrite rev_app_distr, app_nil_r. reflexivity.
Qed.

(** X20. The address of a book leads back to the book.  The ID that the
    listing parser reads off a link (the digits after [id=] at its end) is,
    for the address that [get_book_url_by_id] builds from a string of
    digits, that string, whatever the base address of the client; and the
    address that [get_book_url] gives for any record of the listing parser
    leads back to the ID of the record. *)
Theorem book_url_round_trip (self : MLOLClient) :
  (forall book_id,
     digit_string book_id ->
     PyStr.re_search_digits_after (py "id=") (get_book_url_by_id self book_id)
     = Some book_id)
  /\ (forall page w w' records,
        _parse_search_page page w = (Ok records, w') ->
        Forall (fun book =>
                  PyStr.re_search_digits_after (py "id=") (get_book_url self book)
                  = Some (id book)) records).
Proof.
  split; [apply book_url_id|].
  intros page w w' records Hrun.
  destruct (listing_records page w w' records Hrun) as (_ & Hall & _).
  eapply Forall_impl; [|exact Hall].
  intros book Hid. unfold get_book_url. now apply book_url_id.
Qed.

End UrlExtras.

Lemma book_url_round_trip_witness :
  PyStr.re_search_digits_after (U := ascii_only) (py "id=")
    (get_book_url_by_id Fixtures.client (py "150037925"))
  = Some (py "150037925").
Proof.
  destruct (book_url_round_trip (U := ascii_only) (E := Fixtures.offline) Fixtures.client)
    as [H _].
  apply H. split; [discriminate|]. repeat constructor.
Defined.

(** ** The second download of an owned book *)

Section RedownloadExtras.
Context {U : UnicodeData} {E : Environment}.
Import Bs4.

Lemma find_loan_id_digits (soup : element) (book_id loan_id : pystr) :
  find_loan_id soup book_id = Ok loan_id -> digit_string loan_id.
Proof.
  unfold find_loan_id, rbind, or_raise.
  destruct (find_attr_search (py "a") (py "href") book_id soup) as [a|]; [|discriminate].
  destruct (parent a) as [p|]; [|discriminate].
  destruct (parent p) as [loan_entry|]; [|discriminate].
  destruct (hd_error _) as [button|]; [|discriminate].
  destruct (attr (py "href") button) as [href|]; [|discriminate].
  destruct (PyStr.re_search_digits_after (py "idp=") _) as [m|] eqn:Hm; [|discriminate].
  intros [= <-]. now apply (search_digits_after_digits _ _ _ _ Hm).
Qed.

(** X21. The second download of an owned book takes two requests.  When
    the request for the user's resources fails, its exception is raised and
    nothing is logged.  When it is answered and the loan of the book is
    found, the loan ID is a string of digits that is not empty, and the
    result of [_redownload_owned_book] is that of one request to the
    redownload endpoint which carries the loan ID as the parameter [idp]
    and in the [Referer], has the base address without [https://] as
    [Host], whatever the session's headers say, and does not follow
    redirects; the log is left as it was. *)
Theorem redownload_owned_book_requests (self : MLOLClient) (book_id : pystr) (w : world) :
  (forall e w1,
     session_request self (GET ENDPOINTS.resources []) w = (Raise e, w1) ->
     _redownload_owned_book self book_id w = (Raise e, w1) /\ log w1 = log w)
  /\ (forall response w1 loan_id,
        session_request self (GET ENDPOINTS.resources []) w = (Ok response, w1) ->
        find_loan_id (BeautifulSoup_root (BeautifulSoup (Requests.text response))) book_id
        = Ok loan_id ->
        digit_string loan_id
        /\ _redownload_owned_book self book_id w
           = session_request self (redownload_request self loan_id) w1
        /\ sent_since w (snd (_redownload_owned_book self book_id w))
             [GET ENDPOINTS.resources []; redownload_request self loan_id]
        /\ log (snd (_redownload_owned_book self book_id w)) = log w
        /\ url (redownload_request self loan_id) = ENDPOINTS.redownload
        /\ params (redownload_request self loan_id) = [(py "idp", loan_id)]
        /\ allow_redirects (redownload_request self loan_id) = false
        /\ exists h,
             headers (redownload_request self loan_id) = Some h
             /\ assoc (py "Host") h = Some (PyStr.remove_all (py "https://") (base_url self))
             /\ assoc (py "Referer") h
                = Some (base_url self +s py "/help/helpdeskdl.aspx?idp=" +s loan_id)).
Proof.
  split.
  - intros e w1 Hreq. split.
    + unfold _redownload_owned_book. unfold bind at 1. rewrite Hreq. reflexivity.
    + pose proof (session_request_sent self (GET ENDPOINTS.resources []) w) as [_ Hl].
      rewrite Hreq in Hl. exact Hl.
  - intros response w1 loan_id Hreq Hloan.
    assert (Hrun : _redownload_owned_book self book_id w
                   = session_request self (redownload_request self loan_id) w1).
    { unfold _redownload_owned_book. unfold bind at 1. rewrite Hreq.
      unfold bind at 1. unfold try_except, lift. rewrite Hloan. reflexivity. }
    pose proof (session_request_sent self (GET ENDPOINTS.resources []) w) as [Hs1 Hl1].
    rewrite Hreq in Hs1, Hl1. simpl in Hs1, Hl1.
    pose proof (session_request_sent self (redownload_request self loan_id) w1) as [Hs2 Hl2].
    split; [exact (find_loan_id_digits _ _ _ Hloan)|].
    split; [exact Hrun|].
    split; [|split; [|split; [|split; [|split]]]]; try reflexivity.
    + rewrite Hrun. unfold sent_since in *. rewrite Hs2, Hs1, <- app_assoc. reflexivity.
    + rewrite Hrun, Hl2. exact Hl1.
    + eexists. split; [reflexivity|]. unfold dict_merge. cbn [fold_left fst snd]. split.
      * rewrite assoc_dict_set_other by reflexivity. apply assoc_dict_set_same.
      * apply assoc_dict_set_same.
Qed.

End RedownloadExtras.

Lemma redownload_owned_book_requests_witness :
  let env := Fixtures.member_portal (Fixtures.detail_page "Ripeti download")
               Fixtures.resources_with_loan "<fulfillmentToken>" [] in
  let w := Fixtures.start env Fixtures.logged_in tt in
  sent_since w
    (snd (_redownload_owned_book (U := ascii_only) (E := env) Fixtures.client (py "150") w))
    [GET ENDPOINTS.resources []; redownload_request Fixtures.client (py "777")].
Proof.
  intros env w.
  destruct (redownload_owned_book_requests (U := ascii_only) (E := env)
              Fixtures.client (py "150") w) as [_ H].
  destruct (session_request (E := env) Fixtures.client (GET ENDPOINTS.resources []) w)
    as [[response|e] w1] eqn:Hreq;
    [|vm_compute in Hreq; discriminate Hreq].
  destruct (H response w1 (py "777") eq_refl) as (_ & _ & Hsent & _).
  - vm_compute in Hreq. injection Hreq as <- _. vm_compute. reflexivity.
  - exact Hsent.
Defined.

(** ** The requests of a deep batch *)

Section PoolRequests.
Context {U : UnicodeData} {E : Environment}.
Variables A B : Type.
Variable fn : A -> M B.

(** Each task sends one request, which depends on the task only. *)
Variable req : A -> request.
Hypothesis fn_sends : forall x w, sent (snd (fn x w)) = sent w ++ [req x].

Lemma pending_set_future (xs : list A) (fs : futures B) (i : nat) (x : A) (r : result B) :
  nth_error xs i = Some x -> nth_error fs i = Some None ->
  Permutation (pending xs fs) (x :: pending xs (set_future i r fs)).
Proof.
  revert xs fs. induction i as [|i IH]; intros [|y xs] [|f fs] Hx Hf;
    simpl in *; try discriminate.
  - injection Hx as ->. injection Hf as ->. reflexivity.
  - destruct f as [r'|].
    + now apply IH.
    + rewrite perm_swap. apply perm_skip. now apply IH.
Qed.

Lemma pending_repeat (xs : list A) :
  pending xs (repeat (@None (result B)) (List.length xs)) = xs.
Proof. induction xs as [|x xs IH]; simpl; [reflexivity | now rewrite IH]. Qed.

Lemma pending_done (xs : list A) (fs : futures B) :
  List.length fs = List.length xs ->
  (forall i, (i < List.length xs)%nat -> done fs i) ->
  pending xs fs = [].
Proof.
  revert fs. induction xs as [|x xs IH]; intros [|f fs] Hlen Hdone;
    simpl in *; try reflexivity; try discriminate.
  destruct f as [r|].
  - apply IH; [lia|]. intros i Hi. destruct (Hdone (S i)) as [r' Hr]; [lia|].
    now exists r'.
  - destruct (Hdone 0%nat) as [r' Hr]; [lia|]. discriminate Hr.
Qed.

(** The pool runs every task that the order names and none twice. *)
Lemma run_tasks_done (xs : list A) (order : list nat) :
  forall (fs : futures B) (w : world),
    List.length fs = List.length xs ->
    List.length (fst (run_tasks fn xs order fs w)) = List.length xs
    /\ forall i, (i < List.length xs)%nat -> In i order \/ done fs i ->
                 done (fst (run_tasks fn xs order fs w)) i.
Proof.
  induction order as [|a order IH]; intros fs w Hlen; simpl.
  - split; [exact Hlen|]. intros i _ [[] | Hd]. exact Hd.
  - destruct (nth_error xs a) as [x|] eqn:Hx.
    + destruct (nth_error fs a) as [[r|]|] eqn:Hf.
      * destruct (IH fs w Hlen) as [H1 H2]. split; [exact H1|].
        intros i Hi [[<- | Hin] | Hd]; apply H2; auto.
        right. now exists r.
      * destruct (fn x w) as [r w'] eqn:Hrun.
        assert (Hlen' : List.length (set_future a r fs) = List.length xs)
          by now rewrite set_future_length.
        destruct (IH (set_future a r fs) w' Hlen') as [H1 H2]. split; [exact H1|].
        intros i Hi Hcase. apply H2; [exact Hi|].
        destruct Hcase as [[<- | Hin] | [r' Hd]]; auto.
        -- right. exists r. apply nth_error_set_future_same.
           apply nth_error_Some. congruence.
        -- right. exists r'. rewrite nth_error_set_future_other; [exact Hd|].
           intros <-. congruence.
      * exfalso. apply nth_error_None in Hf. rewrite Hlen in Hf.
        assert (H : nth_error xs a <> None) by congruence.
        apply nth_error_Some in H. lia.
    + destruct (IH fs w Hlen) as [H1 H2]. split; [exact H1|].
      intros i Hi [[<- | Hin] | Hd]; try (apply H2; auto).
      apply nth_error_None in Hx. lia.
Qed.

(** What the pool sends is the requests of the tasks that it has run,
    which were pending before and are not after. *)
Lemma run_tasks_sent (xs : list A) (order : list nat) :
  forall (fs : futures B) (w : world),
  exists ran,
    sent (snd (run_tasks fn xs order fs w)) = sent w ++ map req ran
    /\ Permutation (pending xs fs)
         (ran ++ pending xs (fst (run_tasks fn xs order fs w))).
Proof.
  induction order as [|a order IH]; intros fs w; simpl.
  - exists []. simpl. now rewrite app_nil_r.
  - destruct (nth_error xs a) as [x|] eqn:Hx; [|apply IH].
    destruct (nth_error fs a) as [[r|]|] eqn:Hf; try apply IH.
    pose proof (fn_sends x w) as Hsent.
    destruct (fn x w) as [r w'] eqn:Hrun. simpl in Hsent.
    destruct (IH (set_future a r fs) w') as (ran & Hs & Hp).
    exists (x :: ran). split.
    + rewrite Hs, Hsent, <- app_assoc. reflexivity.
    + rewrite (pending_set_future xs fs a x r Hx Hf). simpl. now apply perm_skip.
Qed.

Lemma gather_length (fs : futures B) (bs : list B) :
  gather fs = Ok bs -> List.length bs = List.length fs.
Proof.
  revert bs. induction fs as [|f fs IH]; intros bs; simpl.
  - now intros [= <-].
  - destruct f as [[b|e]|]; try discriminate.
    unfold rbind. destruct (gather fs) as [bs'|e]; [|discriminate].
    intros [= <-]. simpl. now rewrite (IH bs').
Qed.

(** Under every schedule the pool sends the requests of all the tasks,
    each once, and a list that it returns has one element per task. *)
Lemma executor_map_sent (schedule : list nat) (xs : list A) (w : world) :
  (exists ran,
     sent (snd (executor_map fn schedule xs w)) = sent w ++ map req ran
     /\ Permutation xs ran)
  /\ forall bs, fst (executor_map fn schedule xs w) = Ok bs ->
                List.length bs = List.length xs.
Proof.
  unfold executor_map.
  set (order := schedule ++ seq 0 (List.length xs)).
  set (fs0 := repeat (@None (result B)) (List.length xs)).
  assert (Hlen0 : List.length fs0 = List.length xs) by apply repeat_length.
  destruct (run_tasks_done xs order fs0 w Hlen0) as [Hlen Hdone].
  destruct (run_tasks_sent xs order fs0 w) as (ran & Hs & Hp).
  destruct (run_tasks fn xs order fs0 w) as [fs w'] eqn:Hrun. simpl in *.
  split.
  - exists ran. split; [exact Hs|].
    rewrite (pending_done xs fs Hlen) in Hp.
    + unfold fs0 in Hp. rewrite pending_repeat, app_nil_r in Hp. exact Hp.
    + intros i Hi. apply Hdone; [exact Hi|]. left. apply in_or_app. right.
      apply in_seq. lia.
  - intros bs Hb. rewrite (gather_length fs bs Hb). exact Hlen.
Qed.

End PoolRequests.

Section DeepBatchExtras.
Context {U : UnicodeData} {E : Environment}.
Import Bs4.

(** X22. A deep batch costs one detail request per record.  When the
    batch of a deep search is returned, it has one element per record of
    the listing, and the requests sent after the listing was parsed are the
    detail requests of the records, each once, in the order in which the
    threads of the pool took them, whatever that order was. *)
Theorem deep_batch_requests
    (self : MLOLClient) (req_params : dict) (pages : nat) (first_response : Response)
    (schedule : list nat) (i : nat) (w w1 w2 w3 : world) (response : Response)
    (books : list MLOLBook) (batch : list (option MLOLBook)) :
  page_response self req_params pages first_response i w = (Ok response, w1) ->
  _parse_search_page (BeautifulSoup_root (BeautifulSoup (Requests.text response))) w1
  = (Ok books, w2) ->
  search_page self req_params pages true first_response schedule i w = (Ok batch, w3) ->
  List.length batch = List.length books
  /\ exists requests,
       sent_since w2 w3 requests
       /\ Permutation (map (fun book => detail_request (id book)) books) requests.
Proof.
  intros Hresp Hparse Hrun.
  unfold search_page in Hrun. unfold bind at 1 in Hrun. rewrite Hresp in Hrun.
  unfold bind at 1 in Hrun. rewrite Hparse in Hrun.
  unfold bind at 1 in Hrun. unfold lift in Hrun.
  destruct (ThreadPoolExecutor (Nat.min (List.length books) max_threads));
    [|discriminate Hrun].
  destruct (executor_map_sent _ _ (get_book_by_id self) detail_request
              (fun x v => proj1 (get_book_by_id_sent self x v))
              schedule (map id books) w2) as [(ran & Hs & Hp) Hlen].
  rewrite Hrun in Hs, Hlen. simpl in Hs, Hlen. split.
  - rewrite (Hlen batch eq_refl). apply length_map.
  - exists (map detail_request ran). split; [exact Hs|].
    rewrite <- (map_map id detail_request). now apply Permutation_map.
Qed.

End DeepBatchExtras.

Lemma deep_batch_requests_witness :
  let env := Fixtures.catalogue_portal Fixtures.listing_five
               (Fixtures.detail_page "Scarica") in
  let w := Fixtures.start env [] tt in
  let r := search_page (U := ascii_only) (E := env) Fixtures.client [] 1 true
             (Fixtures.page 200 "listing") [4; 2; 0; 3; 1]%nat 1 w in
  exists batch,
    fst r = Ok batch
    /\ List.length batch = 5%nat
    /\ Permutation
         (map detail_request [py "150"; py "151"; py "152"; py "153"; py "154"])
         (sent (snd r)).
Proof.
  intros env w r.
  destruct r as [[batch|e] w3] eqn:Hrun; [|vm_compute in Hrun; discriminate Hrun].
  exists batch. split; [reflexivity|].
  destruct (_parse_search_page (U := ascii_only) (E := env)
              (Bs4.BeautifulSoup_root (BeautifulSoup (py "listing"))) w)
    as [[books|e] w2] eqn:Hparse; [|vm_compute in Hparse; discriminate Hparse].
  destruct (deep_batch_requests (U := ascii_only) (E := env) Fixtures.client [] 1
              (Fixtures.page 200 "listing") [4; 2; 0; 3; 1]%nat 1 w w w2 w3
              (Fixtures.page 200 "listing") books batch eq_refl Hparse Hrun)
    as (Hlen & requests & Hsent & Hperm).
  vm_compute in Hparse. injection Hparse as <- <-.
  split; [exact Hlen|].
  unfold sent_since in Hsent. simpl in Hsent. simpl. rewrite Hsent. exact Hperm.
Defined.

(** ** The methods that take a record *)

Section RecordExtras.
Context {U : UnicodeData} {E : Environment}.


End RecordExtras.


(** ** The texts of the records *)

Section TextExtras.
Context {U : UnicodeData} {E : Environment}.
Import Bs4.

Lemma dropwhile_fixed (f : codepoint -> bool) (s : pystr) :
  PyStr.dropwhile f (PyStr.dropwhile f s) = PyStr.dropwhile f s.
Proof.
  destruct (dropwhile_shape f s) as [->|(c & t & -> & Hc)]; [reflexivity|].
  simpl. now rewrite Hc.
Qed.

Lemma rstrip_prefix (s : pystr) : exists dropped, s = PyStr.rstrip s ++ dropped.
Proof.
  unfold PyStr.rstrip.
  destruct (dropwhile_suffix PyStr.isspace (rev s)) as [d Hd].
  exists (rev d). rewrite <- rev_app_distr, <- Hd. now rewrite rev_involutive.
Qed.

(** Stripping gives a text that stripping leaves as it is. *)
Lemma strip_trimmed (s : pystr) : trimmed (PyStr.strip s).
Proof.
  unfold trimmed, PyStr.strip.
  set (u := PyStr.lstrip s).
  assert (Hleft : PyStr.lstrip (PyStr.rstrip u) = PyStr.rstrip u).
  { destruct (rstrip_prefix u) as [d Hd].
    destruct (PyStr.rstrip u) as [|c t] eqn:Hr; [reflexivity|].
    unfold u, PyStr.lstrip in Hd.
    destruct (dropwhile_shape PyStr.isspace s) as [H0|(c' & t' & H1 & Hc)].
    - rewrite H0 in Hd. discriminate Hd.
    - rewrite H1 in Hd. simpl in Hd. injection Hd as Hhead _. subst c'.
      unfold PyStr.lstrip. simpl. now rewrite Hc. }
  rewrite Hleft. unfold PyStr.rstrip. rewrite rev_involutive, dropwhile_fixed.
  reflexivity.
Qed.

Lemma in_dropwhile (f : codepoint -> bool) (x : codepoint) (s : pystr) :
  In x (PyStr.dropwhile f s) -> In x s.
Proof.
  destruct (dropwhile_suffix f s) as [d Hd]. intros H. rewrite Hd.
  apply in_or_app. now right.
Qed.

Lemma in_strip (x : codepoint) (s : pystr) : In x (PyStr.strip s) -> In x s.
Proof.
  unfold PyStr.strip, PyStr.rstrip, PyStr.lstrip. intros H.
  apply in_rev, in_dropwhile, in_rev in H. now apply in_dropwhile in H.
Qed.

Lemma split_from_free (sep : codepoint) (s cur : pystr) :
  ~ In sep cur -> Forall (fun p => ~ In sep p) (PyStr.split_from sep cur s).
Proof.
  revert cur. induction s as [|c s IH]; intros cur Hcur; simpl.
  - constructor; [|constructor]. intros H. now apply in_rev in H.
  - destruct (c =? sep) eqn:Hc.
    + constructor; [intros H; now apply in_rev in H | apply IH; tauto].
    + apply IH. intros [-> | H]; [|tauto]. now rewrite N.eqb_refl in Hc.
Qed.

Lemma split_names (s : pystr) : names (map PyStr.strip (PyStr.split 59 s)).
Proof.
  split.
  - intros H. apply map_eq_nil in H. now apply split_not_empty in H.
  - apply Forall_map. eapply Forall_impl; [|apply (split_from_free 59 s []); tauto].
    intros p Hp. split; [apply strip_trimmed|]. intros H. apply Hp. now apply in_strip in H.
Qed.

(** The loop of the listing parser adds shallow records only. *)
Lemma parse_result_items_shallow (page : element) (items : list element) :
  forall i authors books w records w',
    parse_result_items page i items authors books w = (Ok records, w') ->
    Forall shallow books -> Forall shallow records.
Proof.
  induction items as [|book rest IH]; intros i authors books w records w'; simpl.
  - unfold ret. now intros [= <- _].
  - destruct (item_title_id book) as [[t d]|e].
    + destruct (match item_authors page book authors with
                | Ok a => a
                | Raise _ => Some None
                end) as [a|]; [|discriminate].
      intros Hrun Hall. apply (IH _ _ _ _ _ _ Hrun).
      apply Forall_app. split; [exact Hall|].
      constructor; [|constructor]. now exists a.
    + unfold bind. rewrite logging_add_log. intros Hrun Hall.
      now apply (IH _ _ _ _ _ _ Hrun).
Qed.

(** X24. The texts of the records are clean.  A record of the listing
    parser carries an ID, a title and authors and no other field; a list of
    authors, in a listing record and in the data of a detail page alike, is
    not empty, and each of its names is free of semicolons and of white
    space at its ends.  The title, the publisher, the language and every
    ISBN read from a detail page have no white space at their ends
    either. *)
Theorem record_texts_clean :
  (forall page w records w',
     _parse_search_page page w = (Ok records, w') ->
     Forall (fun book =>
               shallow book
               /\ forall l, authors book = Some l -> names l) records)
  /\ (forall page w d w',
        _parse_book_page page w = (Ok d, w') ->
        (forall l, bd_authors d = Some l -> names l)
        /\ (forall t, bd_title d = Some t -> trimmed t)
        /\ (forall p, bd_publisher d = Some p -> trimmed p)
        /\ (forall l, bd_language d = Some l -> trimmed l)
        /\ (forall l, bd_ISBNs d = Some l -> Forall trimmed l)).
Proof.
  split.
  - intros page w records w' Hrun. unfold _parse_search_page in Hrun.
    pose proof (parse_result_items_shallow _ _ _ _ _ _ _ _ Hrun (Forall_nil _)) as Hall.
    eapply Forall_impl; [|exact Hall].
    intros book Hs. split; [exact Hs|].
    destruct Hs as [a Hb]. intros l Hl. rewrite Hb in Hl. simpl in Hl.
    destruct a as [[|c s]|]; try discriminate Hl.
    unfold split_authors in Hl. injection Hl as <-. apply split_names.
  - intros page w d w' Hrun.
    destruct (book_data_fields page w w' d Hrun) as (Ht & Ha & Hp & Hi & _ & Hl).
    split; [|split; [|split; [|split]]].
    + clear - Ha. intros l. rewrite Ha. destruct (select_one _ page); simpl; [|discriminate].
      intros [= <-]. apply split_names.
    + clear - Ht. intros t. rewrite Ht. destruct (select_one _ page); simpl; [|discriminate].
      intros [= <-]. apply strip_trimmed.
    + clear - Hp. intros p. rewrite Hp. destruct (select_one _ page); simpl; [|discriminate].
      intros [= <-]. apply strip_trimmed.
    + clear - Hl. intros l. rewrite Hl. destruct (find_attr _ _ _ page); simpl; [|discriminate].
      intros [= <-]. apply strip_trimmed.
    + clear - Hi. intros l. rewrite Hi. destruct (find_all_attr _ _ page) as [|e l0]; [discriminate|].
      intros [= <-].
      change (Forall trimmed (map (fun i => PyStr.strip (text i)) (e :: l0))).
      rewrite Forall_map. apply Forall_forall. intros x _. apply strip_trimmed.
Qed.

End TextExtras.

Lemma record_texts_clean_witness :
  match fst (_parse_search_page (U := ascii_only) (E := Fixtures.offline)
               Fixtures.listing_three Fixtures.fresh) with
  | Ok records =>
      Forall (fun book => forall l, authors book = Some l -> names (U := ascii_only) l)
        records
  | Raise _ => False
  end.
Proof.
  destruct (_parse_search_page (U := ascii_only) (E := Fixtures.offline)
              Fixtures.listing_three Fixtures.fresh) as [[records|e] w'] eqn:Hrun;
    [|vm_compute in Hrun; discriminate Hrun].
  destruct (record_texts_clean (U := ascii_only) (E := Fixtures.offline)) as [H _].
  simpl. eapply Forall_impl; [|exact (H _ _ _ _ Hrun)].
  intros book [_ Hn]. exact Hn.
Defined.
